(** * SafeStride: behavioural anomaly scoring and baseline adaptation

    A shallow embedding of the backend services of SafeStride
    ([behaviorAnalysis.ts], [mlService.ts], [userService.ts], the routes of
    [routes/behavior.ts] and the login and logout routes of
    [routes/auth.ts]) together with the properties of the scoring engine
    and of the bookkeeping around it.

    Conventions of the embedding.
    - A JavaScript [number] is a real number ([R]); arithmetic is exact.
      Where a property turns on the rounding of doubles, the expression is
      also given over binary64 floats ([Binary64]).
      [Math.min], [Math.max], [Math.abs], [Math.sqrt] are [Rmin], [Rmax],
      [Rabs], [sqrt]; a comparison [a < b] in a condition is [Rlt_dec a b],
      a test [a === 0] is [Req_dec_T a 0].
    - A [Date] is the integer number of milliseconds it holds; the clock
      reading is an input of every operation that reads the clock.
    - A template string that interpolates a number with [toFixed(1)] is kept
      as the pair of its fixed text and the number it renders.
    - [Map<string, Session>] and [Map<string, MLUserProfile>] are finite
      maps; an object stored in a map and mutated through a reference is an
      update of the map at its key.  The user map, which the code scans in
      insertion order, is a list in that order. *)

From Stdlib Require Import PrimFloat.
From Stdlib Require Import Reals Lra ZArith List DecimalString.
From Stdlib Require DecimalPos DecimalZ.
From stdpp Require Import gmap strings.

Open Scope R_scope.

#[local] Set Warnings "-inexact-float".

(** ** types/index.ts *)

Module Types.

Record BehaviorMetrics := {
  avgTypingInterval : R;
  mouseMovementCount : R;
  scrollEventCount : R;
  sessionDuration : R
}.

Record BehaviorProfile := {
  userId : string;
  baselineTypingInterval : R;
  baselineMouseActivity : R;
  baselineScrollPattern : R;
  anomalyThreshold : R;
  lastUpdated : Z
}.

Record User := {
  id : string;
  username : string;
  email : string;
  behaviorProfile : BehaviorProfile;
  createdAt : Z;
  lastLogin : Z
}.

Record UserCredentials := {
  credUsername : string;
  credPassword : string
}.

Inductive Recommendation := pass | reauthenticate | lock.

(** [`${factorText}: ${factorPct.toFixed(1)}%`] *)
Record Factor := {
  factorText : string;
  factorPct : R
}.

Record AnomalyAnalysis := {
  score : R;
  confidence : R;
  factors : list Factor;
  recommendation : Recommendation
}.

Record Session := {
  sessId : string;
  sessUserId : string;
  startTime : Z;
  lastActivity : Z;
  isActive : bool;
  anomalyScore : R
}.

(** ['typing' | 'mouse' | 'scroll' | 'session'] *)
Inductive FlagType := type_typing | type_mouse | type_scroll | type_session.
Inductive Severity := low | medium | high.

(** [`${descText}: ${descScore.toFixed(1)} - ${descFactors.join(', ')}`] *)
Record Description := {
  descText : string;
  descScore : R;
  descFactors : list Factor
}.

Record FlagLog := {
  flagId : string;
  flagSessionId : string;
  timestamp : Z;
  type : FlagType;
  severity : Severity;
  description : Description;
  action : string;
  resolved : bool
}.

End Types.

Import Types.

(** ** services/behaviorAnalysis.ts : the scalar-baseline scorer *)

Module BehaviorAnalysisService.

Definition analyzeTypingBehavior (currentInterval baselineInterval : R) : R :=
  if Req_dec_T baselineInterval 0 then 0
  else
    let deviation := Rabs (currentInterval - baselineInterval) / baselineInterval in
    Rmin 100 (deviation * 100).

Definition analyzeMouseBehavior (currentActivity baselineActivity : R) : R :=
  if Req_dec_T baselineActivity 0 then 0
  else
    let deviation := Rabs (currentActivity - baselineActivity) / baselineActivity in
    Rmin 100 (deviation * 100).

Definition analyzeScrollBehavior (currentScrolls baselineScrolls : R) : R :=
  if Req_dec_T baselineScrolls 0 then 0
  else
    let deviation := Rabs (currentScrolls - baselineScrolls) / baselineScrolls in
    Rmin 100 (deviation * 100).

Definition analyzeSessionBehavior (sessionDuration : R) : R :=
  let suspiciousThreshold := 5000 in
  if Rlt_dec sessionDuration suspiciousThreshold then 30 else 0.

Definition analyzeBehavior (currentMetrics : BehaviorMetrics)
    (userProfile : BehaviorProfile) : AnomalyAnalysis :=
  let factors : list Factor := [] in
  let totalScore := 0 in
  let confidence := 0.8 in
  let typingDeviation :=
    analyzeTypingBehavior (avgTypingInterval currentMetrics)
                          (baselineTypingInterval userProfile) in
  let '(factors, totalScore) :=
    if Rlt_dec 0 typingDeviation
    then (factors ++ [Build_Factor "Typing speed deviation" typingDeviation],
          totalScore + typingDeviation * 0.4)
    else (factors, totalScore) in
  let mouseDeviation :=
    analyzeMouseBehavior (mouseMovementCount currentMetrics)
                         (baselineMouseActivity userProfile) in
  let '(factors, totalScore) :=
    if Rlt_dec 0 mouseDeviation
    then (factors ++ [Build_Factor "Mouse activity deviation" mouseDeviation],
          totalScore + mouseDeviation * 0.3)
    else (factors, totalScore) in
  let scrollDeviation :=
    analyzeScrollBehavior (scrollEventCount currentMetrics)
                          (baselineScrollPattern userProfile) in
  let '(factors, totalScore) :=
    if Rlt_dec 0 scrollDeviation
    then (factors ++ [Build_Factor "Scroll pattern deviation" scrollDeviation],
          totalScore + scrollDeviation * 0.2)
    else (factors, totalScore) in
  let sessionDeviation :=
    analyzeSessionBehavior (sessionDuration currentMetrics) in
  let '(factors, totalScore) :=
    if Rlt_dec 0 sessionDeviation
    then (factors ++ [Build_Factor "Session duration anomaly" sessionDeviation],
          totalScore + sessionDeviation * 0.1)
    else (factors, totalScore) in
  let normalizedScore := Rmin 100 (Rmax 0 totalScore) in
  let recommendation :=
    if Rlt_dec normalizedScore 30 then pass
    else if Rlt_dec normalizedScore 70 then reauthenticate
    else lock in
  let confidence :=
    if Req_dec_T (avgTypingInterval currentMetrics) 0
    then confidence * 0.7 else confidence in
  let confidence :=
    if Req_dec_T (mouseMovementCount currentMetrics) 0
    then confidence * 0.8 else confidence in
  {| score := normalizedScore;
     confidence := Rmax 0.5 confidence;
     factors := factors;
     recommendation := recommendation |}.

Definition updateBaseline (currentBaseline newValue learningRate : R) : R :=
  currentBaseline * (1 - learningRate) + newValue * learningRate.

(** [{...currentProfile, baseline...: ..., lastUpdated: new Date()}] *)
Definition updateProfile (currentProfile : BehaviorProfile)
    (newMetrics : BehaviorMetrics) (learningRate : R) (now : Z)
    : BehaviorProfile :=
  {| userId := userId currentProfile;
     baselineTypingInterval :=
       updateBaseline (baselineTypingInterval currentProfile)
                      (avgTypingInterval newMetrics) learningRate;
     baselineMouseActivity :=
       updateBaseline (baselineMouseActivity currentProfile)
                      (mouseMovementCount newMetrics) learningRate;
     baselineScrollPattern :=
       updateBaseline (baselineScrollPattern currentProfile)
                      (scrollEventCount newMetrics) learningRate;
     anomalyThreshold := anomalyThreshold currentProfile;
     lastUpdated := now |}.

(** [value || fallback] on a number: 0 is the falsy one. *)
Definition orDefault (value fallback : R) : R :=
  if Req_dec_T value 0 then fallback else value.

Definition createBaselineProfile (initialMetrics : BehaviorMetrics) (now : Z)
    : BehaviorProfile :=
  {| userId := "temp";
     baselineTypingInterval := orDefault (avgTypingInterval initialMetrics) 250;
     baselineMouseActivity := orDefault (mouseMovementCount initialMetrics) 50;
     baselineScrollPattern := orDefault (scrollEventCount initialMetrics) 5;
     anomalyThreshold := 30;
     lastUpdated := now |}.

End BehaviorAnalysisService.

(** ** services/mlService.ts : the rolling-history z-score scorer *)

Module MLService.

Record MLUserProfile := {
  userId : string;
  typingIntervals : list R;
  mouseMovements : list R;
  scrollEvents : list R;
  baselineTypingInterval : R;
  baselineMouseActivity : R;
  baselineScrollPattern : R;
  lastUpdated : Z
}.

(** [arr.slice(-n)]: the last [n] elements, the whole array when it is
    shorter. *)
Definition sliceLast (n : nat) (arr : list R) : list R :=
  drop (length arr - n) arr.

(** [userProfiles.has(userId)] decides between the stored object and a
    fresh one, which is stored before it is returned. *)
Definition getOrCreateProfile (userProfiles : gmap string MLUserProfile)
    (uid : string) (now : Z) : MLUserProfile * gmap string MLUserProfile :=
  match userProfiles !! uid with
  | Some profile => (profile, userProfiles)
  | None =>
      let newProfile :=
        {| userId := uid;
           typingIntervals := [];
           mouseMovements := [];
           scrollEvents := [];
           baselineTypingInterval := 250;
           baselineMouseActivity := 50;
           baselineScrollPattern := 10;
           lastUpdated := now |} in
      (newProfile, <[uid := newProfile]> userProfiles)
  end.

Definition updateBaseline (current newValue alpha : R) : R :=
  current * (1 - alpha) + newValue * alpha.

Definition updateProfile (profile : MLUserProfile) (metrics : BehaviorMetrics)
    (now : Z) : MLUserProfile :=
  let typingIntervals := typingIntervals profile ++ [avgTypingInterval metrics] in
  let mouseMovements := mouseMovements profile ++ [mouseMovementCount metrics] in
  let scrollEvents := scrollEvents profile ++ [scrollEventCount metrics] in
  let typingIntervals := sliceLast 100 typingIntervals in
  let mouseMovements := sliceLast 100 mouseMovements in
  let scrollEvents := sliceLast 100 scrollEvents in
  let alpha := 0.1 in
  {| userId := userId profile;
     typingIntervals := typingIntervals;
     mouseMovements := mouseMovements;
     scrollEvents := scrollEvents;
     baselineTypingInterval :=
       updateBaseline (baselineTypingInterval profile)
                      (avgTypingInterval metrics) alpha;
     baselineMouseActivity :=
       updateBaseline (baselineMouseActivity profile)
                      (mouseMovementCount metrics) alpha;
     baselineScrollPattern :=
       updateBaseline (baselineScrollPattern profile)
                      (scrollEventCount metrics) alpha;
     lastUpdated := now |}.

Definition calculateTypingAnomaly (currentInterval : R)
    (profile : MLUserProfile) : R :=
  if (length (typingIntervals profile) <? 5)%nat then 0
  else
    let mean :=
      fold_left (fun a b => a + b) (typingIntervals profile) 0
      / INR (length (typingIntervals profile)) in
    let std :=
      sqrt (fold_left (fun sum val => sum + (val - mean) ^ 2)
                      (typingIntervals profile) 0
            / INR (length (typingIntervals profile))) in
    if Req_dec_T std 0 then 0
    else
      let zScore := Rabs (currentInterval - mean) / std in
      Rmin 100 (zScore * 20).

Definition calculateMouseAnomaly (currentMovements : R)
    (profile : MLUserProfile) : R :=
  if (length (mouseMovements profile) <? 5)%nat then 0
  else
    let mean :=
      fold_left (fun a b => a + b) (mouseMovements profile) 0
      / INR (length (mouseMovements profile)) in
    let std :=
      sqrt (fold_left (fun sum val => sum + (val - mean) ^ 2)
                      (mouseMovements profile) 0
            / INR (length (mouseMovements profile))) in
    if Req_dec_T std 0 then 0
    else
      let zScore := Rabs (currentMovements - mean) / std in
      Rmin 100 (zScore * 20).

Definition calculateScrollAnomaly (currentScrolls : R)
    (profile : MLUserProfile) : R :=
  if (length (scrollEvents profile) <? 5)%nat then 0
  else
    let mean :=
      fold_left (fun a b => a + b) (scrollEvents profile) 0
      / INR (length (scrollEvents profile)) in
    let std :=
      sqrt (fold_left (fun sum val => sum + (val - mean) ^ 2)
                      (scrollEvents profile) 0
            / INR (length (scrollEvents profile))) in
    if Req_dec_T std 0 then 0
    else
      let zScore := Rabs (currentScrolls - mean) / std in
      Rmin 100 (zScore * 20).

Definition calculateConfidence (profile : MLUserProfile) : R :=
  let dataPoints :=
    Nat.min (Nat.min (length (typingIntervals profile))
                     (length (mouseMovements profile)))
            (length (scrollEvents profile)) in
  if (dataPoints <? 5)%nat then 0.3
  else if (dataPoints <? 20)%nat then 0.6
  else if (dataPoints <? 50)%nat then 0.8
  else 0.95.

(** [analyzeBehavior(userId, behaviorMetrics)].  The profile object is
    fetched (or created and stored), [updateProfile] mutates it in place,
    and the scores are then read off the same object; the returned map is
    the service's map after the call. *)
Definition analyzeBehavior (userProfiles : gmap string MLUserProfile)
    (uid : string) (behaviorMetrics : BehaviorMetrics) (now : Z)
    : AnomalyAnalysis * gmap string MLUserProfile :=
  let '(profile, userProfiles) := getOrCreateProfile userProfiles uid now in
  let profile := updateProfile profile behaviorMetrics now in
  let userProfiles := <[uid := profile]> userProfiles in
  let typingScore :=
    calculateTypingAnomaly (avgTypingInterval behaviorMetrics) profile in
  let mouseScore :=
    calculateMouseAnomaly (mouseMovementCount behaviorMetrics) profile in
  let scrollScore :=
    calculateScrollAnomaly (scrollEventCount behaviorMetrics) profile in
  let overallScore := typingScore * 0.4 + mouseScore * 0.3 + scrollScore * 0.3 in
  let recommendation :=
    if Rlt_dec overallScore 30 then pass
    else if Rlt_dec overallScore 70 then reauthenticate
    else lock in
  let confidence := calculateConfidence profile in
  let factors : list Factor := [] in
  let factors :=
    if Rlt_dec 30 typingScore
    then factors ++ [Build_Factor "Typing anomaly" typingScore] else factors in
  let factors :=
    if Rlt_dec 30 mouseScore
    then factors ++ [Build_Factor "Mouse activity anomaly" mouseScore]
    else factors in
  let factors :=
    if Rlt_dec 30 scrollScore
    then factors ++ [Build_Factor "Scroll pattern anomaly" scrollScore]
    else factors in
  ({| score := Rmin 100 (Rmax 0 overallScore);
      confidence := confidence;
      factors := factors;
      recommendation := recommendation |},
   userProfiles).

Definition getProfile (userProfiles : gmap string MLUserProfile)
    (uid : string) : option MLUserProfile :=
  userProfiles !! uid.

(** [userProfiles.delete(userId)]: whether there was an entry, and the map
    without it. *)
Definition deleteProfile (userProfiles : gmap string MLUserProfile)
    (uid : string) : bool * gmap string MLUserProfile :=
  (match userProfiles !! uid with Some _ => true | None => false end,
   delete uid userProfiles).

End MLService.

(** ** The baseline update over IEEE doubles

    [updateBaseline] of [behaviorAnalysis.ts] and of [mlService.ts] is the
    same expression; here it is with the arithmetic of a JavaScript
    [number], binary64 with rounding to nearest. *)

Module Binary64.

Definition updateBaseline (currentBaseline newValue learningRate : float)
    : float :=
  (currentBaseline * (1 - learningRate) + newValue * learningRate)%float.

End Binary64.

(** ** services/userService.ts : users, sessions and the flag log *)

Module UserService.

Record State := {
  users : list User;
  sessions : gmap string Session;
  flagLogs : list FlagLog
}.

(** [Date.now().toString()] *)
Definition dateNowString (now : Z) : string :=
  NilZero.string_of_int (Z.to_int now).

Definition createSession (uid : string) (now : Z) (st : State)
    : Session * State :=
  let session :=
    {| sessId := "session-" +:+ dateNowString now;
       sessUserId := uid;
       startTime := now;
       lastActivity := now;
       isActive := true;
       anomalyScore := 0 |} in
  (session,
   {| users := users st;
      sessions := <[sessId session := session]> (sessions st);
      flagLogs := flagLogs st |}).

Definition getSession (sessionId : string) (st : State) : option Session :=
  sessions st !! sessionId.

Definition updateSessionActivity (sessionId : string) (anomalyScore : R)
    (now : Z) (st : State) : State :=
  match sessions st !! sessionId with
  | Some session =>
      let session :=
        {| sessId := sessId session;
           sessUserId := sessUserId session;
           startTime := startTime session;
           lastActivity := now;
           isActive := isActive session;
           anomalyScore := anomalyScore |} in
      {| users := users st;
         sessions := <[sessionId := session]> (sessions st);
         flagLogs := flagLogs st |}
  | None => st
  end.

Definition endSession (sessionId : string) (st : State) : State :=
  match sessions st !! sessionId with
  | Some session =>
      let session :=
        {| sessId := sessId session;
           sessUserId := sessUserId session;
           startTime := startTime session;
           lastActivity := lastActivity session;
           isActive := false;
           anomalyScore := Types.anomalyScore session |} in
      {| users := users st;
         sessions := <[sessionId := session]> (sessions st);
         flagLogs := flagLogs st |}
  | None => st
  end.

(** [Omit<FlagLog, 'id'>] *)
Record FlagLogFields := {
  newSessionId : string;
  newTimestamp : Z;
  newType : FlagType;
  newSeverity : Severity;
  newDescription : Description;
  newAction : string;
  newResolved : bool
}.

Definition addFlagLog (flagLog : FlagLogFields) (now : Z) (st : State)
    : FlagLog * State :=
  let newFlagLog :=
    {| flagId := dateNowString now;
       flagSessionId := newSessionId flagLog;
       timestamp := newTimestamp flagLog;
       type := newType flagLog;
       severity := newSeverity flagLog;
       description := newDescription flagLog;
       action := newAction flagLog;
       resolved := newResolved flagLog |} in
  (newFlagLog,
   {| users := users st;
      sessions := sessions st;
      flagLogs := flagLogs st ++ [newFlagLog] |}).

Definition getAllUsers (st : State) : list User := users st.

(** [user.behaviorProfile = updatedProfile] on the first user of the scan
    whose id matches. *)
Fixpoint setBehaviorProfile (uid : string) (updatedProfile : BehaviorProfile)
    (us : list User) : list User :=
  match us with
  | [] => []
  | u :: rest =>
      if String.eqb (id u) uid
      then {| id := id u;
              username := username u;
              email := email u;
              behaviorProfile := updatedProfile;
              createdAt := createdAt u;
              lastLogin := lastLogin u |} :: rest
      else u :: setBehaviorProfile uid updatedProfile rest
  end.

Definition updateBehaviorProfile (uid : string) (newMetrics : BehaviorMetrics)
    (learningRate : R) (now : Z) (st : State)
    : option BehaviorProfile * State :=
  match List.find (fun u => String.eqb (id u) uid) (users st) with
  | None => (None, st)
  | Some user =>
      let updatedProfile :=
        BehaviorAnalysisService.updateProfile
          (behaviorProfile user) newMetrics learningRate now in
      (Some updatedProfile,
       {| users := setBehaviorProfile uid updatedProfile (users st);
          sessions := sessions st;
          flagLogs := flagLogs st |})
  end.

(** [this.users.get(username)]: the entry stored under the key. *)
Definition getUserByUsername (uname : string) (st : State) : option User :=
  List.find (fun u => String.eqb (username u) uname) (users st).

(** [user.lastLogin = new Date()] on the entry stored under the key. *)
Fixpoint setLastLogin (uname : string) (now : Z) (us : list User)
    : list User :=
  match us with
  | [] => []
  | u :: rest =>
      if String.eqb (username u) uname
      then {| id := id u;
              username := username u;
              email := email u;
              behaviorProfile := behaviorProfile u;
              createdAt := createdAt u;
              lastLogin := now |} :: rest
      else u :: setLastLogin uname now rest
  end.

(** Any password is accepted; an unknown user name is registered on the
    spot, with the neutral profile. *)
Definition authenticateUser (credentials : UserCredentials) (now : Z)
    (st : State) : option User * State :=
  match List.find (fun u => String.eqb (username u) (credUsername credentials))
                  (users st) with
  | Some user =>
      (Some {| id := id user;
               username := username user;
               email := email user;
               behaviorProfile := behaviorProfile user;
               createdAt := createdAt user;
               lastLogin := now |},
       {| users := setLastLogin (credUsername credentials) now (users st);
          sessions := sessions st;
          flagLogs := flagLogs st |})
  | None =>
      let newUser :=
        {| id := dateNowString now;
           username := credUsername credentials;
           email := credUsername credentials +:+ "@example.com";
           behaviorProfile :=
             {| userId := dateNowString now;
                baselineTypingInterval := 250;
                baselineMouseActivity := 50;
                baselineScrollPattern := 10;
                anomalyThreshold := 30;
                lastUpdated := now |};
           createdAt := now;
           lastLogin := now |} in
      (Some newUser,
       {| users := users st ++ [newUser];
          sessions := sessions st;
          flagLogs := flagLogs st |})
  end.

(** [getFlagLogs(sessionId?)]: an absent or empty session id asks for the
    whole log. *)
Definition getFlagLogs (sessionId : option string) (st : State)
    : list FlagLog :=
  match sessionId with
  | None | Some EmptyString => flagLogs st
  | Some sid =>
      List.filter (fun log => String.eqb (flagSessionId log) sid) (flagLogs st)
  end.

(** [flagLog.resolved = true] on the first entry of the log with the id. *)
Fixpoint resolveFirst (flagLogId : string) (logs : list FlagLog)
    : list FlagLog :=
  match logs with
  | [] => []
  | log :: rest =>
      if String.eqb (flagId log) flagLogId
      then {| flagId := flagId log;
              flagSessionId := flagSessionId log;
              timestamp := timestamp log;
              type := type log;
              severity := severity log;
              description := description log;
              action := action log;
              resolved := true |} :: rest
      else log :: resolveFirst flagLogId rest
  end.

Definition resolveFlagLog (flagLogId : string) (st : State) : bool * State :=
  match List.find (fun log => String.eqb (flagId log) flagLogId)
                  (flagLogs st) with
  | Some _ =>
      (true,
       {| users := users st;
          sessions := sessions st;
          flagLogs := resolveFirst flagLogId (flagLogs st) |})
  | None => (false, st)
  end.

(** [this.users.delete(userToDelete.username)] for the first user of the
    scan whose id matches. *)
Definition deleteUser (uid : string) (st : State) : bool * State :=
  match List.find (fun u => String.eqb (id u) uid) (users st) with
  | Some userToDelete =>
      (true,
       {| users :=
            List.filter
              (fun u => negb (String.eqb (username u) (username userToDelete)))
              (users st);
          sessions := sessions st;
          flagLogs := flagLogs st |})
  | None => (false, st)
  end.

(** [Array.from(this.sessions.values()).filter(session => session.isActive)].
    The listing comes in the order of the finite map, where the source has
    the order of insertion; what is proved of it is about its members and
    their number. *)
Definition getActiveSessions (st : State) : list Session :=
  List.filter (fun s => isActive s) (snd <$> map_to_list (sessions st)).

End UserService.

(** ** routes/behavior.ts : POST /analyze *)

Module BehaviorRoutes.

Import UserService.

(** The fields the handler reads off [req.body]; a field that is absent is
    [None]. *)
Record AnalyzeBody := {
  bodyUserId : option string;
  bodyBehaviorMetrics : option BehaviorMetrics;
  bodySessionId : option string
}.

Inductive Response :=
| BadRequest
| NotFound
| Success (analysis : AnomalyAnalysis) (updatedProfile : BehaviorProfile).

(** A string in a condition: absent and empty strings are falsy. *)
Definition truthy (s : option string) : option string :=
  match s with
  | Some EmptyString => None
  | other => other
  end.

Definition postAnalyze (body : AnalyzeBody) (now : Z) (st : State)
    : Response * State :=
  match truthy (bodyUserId body), bodyBehaviorMetrics body with
  | Some uid, Some behaviorMetrics =>
      match List.find (fun u => String.eqb (id u) uid) (getAllUsers st) with
      | None => (NotFound, st)
      | Some user =>
          let analysis :=
            BehaviorAnalysisService.analyzeBehavior
              behaviorMetrics (behaviorProfile user) in
          let st :=
            match truthy (bodySessionId body) with
            | Some sessionId =>
                updateSessionActivity sessionId (score analysis) now st
            | None => st
            end in
          let st :=
            if Rlt_dec 30 (score analysis) then
              let severity :=
                if Rlt_dec 70 (score analysis) then high
                else if Rlt_dec 50 (score analysis) then medium
                else low in
              let action :=
                match recommendation analysis with
                | lock => "Session locked"
                | reauthenticate => "Request re-authentication"
                | pass => "Monitor"
                end in
              snd (addFlagLog
                     {| newSessionId :=
                          match truthy (bodySessionId body) with
                          | Some sessionId => sessionId
                          | None => "unknown"
                          end;
                        newTimestamp := now;
                        newType := type_session;
                        newSeverity := severity;
                        newDescription :=
                          {| descText := "Real-time anomaly";
                             descScore := score analysis;
                             descFactors := factors analysis |};
                        newAction := action;
                        newResolved := false |}
                     now st)
            else st in
          let '(updated, st) :=
            updateBehaviorProfile (id user) behaviorMetrics 0.1 now st in
          (Success analysis
             match updated with
             | Some updatedProfile => updatedProfile
             | None => behaviorProfile user
             end,
           st)
      end
  | _, _ => (BadRequest, st)
  end.

(** POST /flags/:flagId/resolve *)
Inductive ResolveResponse := FlagNotFound | FlagResolved.

Definition postResolveFlag (fid : string) (st : State)
    : ResolveResponse * State :=
  let '(resolved, st) := resolveFlagLog fid st in
  if resolved then (FlagResolved, st) else (FlagNotFound, st).

(** PUT /profile/:userId.  A field of the body that is [undefined] is
    [None]. *)
Record ProfileBody := {
  putTypingInterval : option R;
  putMouseActivity : option R;
  putScrollPattern : option R;
  putAnomalyThreshold : option R
}.

Inductive ProfileResponse :=
| ProfileNotFound
| ProfileUpdated (behaviorProfile : BehaviorProfile).

Definition putProfile (uid : string) (body : ProfileBody) (now : Z)
    (st : State) : ProfileResponse * State :=
  match List.find (fun u => String.eqb (id u) uid) (getAllUsers st) with
  | None => (ProfileNotFound, st)
  | Some user =>
      let profile := Types.behaviorProfile user in
      let profile :=
        {| userId := userId profile;
           baselineTypingInterval :=
             match putTypingInterval body with
             | Some v => v
             | None => baselineTypingInterval profile
             end;
           baselineMouseActivity :=
             match putMouseActivity body with
             | Some v => v
             | None => baselineMouseActivity profile
             end;
           baselineScrollPattern :=
             match putScrollPattern body with
             | Some v => v
             | None => baselineScrollPattern profile
             end;
           anomalyThreshold :=
             match putAnomalyThreshold body with
             | Some v => v
             | None => anomalyThreshold profile
             end;
           lastUpdated := now |} in
      (ProfileUpdated profile,
       {| users := setBehaviorProfile uid profile (users st);
          sessions := sessions st;
          flagLogs := flagLogs st |})
  end.

(** GET /stats/:userId *)
Record Stats := {
  totalSessions : nat;
  activeSessions : nat;
  averageAnomalyScore : R;
  totalFlags : nat;
  resolvedFlags : nat;
  statsProfile : BehaviorProfile
}.

Definition getStats (uid : string) (st : State) : option Stats :=
  match List.find (fun u => String.eqb (id u) uid) (getAllUsers st) with
  | None => None
  | Some user =>
      let sessions := getActiveSessions st in
      let userSessions :=
        List.filter (fun s => String.eqb (sessUserId s) uid) sessions in
      let flagLogs :=
        List.filter
          (fun log =>
             existsb (fun s => String.eqb (sessId s) (flagSessionId log))
                     userSessions)
          (getFlagLogs None st) in
      Some {| totalSessions := length userSessions;
              activeSessions :=
                length (List.filter (fun s => isActive s) userSessions);
              averageAnomalyScore :=
                if (0 <? length userSessions)%nat
                then fold_left (fun sum s => sum + anomalyScore s)
                               userSessions 0
                     / INR (length userSessions)
                else 0;
              totalFlags := length flagLogs;
              resolvedFlags :=
                length (List.filter (fun f => resolved f) flagLogs);
              statsProfile := Types.behaviorProfile user |}
  end.

End BehaviorRoutes.

(** ** routes/auth.ts : POST /login and POST /logout *)

Module AuthRoutes.

Import UserService.

Record LoginBody := {
  bodyCredentials : option UserCredentials;
  bodyLoginMetrics : option BehaviorMetrics
}.

(** The session as the response shows it. *)
Record SessionView := {
  viewId : string;
  viewStartTime : Z;
  viewAnomalyScore : R
}.

Inductive LoginResponse :=
| LoginBadRequest
| LoginUnauthorized
| LoginServerError
| LoginSuccess (user : User) (session : SessionView)
    (behaviorProfile : BehaviorProfile) (analysis : AnomalyAnalysis).

(** POST /login.  [behaviorMetrics] is not checked by the handler: when it
    is absent, reading [currentMetrics.avgTypingInterval] in
    [analyzeBehavior] throws, the [catch] answers 500, and what
    [authenticateUser] has done by then stays done. *)
Definition postLogin (body : LoginBody) (now : Z) (st : State)
    : LoginResponse * State :=
  match bodyCredentials body with
  | None => (LoginBadRequest, st)
  | Some credentials =>
      match credUsername credentials, credPassword credentials with
      | EmptyString, _ | _, EmptyString => (LoginBadRequest, st)
      | _, _ =>
          match authenticateUser credentials now st with
          | (None, st) => (LoginUnauthorized, st)
          | (Some user, st) =>
              match bodyLoginMetrics body with
              | None => (LoginServerError, st)
              | Some behaviorMetrics =>
                  let analysis :=
                    BehaviorAnalysisService.analyzeBehavior
                      behaviorMetrics (Types.behaviorProfile user) in
                  let '(session, st) := createSession (id user) now st in
                  let st :=
                    updateSessionActivity (sessId session) (score analysis)
                      now st in
                  let st :=
                    if Rlt_dec 30 (score analysis) then
                      let severity :=
                        if Rlt_dec 70 (score analysis) then high
                        else if Rlt_dec 50 (score analysis) then medium
                        else low in
                      let action :=
                        match recommendation analysis with
                        | lock => "Session locked"
                        | reauthenticate => "Request re-authentication"
                        | pass => "Monitor"
                        end in
                      snd (addFlagLog
                             {| newSessionId := sessId session;
                                newTimestamp := now;
                                newType := type_session;
                                newSeverity := severity;
                                newDescription :=
                                  {| descText := "Anomaly score";
                                     descScore := score analysis;
                                     descFactors := factors analysis |};
                                newAction := action;
                                newResolved := false |}
                             now st)
                    else st in
                  let st :=
                    snd (updateBehaviorProfile (id user) behaviorMetrics 0.1
                           now st) in
                  (LoginSuccess user
                     {| viewId := sessId session;
                        viewStartTime := startTime session;
                        viewAnomalyScore := score analysis |}
                     match getUserByUsername (username user) st with
                     | Some stored => Types.behaviorProfile stored
                     | None => Types.behaviorProfile user
                     end
                     analysis,
                   st)
              end
          end
      end
  end.

(** POST /logout: the answer is a success whatever the body holds. *)
Definition postLogout (sessionId : option string) (st : State) : State :=
  match sessionId with
  | None | Some EmptyString => st
  | Some sid => endSession sid st
  end.

End AuthRoutes.

(** * Vocabulary of the properties *)

Section ScalarVocabulary.

Import BehaviorAnalysisService UserService BehaviorRoutes.

(** The neutral profile every new user starts from. *)
Definition defaultProfile : BehaviorProfile :=
  {| userId := "u";
     baselineTypingInterval := 250;
     baselineMouseActivity := 50;
     baselineScrollPattern := 10;
     anomalyThreshold := 30;
     lastUpdated := 0 |}.

(** The deviation formula of the specification, on a non-zero baseline. *)
Definition deviationFormula (current baseline : R) : R :=
  Rmin 100 (Rabs (current - baseline) / baseline * 100).

(** The baseline after [n] updates that all feed the same sample value. *)
Definition feedSame (sample : R) (n : nat) (baseline : R) : R :=
  Nat.iter n (fun b => BehaviorAnalysisService.updateBaseline b sample 0.1)
    baseline.

(** A run of adaptation steps: each sample is folded into the profile at its
    own clock reading. *)
Definition adapt (samples : list (BehaviorMetrics * Z))
    (profile : BehaviorProfile) : BehaviorProfile :=
  fold_left (fun p s => updateProfile p (fst s) 0.1 (snd s)) samples profile.

(** The thresholds of the specification, read off a returned analysis. *)
Definition thresholdsRespected (a : AnomalyAnalysis) : Prop :=
  (score a < 30 -> recommendation a = pass)
  /\ (30 <= score a < 70 -> recommendation a = reauthenticate)
  /\ (70 <= score a -> recommendation a = lock).

Definition boundariesExact (a : AnomalyAnalysis) : Prop :=
  (score a = 29.9 -> recommendation a = pass)
  /\ (score a = 30 -> recommendation a = reauthenticate)
  /\ (score a = 69.9 -> recommendation a = reauthenticate)
  /\ (score a = 70 -> recommendation a = lock).

(** The profile object that [MLService.analyzeBehavior] scores: the stored
    (or fresh) one, after [updateProfile] has mutated it. *)
Definition scoredProfile (ps : gmap string MLService.MLUserProfile)
    (uid : string) (m : BehaviorMetrics) (now : Z) : MLService.MLUserProfile :=
  MLService.updateProfile (fst (MLService.getOrCreateProfile ps uid now)) m now.

(** The weighted sum of the z-score scorer, before clamping. *)
Definition overall (ps : gmap string MLService.MLUserProfile)
    (uid : string) (m : BehaviorMetrics) (now : Z) : R :=
  let profile := scoredProfile ps uid m now in
  MLService.calculateTypingAnomaly (avgTypingInterval m) profile * 0.4
  + MLService.calculateMouseAnomaly (mouseMovementCount m) profile * 0.3
  + MLService.calculateScrollAnomaly (scrollEventCount m) profile * 0.3.

(** What a signal adds to the weighted sum: nothing unless it deviates. *)
Definition contribution (deviation weight : R) : R :=
  if Rlt_dec 0 deviation then deviation * weight else 0.

(** The entry a signal adds to the factor list when its score is above the
    given bar. *)
Definition entry (text : string) (bar value : R) : list Factor :=
  if Rlt_dec bar value then [Build_Factor text value] else [].

Definition weightedSum (m : BehaviorMetrics) (p : BehaviorProfile) : R :=
  contribution
    (analyzeTypingBehavior (avgTypingInterval m) (baselineTypingInterval p)) 0.4
  + contribution
      (analyzeMouseBehavior (mouseMovementCount m) (baselineMouseActivity p)) 0.3
  + contribution
      (analyzeScrollBehavior (scrollEventCount m) (baselineScrollPattern p)) 0.2
  + contribution (analyzeSessionBehavior (sessionDuration m)) 0.1.

(** A factor list names a signal when one of its entries carries the
    signal's text. *)
Definition mentions (text : string) (fs : list Factor) : Prop :=
  exists f, In f fs /\ factorText f = text.

(** A sample whose typing interval is 10% off the baseline, everything else
    on the baseline, in a session that has lasted a minute. *)
Definition slightlyOff : BehaviorMetrics :=
  {| avgTypingInterval := 275;
     mouseMovementCount := 50;
     scrollEventCount := 10;
     sessionDuration := 60000 |}.

(** The outlier of the specification: a typing interval of 1,000,000 ms
    against the baseline of 250 ms, the other signals on their baselines. *)
Definition typingOutlier : BehaviorMetrics :=
  {| avgTypingInterval := 1000000;
     mouseMovementCount := 50;
     scrollEventCount := 10;
     sessionDuration := 60000 |}.

(** The severity the specification derives from a score. *)
Definition severityFor (s : R) (sev : Severity) : Prop :=
  (70 < s -> sev = high)
  /\ (50 < s <= 70 -> sev = medium)
  /\ (s <= 50 -> sev = low).

(** The action string the specification derives from a recommendation. *)
Definition actionFor (r : Recommendation) (act : string) : Prop :=
  (r = lock -> act = "Session locked")
  /\ (r = reauthenticate -> act = "Request re-authentication")
  /\ (r = pass -> act = "Monitor").

(** The state the handler reaches before it adapts the profile. *)
Definition afterFlagging (body : AnalyzeBody) (now : Z) (st : State)
    (a : AnomalyAnalysis) : State :=
  let st :=
    match truthy (bodySessionId body) with
    | Some sessionId => updateSessionActivity sessionId (score a) now st
    | None => st
    end in
  if Rlt_dec 30 (score a) then
    snd (addFlagLog
           {| newSessionId :=
                match truthy (bodySessionId body) with
                | Some sessionId => sessionId
                | None => "unknown"
                end;
              newTimestamp := now;
              newType := type_session;
              newSeverity :=
                if Rlt_dec 70 (score a) then high
                else if Rlt_dec 50 (score a) then medium
                else low;
              newDescription :=
                {| descText := "Real-time anomaly";
                   descScore := score a;
                   descFactors := factors a |};
              newAction :=
                match recommendation a with
                | lock => "Session locked"
                | reauthenticate => "Request re-authentication"
                | pass => "Monitor"
                end;
              newResolved := false |}
           now st)
  else st.

Definition john : User :=
  {| id := "1";
     username := "john_doe";
     email := "john@example.com";
     behaviorProfile := defaultProfile;
     createdAt := 0;
     lastLogin := 0 |}.

Definition oneUser : State :=
  {| users := [john]; sessions := ∅; flagLogs := [] |}.

Definition outlierBody : AnalyzeBody :=
  {| bodyUserId := Some "1";
     bodyBehaviorMetrics := Some typingOutlier;
     bodySessionId := None |}.

Definition deactivated (x : Session) : Session :=
  {| sessId := sessId x;
     sessUserId := sessUserId x;
     startTime := startTime x;
     lastActivity := lastActivity x;
     isActive := false;
     anomalyScore := anomalyScore x |}.

Definition touched (now : Z) (s : R) (x : Session) : Session :=
  {| sessId := sessId x;
     sessUserId := sessUserId x;
     startTime := startTime x;
     lastActivity := now;
     isActive := isActive x;
     anomalyScore := s |}.

(** A ledger holding one session, opened at time 1000 for user 1. *)
Definition oneSession : State :=
  snd (createSession "1" 1000 {| users := []; sessions := ∅; flagLogs := [] |}).

End ScalarVocabulary.

Section HistoryVocabulary.

Import MLService.

(** The confidence tiers of the specification, by number of paired
    samples. *)
Definition confidenceTier (samples : nat) : R :=
  if (samples <? 5)%nat then 0.3
  else if (samples <? 20)%nat then 0.6
  else if (samples <? 50)%nat then 0.8
  else 0.95.

(** A sample with no activity at all. *)
Definition idle : BehaviorMetrics :=
  {| avgTypingInterval := 0;
     mouseMovementCount := 0;
     scrollEventCount := 0;
     sessionDuration := 60000 |}.

(** A sample that departs from an all-zero history in its typing interval
    only. *)
Definition burst : BehaviorMetrics :=
  {| avgTypingInterval := 5;
     mouseMovementCount := 0;
     scrollEventCount := 0;
     sessionDuration := 60000 |}.

(** The service after [n] calls for a user "u" it had no profile of, each
    call submitting the idle sample. *)
Definition warmUp (ps : gmap string MLUserProfile) (now : Z) (n : nat)
    : gmap string MLUserProfile :=
  Nat.iter n (fun ps => snd (analyzeBehavior ps "u" idle now)) (delete "u" ps).

(** The three histories of a profile hold [n] zeros each. *)
Definition holdsZeros (n : nat) (profile : MLUserProfile) : Prop :=
  typingIntervals profile = replicate n 0
  /\ mouseMovements profile = replicate n 0
  /\ scrollEvents profile = replicate n 0.

End HistoryVocabulary.

Section RoundingVocabulary.



(** A value small enough for the sums of squares of a history of a hundred
    such values to stay finite in doubles. *)
Definition moderate (x : R) : Prop := Rabs x <= 10 ^ 150.

Definition moderateSample (m : BehaviorMetrics) : Prop :=
  moderate (avgTypingInterval m)
  /\ moderate (mouseMovementCount m)
  /\ moderate (scrollEventCount m).

Definition moderateProfile (profile : MLService.MLUserProfile) : Prop :=
  Forall moderate (MLService.typingIntervals profile)
  /\ Forall moderate (MLService.mouseMovements profile)
  /\ Forall moderate (MLService.scrollEvents profile).

End RoundingVocabulary.

Section MoreVocabulary.

Import BehaviorAnalysisService UserService BehaviorRoutes AuthRoutes.

(** A sample that sits exactly on the baselines of a profile. *)
Definition onBaseline (p : BehaviorProfile) (duration : R) : BehaviorMetrics :=
  {| avgTypingInterval := baselineTypingInterval p;
     mouseMovementCount := baselineMouseActivity p;
     scrollEventCount := baselineScrollPattern p;
     sessionDuration := duration |}.

(** Slow typing and a busy pointer, both at twice the neutral baseline. *)
Definition doubled : BehaviorMetrics :=
  {| avgTypingInterval := 500;
     mouseMovementCount := 100;
     scrollEventCount := 10;
     sessionDuration := 60000 |}.

(** A profile whose typing baseline has been overridden by a negative
    number. *)
Definition negativeTyping : BehaviorProfile :=
  {| userId := "u";
     baselineTypingInterval := -250;
     baselineMouseActivity := 50;
     baselineScrollPattern := 10;
     anomalyThreshold := 30;
     lastUpdated := 0 |}.

(** The three histories of a profile go in step and within capacity. *)
Definition paired (profile : MLService.MLUserProfile) : Prop :=
  length (MLService.typingIntervals profile)
  = length (MLService.mouseMovements profile)
  /\ length (MLService.mouseMovements profile)
     = length (MLService.scrollEvents profile)
  /\ (length (MLService.typingIntervals profile) <= 100)%nat.

(** What the z-score scorer answers while it has too little data. *)
Definition coldAnalysis : AnomalyAnalysis :=
  {| score := 0; confidence := 0.3; factors := []; recommendation := pass |}.

(** The histories of a profile are shorter than [n]. *)
Definition shorterThan (n : nat) (profile : MLService.MLUserProfile) : Prop :=
  (length (MLService.typingIntervals profile) < n)%nat
  /\ (length (MLService.mouseMovements profile) < n)%nat
  /\ (length (MLService.scrollEvents profile) < n)%nat.

(** A user who has always sent the same sample. *)
Definition steady (n : nat) (m : BehaviorMetrics) : MLService.MLUserProfile :=
  {| MLService.userId := "u";
     MLService.typingIntervals := replicate n (avgTypingInterval m);
     MLService.mouseMovements := replicate n (mouseMovementCount m);
     MLService.scrollEvents := replicate n (scrollEventCount m);
     MLService.baselineTypingInterval := avgTypingInterval m;
     MLService.baselineMouseActivity := mouseMovementCount m;
     MLService.baselineScrollPattern := scrollEventCount m;
     MLService.lastUpdated := 0 |}.

(** A user with another behaviour profile. *)
Definition withProfile (profile : BehaviorProfile) (u : User) : User :=
  {| id := id u;
     username := username u;
     email := email u;
     behaviorProfile := profile;
     createdAt := createdAt u;
     lastLogin := lastLogin u |}.

(** A user with another time of last login. *)
Definition withLastLogin (now : Z) (u : User) : User :=
  {| id := id u;
     username := username u;
     email := email u;
     behaviorProfile := behaviorProfile u;
     createdAt := createdAt u;
     lastLogin := now |}.

(** The first user of the scan with a given id. *)
Definition userById (uid : string) (st : State) : option User :=
  List.find (fun u => String.eqb (id u) uid) (users st).

(** The user names the map of users is keyed by, in order of insertion. *)
Definition usernames (st : State) : list string := map username (users st).

Definition alice : UserCredentials :=
  {| credUsername := "alice"; credPassword := "secret" |}.

(** Two entries of the flag log record the same event: they agree on
    everything but the resolved mark. *)
Definition sameEvent (f g : FlagLog) : Prop :=
  flagId f = flagId g
  /\ flagSessionId f = flagSessionId g
  /\ timestamp f = timestamp g
  /\ type f = type g
  /\ severity f = severity g
  /\ description f = description g
  /\ action f = action g.

(** An entry stays the event it was, and stays resolved once it is. *)
Definition sameOrResolved (f g : FlagLog) : Prop :=
  sameEvent f g /\ (resolved f = true -> resolved g = true).

(** An unresolved flag of low severity on a session. *)
Definition lowFlag (sid : string) : FlagLogFields :=
  {| newSessionId := sid;
     newTimestamp := 0;
     newType := type_session;
     newSeverity := low;
     newDescription :=
       {| descText := "Real-time anomaly"; descScore := 45; descFactors := [] |};
     newAction := "Request re-authentication";
     newResolved := false |}.

(** The analysis a response carries, if it carries one. *)
Definition analysisOf (r : Response) : option AnomalyAnalysis :=
  match r with
  | Success a _ => Some a
  | _ => None
  end.

(** The session id a flag raised by POST /analyze is filed under. *)
Definition filedUnder (body : AnalyzeBody) : string :=
  match truthy (bodySessionId body) with
  | Some sessionId => sessionId
  | None => "unknown"
  end.

(** A body of PUT /profile that overrides the anomaly threshold alone. *)
Definition thresholdOnly (t : R) : ProfileBody :=
  {| putTypingInterval := None;
     putMouseActivity := None;
     putScrollPattern := None;
     putAnomalyThreshold := Some t |}.

(** The credentials of a login body are present and not empty. *)
Definition wellFormedLogin (body : LoginBody) : Prop :=
  exists credentials,
    bodyCredentials body = Some credentials
    /\ credUsername credentials <> ""
    /\ credPassword credentials <> "".

Definition aliceLogin (metrics : option BehaviorMetrics) : LoginBody :=
  {| bodyCredentials := Some alice; bodyLoginMetrics := metrics |}.

(** The session POST /login leaves in the ledger: opened at the time of the
    call for the user, active, and carrying the score of the analysis. *)
Definition loginSession (user : User) (now : Z) (a : AnomalyAnalysis)
    : Session :=
  {| sessId := "session-" +:+ dateNowString now;
     sessUserId := id user;
     startTime := now;
     lastActivity := now;
     isActive := true;
     anomalyScore := score a |}.

(** [new] is the queue [old] after [x] has joined it, with room for 100. *)
Definition queued (old : list R) (x : R) (new : list R) : Prop :=
  (length new <= 100)%nat
  /\ length new = Nat.min (S (length old)) 100
  /\ last new = Some x
  /\ ((length old < 100)%nat -> new = old ++ [x])
  /\ (length old = 100%nat -> new = drop 1 old ++ [x])
  /\ ((100 <= length old)%nat -> new = drop (length old - 99) old ++ [x]).

(** A whole number small enough for a hundred of it to add up exactly in
    doubles. *)
Definition wholeNumber (x : R) : Prop :=
  exists n : Z, x = IZR n /\ (Z.abs n <= 2 ^ 40)%Z.

(** An entry of the flag log with its resolved mark set. *)
Definition markedResolved (f : FlagLog) : FlagLog :=
  {| flagId := flagId f;
     flagSessionId := flagSessionId f;
     timestamp := timestamp f;
     type := type f;
     severity := severity f;
     description := description f;
     action := action f;
     resolved := true |}.

(** A session that belongs to the user and has not been ended. *)
Definition activeFor (uid : string) (s : Session) : Prop :=
  sessUserId s = uid /\ isActive s = true.

(** A flag filed under the id of a session of the ledger that belongs to the
    user and has not been ended. *)
Definition countsFor (uid : string) (st : State) (f : FlagLog) : Prop :=
  exists sid s,
    sessions st !! sid = Some s /\ activeFor uid s
    /\ flagSessionId f = sessId s.

(** The ledger after user 1 has opened a session and a flag has been filed
    under it. *)
Definition flaggedLedger : State :=
  snd (addFlagLog (lowFlag "session-1000") 7
         (snd (createSession "1" 1000 oneUser))).

End MoreVocabulary.

(** * Properties *)

(** Case analysis on every comparison, minimum, maximum and absolute value
    in sight, closing the linear goals on the way. *)
Ltac rcases :=
  repeat first
    [ lra
    | match goal with
      | |- context [Rlt_dec ?a ?b] => destruct (Rlt_dec a b)
      | |- context [Req_dec_T ?a ?b] => destruct (Req_dec_T a b)
      | |- context [Rle_dec ?a ?b] => destruct (Rle_dec a b)
      | |- context [Rcase_abs ?a] => destruct (Rcase_abs a)
      | H : context [Rlt_dec ?a ?b] |- _ => destruct (Rlt_dec a b)
      | H : context [Rle_dec ?a ?b] |- _ => destruct (Rle_dec a b)
      | H : context [Rcase_abs ?a] |- _ => destruct (Rcase_abs a)
      | H : context [Req_dec_T ?a ?b] |- _ => destruct (Req_dec_T a b)
      end ].

Ltac runfold := unfold Rmin, Rmax, Rabs in *.

Section ScalarDeviation.

Import BehaviorAnalysisService.

(** C2. For each of the three signals, the scalar per-signal deviation score
    is [min(100, |current - baseline| / baseline * 100)] when the baseline is
    positive, and is 0 when the baseline is 0. *)
Theorem scalar_deviation_score (current baseline : R) :
  (0 < baseline ->
     analyzeTypingBehavior current baseline = deviationFormula current baseline
     /\ analyzeMouseBehavior current baseline = deviationFormula current baseline
     /\ analyzeScrollBehavior current baseline = deviationFormula current baseline)
  /\ analyzeTypingBehavior current 0 = 0
  /\ analyzeMouseBehavior current 0 = 0
  /\ analyzeScrollBehavior current 0 = 0.
Proof.
  unfold analyzeTypingBehavior, analyzeMouseBehavior, analyzeScrollBehavior,
    deviationFormula.
  split.
  - intros Hpos.
    destruct (Req_dec_T baseline 0) as [Hz | _]; [lra | auto].
  - destruct (Req_dec_T 0 0) as [_ | Hnz]; [auto | contradiction].
Qed.

Lemma scalar_deviation_score_witness :
  0 < 250 /\ analyzeTypingBehavior 275 250 = deviationFormula 275 250.
Proof.
  split; [lra | apply (proj1 (scalar_deviation_score 275 250)); lra].
Defined.

(** The guarded score is a number between 0 and 100 on a positive baseline. *)
Lemma deviationFormula_range (current baseline : R) :
  0 < baseline -> 0 <= deviationFormula current baseline <= 100.
Proof.
  intros Hpos. unfold deviationFormula.
  assert (0 <= Rabs (current - baseline) / baseline * 100).
  { apply Rmult_le_pos; [| lra].
    apply Rmult_le_pos; [apply Rabs_pos |].
    left. now apply Rinv_0_lt_compat. }
  unfold Rmin. rcases.
Qed.

Example typing_deviation_ten_percent : analyzeTypingBehavior 275 250 = 10.
Proof. unfold analyzeTypingBehavior. runfold. rcases. Qed.

End ScalarDeviation.

Section BaselineAdapter.

Lemma feedSame_S (sample : R) (n : nat) (baseline : R) :
  feedSame sample (S n) baseline
  = BehaviorAnalysisService.updateBaseline (feedSame sample n baseline) sample 0.1.
Proof. reflexivity. Qed.

(** The distance to the sample shrinks by the factor [1 - 0.1] per update. *)
Lemma feedSame_closed_form (sample : R) (n : nat) (baseline : R) :
  feedSame sample n baseline = sample + (1 - 0.1) ^ n * (baseline - sample).
Proof.
  induction n as [| n IH].
  - simpl. lra.
  - rewrite feedSame_S, IH.
    unfold BehaviorAnalysisService.updateBaseline. simpl. lra.
Qed.










Example feedSame_two_steps : feedSame 500 2 250 = 297.5.
Proof. unfold feedSame, BehaviorAnalysisService.updateBaseline. simpl. lra. Qed.

End BaselineAdapter.

Section ProfileFrame.

Import BehaviorAnalysisService.

Lemma adapt_frame (samples : list (BehaviorMetrics * Z)) :
  forall profile,
    userId (adapt samples profile) = userId profile
    /\ anomalyThreshold (adapt samples profile) = anomalyThreshold profile.
Proof.
  induction samples as [| s rest IH]; intros profile; [split; reflexivity |].
  unfold adapt in *. simpl.
  destruct (IH (updateProfile profile (fst s) 0.1 (snd s))) as [Hid Hthr].
  rewrite Hid, Hthr. split; reflexivity.
Qed.

(** C10. The scalar-variant profile update keeps [userId] and
    [anomalyThreshold] of the input profile, whatever the sample, the
    learning rate and the time: it writes the three baselines and
    [lastUpdated] only, so an overridden threshold survives every
    adaptation step. *)
Theorem updateProfile_preserves_identity_and_threshold
    (profile : BehaviorProfile) (metrics : BehaviorMetrics)
    (learningRate : R) (now : Z) (samples : list (BehaviorMetrics * Z)) :
  userId (updateProfile profile metrics learningRate now) = userId profile
  /\ anomalyThreshold (updateProfile profile metrics learningRate now)
     = anomalyThreshold profile
  /\ baselineTypingInterval (updateProfile profile metrics learningRate now)
     = updateBaseline (baselineTypingInterval profile)
                      (avgTypingInterval metrics) learningRate
  /\ baselineMouseActivity (updateProfile profile metrics learningRate now)
     = updateBaseline (baselineMouseActivity profile)
                      (mouseMovementCount metrics) learningRate
  /\ baselineScrollPattern (updateProfile profile metrics learningRate now)
     = updateBaseline (baselineScrollPattern profile)
                      (scrollEventCount metrics) learningRate
  /\ lastUpdated (updateProfile profile metrics learningRate now) = now
  /\ userId (adapt samples profile) = userId profile
  /\ anomalyThreshold (adapt samples profile) = anomalyThreshold profile.
Proof.
  repeat split; try reflexivity; apply adapt_frame.
Qed.

End ProfileFrame.

Section Recommendation.

Lemma thresholds_give_boundaries (a : AnomalyAnalysis) :
  thresholdsRespected a -> boundariesExact a.
Proof.
  intros (Hpass & Hreauth & Hlock).
  repeat split; intros Heq;
    [apply Hpass | apply Hreauth | apply Hreauth | apply Hlock]; lra.
Qed.

(** In the scalar scorer the recommendation is the if-chain over the score
    that is returned. *)
Lemma scalar_recommendation (m : BehaviorMetrics) (p : BehaviorProfile) :
  let a := BehaviorAnalysisService.analyzeBehavior m p in
  recommendation a =
    if Rlt_dec (score a) 30 then pass
    else if Rlt_dec (score a) 70 then reauthenticate
    else lock.
Proof.
  unfold BehaviorAnalysisService.analyzeBehavior.
  repeat match goal with
         | |- context [if Rlt_dec 0 ?x then (_, _) else _] =>
             destruct (Rlt_dec 0 x)
         end; reflexivity.
Qed.

(** A z-score of a history is a number between 0 and 100. *)
Lemma zscore_range (current mean variance : R) :
  sqrt variance <> 0 ->
  0 <= Rmin 100 (Rabs (current - mean) / sqrt variance * 20) <= 100.
Proof.
  intros Hstd.
  assert (Hpos : 0 < sqrt variance).
  { pose proof (sqrt_pos variance). lra. }
  assert (0 <= Rabs (current - mean) / sqrt variance * 20).
  { apply Rmult_le_pos; [| lra].
    apply Rmult_le_pos; [apply Rabs_pos |].
    left. now apply Rinv_0_lt_compat. }
  unfold Rmin. rcases.
Qed.

Lemma calculateTypingAnomaly_range c (profile : MLService.MLUserProfile) :
  0 <= MLService.calculateTypingAnomaly c profile <= 100.
Proof.
  unfold MLService.calculateTypingAnomaly.
  destruct (_ <? 5)%nat; [lra |].
  destruct (Req_dec_T _ 0); [lra | now apply zscore_range].
Qed.

Lemma calculateMouseAnomaly_range c (profile : MLService.MLUserProfile) :
  0 <= MLService.calculateMouseAnomaly c profile <= 100.
Proof.
  unfold MLService.calculateMouseAnomaly.
  destruct (_ <? 5)%nat; [lra |].
  destruct (Req_dec_T _ 0); [lra | now apply zscore_range].
Qed.

Lemma calculateScrollAnomaly_range c (profile : MLService.MLUserProfile) :
  0 <= MLService.calculateScrollAnomaly c profile <= 100.
Proof.
  unfold MLService.calculateScrollAnomaly.
  destruct (_ <? 5)%nat; [lra |].
  destruct (Req_dec_T _ 0); [lra | now apply zscore_range].
Qed.

Lemma overall_range ps uid m now : 0 <= overall ps uid m now <= 100.
Proof.
  unfold overall.
  pose proof (calculateTypingAnomaly_range (avgTypingInterval m)
                (scoredProfile ps uid m now)).
  pose proof (calculateMouseAnomaly_range (mouseMovementCount m)
                (scoredProfile ps uid m now)).
  pose proof (calculateScrollAnomaly_range (scrollEventCount m)
                (scoredProfile ps uid m now)).
  cbv zeta. lra.
Qed.

Lemma ml_score ps uid m now :
  score (fst (MLService.analyzeBehavior ps uid m now)) = overall ps uid m now.
Proof.
  pose proof (overall_range ps uid m now) as Hrange.
  unfold MLService.analyzeBehavior, overall, scoredProfile in *.
  destruct (MLService.getOrCreateProfile ps uid now) as [profile ps'].
  cbn [fst score] in *. runfold. rcases.
Qed.

Lemma ml_recommendation ps uid m now :
  recommendation (fst (MLService.analyzeBehavior ps uid m now)) =
    if Rlt_dec (overall ps uid m now) 30 then pass
    else if Rlt_dec (overall ps uid m now) 70 then reauthenticate
    else lock.
Proof.
  unfold MLService.analyzeBehavior, overall, scoredProfile.
  destruct (MLService.getOrCreateProfile ps uid now) as [profile ps'].
  reflexivity.
Qed.

(** C3. In both scorers the recommendation is [pass] below 30,
    [reauthenticate] from 30 up to but excluding 70, and [lock] from 70 on,
    as a function of the score that is returned; a score of 29.9 gives
    [pass], 30 and 69.9 give [reauthenticate], 70 gives [lock]. *)
Theorem recommendation_thresholds
    (m : BehaviorMetrics) (p : BehaviorProfile)
    (ps : gmap string MLService.MLUserProfile) (uid : string) (now : Z) :
  thresholdsRespected (BehaviorAnalysisService.analyzeBehavior m p)
  /\ boundariesExact (BehaviorAnalysisService.analyzeBehavior m p)
  /\ thresholdsRespected (fst (MLService.analyzeBehavior ps uid m now))
  /\ boundariesExact (fst (MLService.analyzeBehavior ps uid m now)).
Proof.
  assert (Hscalar :
    thresholdsRespected (BehaviorAnalysisService.analyzeBehavior m p)).
  { unfold thresholdsRespected.
    rewrite (scalar_recommendation m p).
    repeat split; intros Hs; rcases; reflexivity. }
  assert (Hml :
    thresholdsRespected (fst (MLService.analyzeBehavior ps uid m now))).
  { unfold thresholdsRespected.
    rewrite ml_recommendation, ml_score.
    repeat split; intros Hs; rcases; reflexivity. }
  auto using thresholds_give_boundaries.
Qed.

End Recommendation.

Section ScalarScore.

Import BehaviorAnalysisService.

Ltac split_pushes :=
  repeat match goal with
         | |- context [if Rlt_dec 0 ?x then (_, _) else _] =>
             destruct (Rlt_dec 0 x)
         end.

Lemma scalar_score (m : BehaviorMetrics) (p : BehaviorProfile) :
  score (analyzeBehavior m p) = Rmin 100 (Rmax 0 (weightedSum m p)).
Proof.
  unfold analyzeBehavior, weightedSum, contribution.
  split_pushes; cbn [score]; do 2 f_equal; rcases.
Qed.

Lemma scalar_factors (m : BehaviorMetrics) (p : BehaviorProfile) :
  factors (analyzeBehavior m p) =
    entry "Typing speed deviation" 0
      (analyzeTypingBehavior (avgTypingInterval m) (baselineTypingInterval p))
    ++ entry "Mouse activity deviation" 0
         (analyzeMouseBehavior (mouseMovementCount m) (baselineMouseActivity p))
    ++ entry "Scroll pattern deviation" 0
         (analyzeScrollBehavior (scrollEventCount m) (baselineScrollPattern p))
    ++ entry "Session duration anomaly" 0
         (analyzeSessionBehavior (sessionDuration m)).
Proof.
  unfold analyzeBehavior, entry.
  split_pushes; reflexivity.
Qed.

Lemma typing_at_most_100 c b : analyzeTypingBehavior c b <= 100.
Proof. unfold analyzeTypingBehavior. runfold. rcases. Qed.

Lemma mouse_at_most_100 c b : analyzeMouseBehavior c b <= 100.
Proof. unfold analyzeMouseBehavior. runfold. rcases. Qed.

Lemma scroll_at_most_100 c b : analyzeScrollBehavior c b <= 100.
Proof. unfold analyzeScrollBehavior. runfold. rcases. Qed.

Lemma session_at_most_30 d : analyzeSessionBehavior d <= 30.
Proof. unfold analyzeSessionBehavior. rcases. Qed.

Lemma contribution_range (deviation weight top : R) :
  0 <= weight -> deviation <= top -> 0 <= top ->
  0 <= contribution deviation weight <= top * weight.
Proof.
  intros Hw Hd Ht. unfold contribution.
  destruct (Rlt_dec 0 deviation); nra.
Qed.

(** The weights add up to 0.4 * 100 + 0.3 * 100 + 0.2 * 100 + 0.1 * 30. *)
Lemma weightedSum_range (m : BehaviorMetrics) (p : BehaviorProfile) :
  0 <= weightedSum m p <= 93.
Proof.
  unfold weightedSum.
  pose proof (contribution_range _ 0.4 100 ltac:(lra)
    (typing_at_most_100 (avgTypingInterval m) (baselineTypingInterval p))
    ltac:(lra)).
  pose proof (contribution_range _ 0.3 100 ltac:(lra)
    (mouse_at_most_100 (mouseMovementCount m) (baselineMouseActivity p))
    ltac:(lra)).
  pose proof (contribution_range _ 0.2 100 ltac:(lra)
    (scroll_at_most_100 (scrollEventCount m) (baselineScrollPattern p))
    ltac:(lra)).
  pose proof (contribution_range _ 0.1 30 ltac:(lra)
    (session_at_most_30 (sessionDuration m)) ltac:(lra)).
  lra.
Qed.

Lemma typing_outlier_saturates : analyzeTypingBehavior 1000000 250 = 100.
Proof. unfold analyzeTypingBehavior. runfold. rcases. Qed.

End ScalarScore.

Section Factors.

Import BehaviorAnalysisService.

Lemma ml_factors ps uid m now :
  factors (fst (MLService.analyzeBehavior ps uid m now)) =
    entry "Typing anomaly" 30
      (MLService.calculateTypingAnomaly (avgTypingInterval m)
         (scoredProfile ps uid m now))
    ++ entry "Mouse activity anomaly" 30
         (MLService.calculateMouseAnomaly (mouseMovementCount m)
            (scoredProfile ps uid m now))
    ++ entry "Scroll pattern anomaly" 30
         (MLService.calculateScrollAnomaly (scrollEventCount m)
            (scoredProfile ps uid m now)).
Proof.
  unfold MLService.analyzeBehavior, scoredProfile, entry.
  destruct (MLService.getOrCreateProfile ps uid now) as [profile ps'].
  cbn [fst factors].
  repeat match goal with
         | |- context [Rlt_dec 30 ?x] => destruct (Rlt_dec 30 x)
         end; reflexivity.
Qed.

Lemma slightlyOff_factors :
  factors (analyzeBehavior slightlyOff defaultProfile)
  = [Build_Factor "Typing speed deviation" 10].
Proof.
  rewrite scalar_factors. cbn [slightlyOff defaultProfile avgTypingInterval
    mouseMovementCount scrollEventCount sessionDuration baselineTypingInterval
    baselineMouseActivity baselineScrollPattern].
  rewrite typing_deviation_ten_percent.
  replace (analyzeMouseBehavior 50 50) with 0
    by (unfold analyzeMouseBehavior; runfold; rcases).
  replace (analyzeScrollBehavior 10 10) with 0
    by (unfold analyzeScrollBehavior; runfold; rcases).
  replace (analyzeSessionBehavior 60000) with 0
    by (unfold analyzeSessionBehavior; rcases).
  unfold entry.
  destruct (Rlt_dec 0 10); [| lra].
  destruct (Rlt_dec 0 0); [lra | reflexivity].
Qed.

(** C4, as stated, fails in the scalar scorer: a typing score of 10 does not
    exceed 30, and the typing entry is in the factor list all the same. *)
Lemma factor_bar_30_counterexample :
  mentions "Typing speed deviation"
    (factors (analyzeBehavior slightlyOff defaultProfile))
  /\ ~ 30 < analyzeTypingBehavior (avgTypingInterval slightlyOff)
              (baselineTypingInterval defaultProfile).
Proof.
  split.
  - rewrite slightlyOff_factors.
    exists (Build_Factor "Typing speed deviation" 10).
    split; [left |]; reflexivity.
  - cbn [slightlyOff defaultProfile avgTypingInterval baselineTypingInterval].
    rewrite typing_deviation_ten_percent. lra.
Qed.

Lemma mentions_text (text : string) (fs : list Factor) :
  mentions text fs <-> In text (map factorText fs).
Proof.
  unfold mentions. rewrite in_map_iff. split.
  - intros (f & Hin & Htxt). now exists f.
  - intros (f & Htxt & Hin). now exists f.
Qed.

Ltac settle_mentions :=
  cbn [map app In factorText];
  repeat split; intros; try assumption; try tauto;
  repeat match goal with
         | H : _ \/ _ |- _ => destruct H
         | H : False |- _ => destruct H
         | H : _ = _ |- _ => discriminate H
         end.

Lemma scalar_mentions (m : BehaviorMetrics) (p : BehaviorProfile) :
  let fs := factors (analyzeBehavior m p) in
  (mentions "Typing speed deviation" fs <->
     0 < analyzeTypingBehavior (avgTypingInterval m) (baselineTypingInterval p))
  /\ (mentions "Mouse activity deviation" fs <->
     0 < analyzeMouseBehavior (mouseMovementCount m) (baselineMouseActivity p))
  /\ (mentions "Scroll pattern deviation" fs <->
     0 < analyzeScrollBehavior (scrollEventCount m) (baselineScrollPattern p))
  /\ (mentions "Session duration anomaly" fs <->
     0 < analyzeSessionBehavior (sessionDuration m)).
Proof.
  cbv zeta. rewrite !mentions_text, scalar_factors. unfold entry.
  repeat match goal with
         | |- context [Rlt_dec 0 ?x] => destruct (Rlt_dec 0 x)
         end; settle_mentions.
Qed.

Lemma ml_mentions ps uid m now :
  let fs := factors (fst (MLService.analyzeBehavior ps uid m now)) in
  let profile := scoredProfile ps uid m now in
  (mentions "Typing anomaly" fs <->
     30 < MLService.calculateTypingAnomaly (avgTypingInterval m) profile)
  /\ (mentions "Mouse activity anomaly" fs <->
     30 < MLService.calculateMouseAnomaly (mouseMovementCount m) profile)
  /\ (mentions "Scroll pattern anomaly" fs <->
     30 < MLService.calculateScrollAnomaly (scrollEventCount m) profile).
Proof.
  cbv zeta. rewrite !mentions_text, ml_factors. unfold entry.
  repeat match goal with
         | |- context [Rlt_dec 30 ?x] => destruct (Rlt_dec 30 x)
         end; settle_mentions.
Qed.

(** C4, amended. The scalar scorer lists a signal exactly when its score is
    above 0, the z-score scorer exactly when its score is above 30; the
    factor list is made of these optional entries in the order typing,
    mouse, scroll and (scalar scorer only) session. *)
Theorem factors_in_signal_order
    (m : BehaviorMetrics) (p : BehaviorProfile)
    (ps : gmap string MLService.MLUserProfile) (uid : string) (now : Z) :
  let fs := factors (analyzeBehavior m p) in
  let typingScore :=
    analyzeTypingBehavior (avgTypingInterval m) (baselineTypingInterval p) in
  let mouseScore :=
    analyzeMouseBehavior (mouseMovementCount m) (baselineMouseActivity p) in
  let scrollScore :=
    analyzeScrollBehavior (scrollEventCount m) (baselineScrollPattern p) in
  let sessionScore := analyzeSessionBehavior (sessionDuration m) in
  let gs := factors (fst (MLService.analyzeBehavior ps uid m now)) in
  let profile := scoredProfile ps uid m now in
  let typingZ :=
    MLService.calculateTypingAnomaly (avgTypingInterval m) profile in
  let mouseZ :=
    MLService.calculateMouseAnomaly (mouseMovementCount m) profile in
  let scrollZ :=
    MLService.calculateScrollAnomaly (scrollEventCount m) profile in
  ((mentions "Typing speed deviation" fs <-> 0 < typingScore)
   /\ (mentions "Mouse activity deviation" fs <-> 0 < mouseScore)
   /\ (mentions "Scroll pattern deviation" fs <-> 0 < scrollScore)
   /\ (mentions "Session duration anomaly" fs <-> 0 < sessionScore))
  /\ fs = entry "Typing speed deviation" 0 typingScore
          ++ entry "Mouse activity deviation" 0 mouseScore
          ++ entry "Scroll pattern deviation" 0 scrollScore
          ++ entry "Session duration anomaly" 0 sessionScore
  /\ ((mentions "Typing anomaly" gs <-> 30 < typingZ)
      /\ (mentions "Mouse activity anomaly" gs <-> 30 < mouseZ)
      /\ (mentions "Scroll pattern anomaly" gs <-> 30 < scrollZ))
  /\ gs = entry "Typing anomaly" 30 typingZ
          ++ entry "Mouse activity anomaly" 30 mouseZ
          ++ entry "Scroll pattern anomaly" 30 scrollZ.
Proof.
  cbv zeta.
  split; [apply scalar_mentions |].
  split; [apply scalar_factors |].
  split; [apply ml_mentions | apply ml_factors].
Qed.

End Factors.

Section ScoreRange.

Import BehaviorAnalysisService.

Lemma typingOutlier_weightedSum : weightedSum typingOutlier defaultProfile = 40.
Proof.
  unfold weightedSum.
  cbn [typingOutlier defaultProfile avgTypingInterval
    mouseMovementCount scrollEventCount sessionDuration baselineTypingInterval
    baselineMouseActivity baselineScrollPattern].
  rewrite typing_outlier_saturates.
  replace (analyzeMouseBehavior 50 50) with 0
    by (unfold analyzeMouseBehavior; runfold; rcases).
  replace (analyzeScrollBehavior 10 10) with 0
    by (unfold analyzeScrollBehavior; runfold; rcases).
  replace (analyzeSessionBehavior 60000) with 0
    by (unfold analyzeSessionBehavior; rcases).
  unfold contribution. rcases.
Qed.

Lemma typingOutlier_analysis :
  score (analyzeBehavior typingOutlier defaultProfile) = 40
  /\ recommendation (analyzeBehavior typingOutlier defaultProfile)
     = reauthenticate.
Proof.
  assert (Hscore : score (analyzeBehavior typingOutlier defaultProfile) = 40).
  { rewrite scalar_score, typingOutlier_weightedSum. runfold. rcases. }
  split; [exact Hscore |].
  rewrite (scalar_recommendation typingOutlier defaultProfile).
  cbv zeta. rewrite Hscore. rcases. reflexivity.
Qed.

(** C5, as stated, fails: the typing outlier saturates its own signal only,
    which weighs 40%; the overall score is 40, not 100, and the
    recommendation is [reauthenticate], not [lock]. *)
Lemma outlier_saturation_counterexample :
  score (analyzeBehavior typingOutlier defaultProfile) <> 100
  /\ recommendation (analyzeBehavior typingOutlier defaultProfile) <> lock.
Proof.
  destruct typingOutlier_analysis as [Hscore Hrec].
  rewrite Hscore, Hrec. split; [lra | discriminate].
Qed.

(** C5, amended. The score of the scalar scorer lies in [[0,100]] for every
    sample and profile, and so does the score of the z-score scorer when the
    stored and the submitted values are at most 10^150 in magnitude (larger
    ones overflow its sums in doubles, and the clamp lets the resulting NaN
    through). A typing interval of 1,000,000 against a baseline of 250
    saturates the typing deviation at 100, which puts the scalar score
    between 40 and 93 whatever the other signals are, so that the
    recommendation is never [pass]; with the other signals on their
    baselines the score is 40 and the recommendation [reauthenticate]. *)
Theorem score_in_range
    (m : BehaviorMetrics) (p : BehaviorProfile)
    (ps : gmap string MLService.MLUserProfile) (uid : string) (now : Z) :
  0 <= score (analyzeBehavior m p) <= 100
  /\ (moderateSample m ->
      (forall stored, ps !! uid = Some stored -> moderateProfile stored) ->
      0 <= score (fst (MLService.analyzeBehavior ps uid m now)) <= 100)
  /\ analyzeTypingBehavior 1000000 250 = 100
  /\ (let outlier :=
        analyzeBehavior
          {| avgTypingInterval := 1000000;
             mouseMovementCount := mouseMovementCount m;
             scrollEventCount := scrollEventCount m;
             sessionDuration := sessionDuration m |}
          {| userId := userId p;
             baselineTypingInterval := 250;
             baselineMouseActivity := baselineMouseActivity p;
             baselineScrollPattern := baselineScrollPattern p;
             anomalyThreshold := anomalyThreshold p;
             lastUpdated := lastUpdated p |} in
      40 <= score outlier <= 93 /\ recommendation outlier <> pass)
  /\ score (analyzeBehavior typingOutlier defaultProfile) = 40
  /\ recommendation (analyzeBehavior typingOutlier defaultProfile)
     = reauthenticate.
Proof.
  split; [| split; [| split; [| split]]].
  - rewrite scalar_score. pose proof (weightedSum_range m p). runfold. rcases.
  - intros _ _. rewrite ml_score. apply overall_range.
  - apply typing_outlier_saturates.
  - cbv zeta.
    match goal with
    | |- context [analyzeBehavior ?m' ?p'] =>
        set (mo := m'); set (po := p')
    end.
    assert (Hscore : 40 <= score (analyzeBehavior mo po) <= 93).
    { rewrite scalar_score.
      pose proof (weightedSum_range mo po) as Hrange.
      assert (Hlow : 40 <= weightedSum mo po).
      { unfold weightedSum in *.
        cbn [mo po avgTypingInterval baselineTypingInterval] in *.
        rewrite typing_outlier_saturates in *.
        pose proof (contribution_range _ 0.3 100 ltac:(lra)
          (mouse_at_most_100 (mouseMovementCount mo) (baselineMouseActivity po))
          ltac:(lra)).
        pose proof (contribution_range _ 0.2 100 ltac:(lra)
          (scroll_at_most_100 (scrollEventCount mo) (baselineScrollPattern po))
          ltac:(lra)).
        pose proof (contribution_range _ 0.1 30 ltac:(lra)
          (session_at_most_30 (sessionDuration mo)) ltac:(lra)).
        assert (contribution 100 0.4 = 40) by (unfold contribution; rcases).
        lra. }
      runfold. rcases. }
    split; [exact Hscore |].
    rewrite (scalar_recommendation mo po). cbv zeta.
    rcases; discriminate.
  - apply typingOutlier_analysis.
Qed.

End ScoreRange.

Section Boundaries.

Import BehaviorAnalysisService.

(** On the neutral profile, a sample that is slow at typing and busy with the
    pointer, in a long session, scores the two deviations by their weights. *)
Lemma slow_and_busy_score (t mo : R) :
  250 <= t <= 500 -> 50 <= mo <= 100 ->
  score (analyzeBehavior
           {| avgTypingInterval := t;
              mouseMovementCount := mo;
              scrollEventCount := 10;
              sessionDuration := 60000 |}
           defaultProfile)
  = (t - 250) / 250 * 100 * 0.4 + (mo - 50) / 50 * 100 * 0.3.
Proof.
  intros Ht Hmo. rewrite scalar_score.
  unfold weightedSum, contribution, analyzeTypingBehavior,
    analyzeMouseBehavior, analyzeScrollBehavior, analyzeSessionBehavior.
  cbn [defaultProfile avgTypingInterval mouseMovementCount scrollEventCount
       sessionDuration baselineTypingInterval baselineMouseActivity
       baselineScrollPattern].
  runfold. rcases.
Qed.

(** Scores of exactly 29.9, 30, 69.9 and 70 are reached, and get [pass],
    [reauthenticate], [reauthenticate] and [lock]. *)
Lemma recommendation_thresholds_witness :
  let sample t mo :=
    analyzeBehavior
      {| avgTypingInterval := t;
         mouseMovementCount := mo;
         scrollEventCount := 10;
         sessionDuration := 60000 |}
      defaultProfile in
  (score (sample 436.875 50) = 29.9
   /\ recommendation (sample 436.875 50) = pass)
  /\ (score (sample 437.5 50) = 30
      /\ recommendation (sample 437.5 50) = reauthenticate)
  /\ (score (sample 499.375 100) = 69.9
      /\ recommendation (sample 499.375 100) = reauthenticate)
  /\ (score (sample 500 100) = 70
      /\ recommendation (sample 500 100) = lock).
Proof.
  cbv beta zeta.
  repeat split;
    try (rewrite slow_and_busy_score by lra; lra);
    match goal with
    | |- recommendation (analyzeBehavior ?m ?p) = _ =>
        destruct (recommendation_thresholds m p ∅ "u" 0)
          as (_ & (At299 & At30 & At699 & At70) & _)
    end.
  - apply At299. rewrite slow_and_busy_score by lra. lra.
  - apply At30. rewrite slow_and_busy_score by lra. lra.
  - apply At699. rewrite slow_and_busy_score by lra. lra.
  - apply At70. rewrite slow_and_busy_score by lra. lra.
Defined.

End Boundaries.

Section FlagLog.

Import BehaviorAnalysisService UserService BehaviorRoutes.

Lemma updateSessionActivity_frame sid s now st :
  users (updateSessionActivity sid s now st) = users st
  /\ flagLogs (updateSessionActivity sid s now st) = flagLogs st.
Proof.
  unfold updateSessionActivity.
  destruct (sessions st !! sid); split; reflexivity.
Qed.

Lemma updateBehaviorProfile_frame uid m rate now st :
  sessions (snd (updateBehaviorProfile uid m rate now st)) = sessions st
  /\ flagLogs (snd (updateBehaviorProfile uid m rate now st)) = flagLogs st.
Proof.
  unfold updateBehaviorProfile.
  destruct (find _ (users st)); split; reflexivity.
Qed.

Lemma find_id_eq uid us (user : User) :
  find (fun u => String.eqb (id u) uid) us = Some user -> id user = uid.
Proof.
  intros Hfind. apply find_some in Hfind as [_ Heq].
  now apply String.eqb_eq.
Qed.

Lemma afterFlagging_users body now st a :
  users (afterFlagging body now st a) = users st.
Proof.
  unfold afterFlagging.
  destruct (truthy (bodySessionId body)), (Rlt_dec 30 (score a));
    cbn [snd addFlagLog users];
    try apply updateSessionActivity_frame; reflexivity.
Qed.

(** The handler scores the sample against the profile it finds stored, and
    only then replaces that profile by the adapted one. *)
Lemma postAnalyze_scores_then_updates body now st uid m user :
  truthy (bodyUserId body) = Some uid ->
  bodyBehaviorMetrics body = Some m ->
  find (fun u => String.eqb (id u) uid) (users st) = Some user ->
  let a := analyzeBehavior m (behaviorProfile user) in
  let updated := updateProfile (behaviorProfile user) m 0.1 now in
  postAnalyze body now st =
    (Success a updated,
     {| users := setBehaviorProfile uid updated (users st);
        sessions := sessions (afterFlagging body now st a);
        flagLogs := flagLogs (afterFlagging body now st a) |}).
Proof.
  intros Huid Hm Hfind a updated.
  unfold postAnalyze, getAllUsers. rewrite Huid, Hm, Hfind.
  fold a. fold (afterFlagging body now st a).
  unfold updateBehaviorProfile.
  rewrite (find_id_eq _ _ _ Hfind), afterFlagging_users, Hfind.
  reflexivity.
Qed.

Lemma postAnalyze_success body now st a prof st' :
  postAnalyze body now st = (Success a prof, st') ->
  exists uid m user,
    truthy (bodyUserId body) = Some uid
    /\ bodyBehaviorMetrics body = Some m
    /\ find (fun u => String.eqb (id u) uid) (users st) = Some user.
Proof.
  unfold postAnalyze, getAllUsers.
  destruct (truthy (bodyUserId body)) as [uid |]; [| discriminate].
  destruct (bodyBehaviorMetrics body) as [m |]; [| discriminate].
  destruct (find _ (users st)) as [user |] eqn:Hfind; [| discriminate].
  intros _. now exists uid, m, user.
Qed.

Lemma app_singleton_not_self {A} (l : list A) (x : A) : l <> l ++ [x].
Proof.
  intros Heq. apply (f_equal (@length A)) in Heq.
  rewrite length_app in Heq. simpl in Heq. lia.
Qed.

(** C8. After an analysis call, the flag log has grown by one entry exactly
    when the score of the analysis exceeds 30, and is unchanged otherwise; the
    new entry is unresolved, its severity is [high] above 70, [medium] above
    50 and [low] otherwise, and its action is "Session locked" for [lock],
    "Request re-authentication" for [reauthenticate], "Monitor" otherwise. *)
Theorem flag_raised_above_30 body now st a prof st' :
  postAnalyze body now st = (Success a prof, st') ->
  ((exists f, flagLogs st' = flagLogs st ++ [f]) <-> 30 < score a)
  /\ (~ 30 < score a -> flagLogs st' = flagLogs st)
  /\ (forall f, flagLogs st' = flagLogs st ++ [f] ->
        resolved f = false
        /\ severityFor (score a) (severity f)
        /\ actionFor (recommendation a) (action f)).
Proof.
  intros Hrun.
  destruct (postAnalyze_success _ _ _ _ _ _ Hrun)
    as (uid & m & user & Huid & Hm & Hfind).
  rewrite (postAnalyze_scores_then_updates _ _ _ _ _ _ Huid Hm Hfind) in Hrun.
  cbv zeta in Hrun. injection Hrun as Ha _ Hst. subst a st'.
  set (a := analyzeBehavior m (behaviorProfile user)).
  cbn [flagLogs].
  assert (Hlogs :
    flagLogs (afterFlagging body now st a) =
      if Rlt_dec 30 (score a)
      then flagLogs st ++
           [{| flagId := dateNowString now;
               flagSessionId :=
                 match truthy (bodySessionId body) with
                 | Some sessionId => sessionId
                 | None => "unknown"
                 end;
               timestamp := now;
               type := type_session;
               severity :=
                 if Rlt_dec 70 (score a) then high
                 else if Rlt_dec 50 (score a) then medium
                 else low;
               description :=
                 {| descText := "Real-time anomaly";
                    descScore := score a;
                    descFactors := factors a |};
               action :=
                 match recommendation a with
                 | lock => "Session locked"
                 | reauthenticate => "Request re-authentication"
                 | pass => "Monitor"
                 end;
               resolved := false |}]
      else flagLogs st).
  { unfold afterFlagging.
    destruct (truthy (bodySessionId body)), (Rlt_dec 30 (score a));
      cbn [snd addFlagLog flagLogs newSessionId newTimestamp newType
           newSeverity newDescription newAction newResolved];
      try rewrite (proj2 (updateSessionActivity_frame _ _ _ _));
      reflexivity. }
  rewrite Hlogs. clear Hlogs.
  destruct (Rlt_dec 30 (score a)) as [Habove | Hbelow].
  - split; [| split].
    + split; [tauto | eauto].
    + tauto.
    + intros f Heq. apply app_inj_tail in Heq as [_ <-].
      cbn [resolved severity action].
      split; [reflexivity |]. split.
      * unfold severityFor. repeat split; intros Hs; rcases; reflexivity.
      * unfold actionFor. repeat split; intros ->; reflexivity.
  - split; [| split].
    + split; [| tauto].
      intros [f Heq]. now apply app_singleton_not_self in Heq.
    + reflexivity.
    + intros f Heq. now apply app_singleton_not_self in Heq.
Qed.

End FlagLog.

Section HandlerExamples.

Import UserService BehaviorRoutes.

Example truthy_empty_string : truthy (Some "") = None.
Proof. reflexivity. Qed.

Example postAnalyze_without_user_id :
  postAnalyze {| bodyUserId := None;
                 bodyBehaviorMetrics := Some typingOutlier;
                 bodySessionId := None |} 0 oneUser
  = (BadRequest, oneUser).
Proof. reflexivity. Qed.

Example postAnalyze_unknown_user :
  postAnalyze {| bodyUserId := Some "9";
                 bodyBehaviorMetrics := Some typingOutlier;
                 bodySessionId := None |} 0 oneUser
  = (NotFound, oneUser).
Proof. reflexivity. Qed.

Example sliceLast_keeps_the_tail :
  MLService.sliceLast 2 [1; 2; 3] = [2; 3]
  /\ MLService.sliceLast 5 [1; 2; 3] = [1; 2; 3].
Proof. split; reflexivity. Qed.

End HandlerExamples.

Section FlagLogWitness.

Import BehaviorAnalysisService UserService BehaviorRoutes.

Lemma flag_raised_above_30_witness :
  postAnalyze outlierBody 0 oneUser =
    (Success (analyzeBehavior typingOutlier defaultProfile)
       (updateProfile defaultProfile typingOutlier 0.1 0),
     snd (postAnalyze outlierBody 0 oneUser))
  /\ ((exists f, flagLogs (snd (postAnalyze outlierBody 0 oneUser)) = [] ++ [f])
      <-> 30 < score (analyzeBehavior typingOutlier defaultProfile)).
Proof.
  assert (Hrun :
    postAnalyze outlierBody 0 oneUser =
      (Success (analyzeBehavior typingOutlier defaultProfile)
         (updateProfile defaultProfile typingOutlier 0.1 0),
       snd (postAnalyze outlierBody 0 oneUser))).
  { rewrite (postAnalyze_scores_then_updates outlierBody 0 oneUser "1"
               typingOutlier john); reflexivity. }
  split; [exact Hrun |].
  exact (proj1 (flag_raised_above_30 outlierBody 0 oneUser _ _ _ Hrun)).
Defined.

End FlagLogWitness.

Section SessionLedger.

Import UserService.

Lemma endSession_known sid st x :
  sessions st !! sid = Some x ->
  endSession sid st =
    {| users := users st;
       sessions := <[sid := deactivated x]> (sessions st);
       flagLogs := flagLogs st |}.
Proof. intros Hx. unfold endSession. now rewrite Hx. Qed.

Lemma updateSessionActivity_known sid s now st x :
  sessions st !! sid = Some x ->
  updateSessionActivity sid s now st =
    {| users := users st;
       sessions := <[sid := touched now s x]> (sessions st);
       flagLogs := flagLogs st |}.
Proof. intros Hx. unfold updateSessionActivity. now rewrite Hx. Qed.

Lemma endSession_idempotent sid st :
  endSession sid (endSession sid st) = endSession sid st.
Proof.
  destruct (sessions st !! sid) as [x |] eqn:Hx.
  - rewrite (endSession_known sid st x Hx).
    erewrite endSession_known by (cbn [sessions]; apply lookup_insert_eq).
    cbn [users sessions flagLogs]. now rewrite insert_insert_eq.
  - unfold endSession. now rewrite Hx, Hx.
Qed.

(** C9. [endSession] clears the active flag of a known session and nothing
    else, doing it twice is the same as doing it once, and on an unknown id
    it leaves the state as it is; [updateSessionActivity] leaves the state
    as it is on an unknown id, and on a known session, active or ended, it
    stores the new last-activity time and the new score. *)
Theorem session_end_and_activity (st : State) (sid : string)
    (s : R) (now : Z) :
  (forall x, sessions st !! sid = Some x ->
     sessions (endSession sid st) !! sid = Some (deactivated x)
     /\ isActive (deactivated x) = false)
  /\ endSession sid (endSession sid st) = endSession sid st
  /\ (sessions st !! sid = None -> endSession sid st = st)
  /\ (sessions st !! sid = None -> updateSessionActivity sid s now st = st)
  /\ (forall x, sessions st !! sid = Some x ->
        sessions (updateSessionActivity sid s now st) !! sid
        = Some (touched now s x))
  /\ (forall x, sessions st !! sid = Some x ->
        sessions (updateSessionActivity sid s now (endSession sid st)) !! sid
        = Some (touched now s (deactivated x))
        /\ lastActivity (touched now s (deactivated x)) = now
        /\ anomalyScore (touched now s (deactivated x)) = s
        /\ isActive (touched now s (deactivated x)) = false)
  /\ (forall other, other <> sid ->
        sessions (endSession sid st) !! other = sessions st !! other)
  /\ users (endSession sid st) = users st
  /\ flagLogs (endSession sid st) = flagLogs st.
Proof.
  split; [| split; [| split; [| split; [| split; [| split; [| split]]]]]].
  - intros x Hx. rewrite (endSession_known sid st x Hx).
    cbn [sessions]. split; [apply lookup_insert_eq | reflexivity].
  - apply endSession_idempotent.
  - intros Hx. unfold endSession. now rewrite Hx.
  - intros Hx. unfold updateSessionActivity. now rewrite Hx.
  - intros x Hx. rewrite (updateSessionActivity_known sid s now st x Hx).
    cbn [sessions]. apply lookup_insert_eq.
  - intros x Hx. rewrite (endSession_known sid st x Hx).
    erewrite updateSessionActivity_known
      by (cbn [sessions]; apply lookup_insert_eq).
    cbn [sessions]. split; [apply lookup_insert_eq | repeat split].
  - intros other Hne. unfold endSession.
    destruct (sessions st !! sid); [| reflexivity].
    cbn [sessions]. now apply lookup_insert_ne.
  - unfold endSession. destruct (sessions st !! sid); split; reflexivity.
Qed.

Lemma oneSession_lookup :
  sessions oneSession !! "session-1000" =
    Some {| sessId := "session-1000";
            sessUserId := "1";
            startTime := 1000;
            lastActivity := 1000;
            isActive := true;
            anomalyScore := 0 |}.
Proof. reflexivity. Qed.

Lemma session_end_and_activity_witness :
  sessions oneSession !! "session-1000" =
    Some {| sessId := "session-1000";
            sessUserId := "1";
            startTime := 1000;
            lastActivity := 1000;
            isActive := true;
            anomalyScore := 0 |}
  /\ sessions (updateSessionActivity "session-1000" 45 2000
                 (endSession "session-1000" oneSession)) !! "session-1000" =
       Some {| sessId := "session-1000";
               sessUserId := "1";
               startTime := 1000;
               lastActivity := 2000;
               isActive := false;
               anomalyScore := 45 |}.
Proof.
  split; [exact oneSession_lookup |].
  exact (proj1 (proj1 (proj2 (proj2 (proj2 (proj2 (proj2
    (session_end_and_activity oneSession "session-1000" 45 2000))))))
    _ oneSession_lookup)).
Defined.

End SessionLedger.

Section MLOrdering.

Import MLService.

Lemma sliceLast_push_length (history : list R) (x : R) :
  length (sliceLast 100 (history ++ [x])) = Nat.min (S (length history)) 100.
Proof.
  unfold sliceLast. rewrite length_drop, length_app. simpl. lia.
Qed.

Lemma sliceLast_push_zeros (n : nat) :
  sliceLast 100 (replicate n 0 ++ [0]) = replicate (Nat.min (S n) 100) 0.
Proof.
  unfold sliceLast.
  replace (replicate n 0 ++ [0]) with (replicate (S n) 0)
    by apply replicate_S_end.
  rewrite length_replicate, drop_replicate. f_equal. lia.
Qed.

Lemma scoredProfile_lookup ps uid profile m now :
  ps !! uid = Some profile ->
  scoredProfile ps uid m now = updateProfile profile m now.
Proof.
  intros Hlookup. unfold scoredProfile, getOrCreateProfile.
  now rewrite Hlookup.
Qed.

(** After a call, the map holds for the user the very profile that was
    scored. *)
Lemma ml_state_lookup ps uid m now :
  snd (analyzeBehavior ps uid m now) !! uid = Some (scoredProfile ps uid m now).
Proof.
  unfold analyzeBehavior, scoredProfile.
  destruct (getOrCreateProfile ps uid now) as [profile ps'].
  cbn [fst snd]. apply lookup_insert_eq.
Qed.

Lemma ml_confidence ps uid m now :
  confidence (fst (analyzeBehavior ps uid m now))
  = calculateConfidence (scoredProfile ps uid m now).
Proof.
  unfold analyzeBehavior, scoredProfile.
  destruct (getOrCreateProfile ps uid now) as [profile ps'].
  reflexivity.
Qed.

Lemma calculateConfidence_tier (profile : MLUserProfile) :
  calculateConfidence profile =
    confidenceTier
      (Nat.min (Nat.min (length (typingIntervals profile))
                        (length (mouseMovements profile)))
               (length (scrollEvents profile))).
Proof. reflexivity. Qed.

Lemma calculateConfidence_zeros n (profile : MLUserProfile) :
  holdsZeros n profile -> calculateConfidence profile = confidenceTier n.
Proof.
  intros (Ht & Hm & Hs).
  rewrite calculateConfidence_tier, Ht, Hm, Hs, !length_replicate.
  f_equal. lia.
Qed.

Lemma updateProfile_idle_zeros n (profile : MLUserProfile) now :
  holdsZeros n profile ->
  holdsZeros (Nat.min (S n) 100) (updateProfile profile idle now).
Proof.
  intros (Ht & Hm & Hs). unfold holdsZeros, updateProfile.
  cbn [typingIntervals mouseMovements scrollEvents idle avgTypingInterval
       mouseMovementCount scrollEventCount].
  rewrite Ht, Hm, Hs. repeat split; apply sliceLast_push_zeros.
Qed.

(** The histories of the warmed-up service: one zero per call, a hundred at
    most. *)
Lemma warmUp_zeros ps now (n : nat) :
  exists profile,
    warmUp ps now (S n) !! "u" = Some profile
    /\ holdsZeros (Nat.min (S n) 100) profile.
Proof.
  induction n as [| n (profile & Hlookup & Hzeros)].
  - eexists. split; [apply ml_state_lookup |].
    unfold scoredProfile, getOrCreateProfile.
    rewrite lookup_delete_eq. cbn [fst].
    now apply (updateProfile_idle_zeros 0).
  - eexists. split; [apply ml_state_lookup |].
    fold (warmUp ps now (S n)).
    rewrite (scoredProfile_lookup _ _ _ _ _ Hlookup).
    apply (updateProfile_idle_zeros _ _ now) in Hzeros.
    replace (Nat.min (S (S n)) 100)
      with (Nat.min (S (Nat.min (S n) 100)) 100) by lia.
    exact Hzeros.
Qed.

(** The confidence of a call counts the sample the call has just pushed. *)
Lemma ml_confidence_warm ps now (n : nat) m :
  confidence (fst (analyzeBehavior (warmUp ps now (S n)) "u" m now))
  = confidenceTier (Nat.min (S (Nat.min (S n) 100)) 100).
Proof.
  destruct (warmUp_zeros ps now n) as (profile & Hlookup & Ht & Hm & Hs).
  rewrite ml_confidence, (scoredProfile_lookup _ _ _ _ _ Hlookup),
    calculateConfidence_tier.
  unfold updateProfile.
  cbn [typingIntervals mouseMovements scrollEvents].
  rewrite Ht, Hm, Hs, !sliceLast_push_length, !length_replicate.
  f_equal. lia.
Qed.

Lemma burst_typing_anomaly (profile : MLUserProfile) now :
  typingIntervals profile = [0; 0; 0; 0] ->
  calculateTypingAnomaly 5 (updateProfile profile burst now) = 40.
Proof.
  intros Hhistory.
  unfold calculateTypingAnomaly, updateProfile, sliceLast, burst.
  cbn [typingIntervals avgTypingInterval]. rewrite Hhistory. simpl.
  match goal with
  | |- context [sqrt ?x] => replace x with (2 * 2) by lra
  end.
  rewrite sqrt_square by lra.
  runfold. rcases.
Qed.

Lemma burst_mouse_anomaly (profile : MLUserProfile) now :
  mouseMovements profile = [0; 0; 0; 0] ->
  calculateMouseAnomaly 0 (updateProfile profile burst now) = 0.
Proof.
  intros Hhistory.
  unfold calculateMouseAnomaly, updateProfile, sliceLast, burst.
  cbn [mouseMovements mouseMovementCount]. rewrite Hhistory. simpl.
  match goal with
  | |- context [sqrt ?x] => replace x with 0 by lra
  end.
  rewrite sqrt_0. rcases.
Qed.

Lemma burst_scroll_anomaly (profile : MLUserProfile) now :
  scrollEvents profile = [0; 0; 0; 0] ->
  calculateScrollAnomaly 0 (updateProfile profile burst now) = 0.
Proof.
  intros Hhistory.
  unfold calculateScrollAnomaly, updateProfile, sliceLast, burst.
  cbn [scrollEvents scrollEventCount]. rewrite Hhistory. simpl.
  match goal with
  | |- context [sqrt ?x] => replace x with 0 by lra
  end.
  rewrite sqrt_0. rcases.
Qed.

(** C1, at a failing input of the z-score scorer. A user the service had no
    profile of has submitted four idle samples, so that the stored histories
    hold four zeros each. The next call pushes its sample into the histories
    first and scores it against the five samples that result: the typing
    score is 40 and listed as a factor, the overall score is 16 and the
    confidence 0.6, where the histories as they were stored, with four
    samples, give a typing score of 0 and a confidence of 0.3. *)
Theorem ml_scores_against_updated_history
    (ps : gmap string MLUserProfile) (now : Z) :
  let stored := warmUp ps now 4 !! "u" in
  let result := analyzeBehavior (warmUp ps now 4) "u" burst now in
  score (fst result) = 16
  /\ factors (fst result) = [Build_Factor "Typing anomaly" 40]
  /\ confidence (fst result) = 0.6
  /\ recommendation (fst result) = pass
  /\ typingIntervals <$> stored = Some [0; 0; 0; 0]
  /\ typingIntervals <$> snd result !! "u" = Some [0; 0; 0; 0; 5]
  /\ calculateTypingAnomaly (avgTypingInterval burst) <$> stored = Some 0
  /\ calculateConfidence <$> stored = Some 0.3.
Proof.
  cbv zeta.
  destruct (warmUp_zeros ps now 3) as (profile & Hlookup & Ht & Hm & Hs).
  change (Nat.min 4 100) with 4%nat in *.
  change (replicate 4 0) with [0; 0; 0; 0] in *.
  pose proof (scoredProfile_lookup _ _ _ burst now Hlookup) as Hscored.
  assert (Hoverall : overall (warmUp ps now 4) "u" burst now = 16).
  { unfold overall. cbv zeta. rewrite Hscored.
    cbn [burst avgTypingInterval mouseMovementCount scrollEventCount].
    fold burst.
    rewrite burst_typing_anomaly, burst_mouse_anomaly, burst_scroll_anomaly
      by assumption.
    lra. }
  split; [| split; [| split; [| split; [| split; [| split; [| split]]]]]].
  - now rewrite ml_score.
  - rewrite ml_factors, Hscored.
    cbn [burst avgTypingInterval mouseMovementCount scrollEventCount].
    fold burst.
    rewrite burst_typing_anomaly, burst_mouse_anomaly, burst_scroll_anomaly
      by assumption.
    unfold entry.
    destruct (Rlt_dec 30 40); [| lra].
    destruct (Rlt_dec 30 0); [lra | reflexivity].
  - apply (ml_confidence_warm ps now 3).
  - rewrite ml_recommendation, Hoverall. rcases. reflexivity.
  - rewrite Hlookup. cbn. now rewrite Ht.
  - rewrite ml_state_lookup, Hscored. cbn. now rewrite Ht.
  - rewrite Hlookup. cbn. unfold calculateTypingAnomaly. now rewrite Ht.
  - rewrite Hlookup. cbn.
    now rewrite (calculateConfidence_zeros 4 profile (conj Ht (conj Hm Hs))).
Qed.

(** C7, at failing inputs. [calculateConfidence] follows the tiers of the
    specification on the histories it is given, but a call reads them after
    it has pushed its own sample: with 4, 19 and 49 paired samples stored,
    the call returns 0.6, 0.8 and 0.95; with 50 it returns 0.95. *)
Theorem ml_confidence_counts_pushed_sample
    (ps : gmap string MLUserProfile) (m : BehaviorMetrics) (now : Z) :
  let stored n := warmUp ps now n !! "u" in
  let call n := fst (analyzeBehavior (warmUp ps now n) "u" m now) in
  (length <$> (typingIntervals <$> stored 4%nat) = Some 4%nat
   /\ calculateConfidence <$> stored 4%nat = Some 0.3
   /\ confidence (call 4%nat) = 0.6)
  /\ (length <$> (typingIntervals <$> stored 19%nat) = Some 19%nat
      /\ calculateConfidence <$> stored 19%nat = Some 0.6
      /\ confidence (call 19%nat) = 0.8)
  /\ (length <$> (typingIntervals <$> stored 49%nat) = Some 49%nat
      /\ calculateConfidence <$> stored 49%nat = Some 0.8
      /\ confidence (call 49%nat) = 0.95)
  /\ (length <$> (typingIntervals <$> stored 50%nat) = Some 50%nat
      /\ calculateConfidence <$> stored 50%nat = Some 0.95
      /\ confidence (call 50%nat) = 0.95).
Proof.
  cbv beta zeta.
  assert (Hat : forall n k,
    Nat.min (S n) 100 = k ->
    length <$> (typingIntervals <$> warmUp ps now (S n) !! "u") = Some k
    /\ calculateConfidence <$> warmUp ps now (S n) !! "u"
       = Some (confidenceTier k)
    /\ confidence (fst (analyzeBehavior (warmUp ps now (S n)) "u" m now))
       = confidenceTier (Nat.min (S k) 100)).
  { intros n k <-.
    destruct (warmUp_zeros ps now n) as (profile & Hlookup & Hzeros).
    rewrite ml_confidence_warm, Hlookup. cbn.
    rewrite (calculateConfidence_zeros _ _ Hzeros).
    destruct Hzeros as (-> & _ & _).
    now rewrite length_replicate. }
  split; [apply (Hat 3%nat 4%nat eq_refl) |].
  split; [apply (Hat 18%nat 19%nat eq_refl) |].
  split; [apply (Hat 48%nat 49%nat eq_refl) |].
  apply (Hat 49%nat 50%nat eq_refl).
Qed.

End MLOrdering.

Section ScoreRangeWitness.

Lemma moderate_small (x : R) : Rabs x <= 10 ^ 6 -> moderate x.
Proof.
  intros Hx. unfold moderate.
  apply Rle_trans with (10 ^ 6); [exact Hx |].
  apply Rle_pow; [lra | lia].
Qed.

Lemma zeros_are_moderate (n : nat) : Forall moderate (replicate n 0).
Proof.
  apply Forall_replicate, moderate_small. rewrite Rabs_R0. simpl. lra.
Qed.

Lemma score_in_range_witness :
  moderateSample typingOutlier
  /\ (forall stored, warmUp ∅ 0 7 !! "u" = Some stored ->
      moderateProfile stored)
  /\ 0 <= score (fst (MLService.analyzeBehavior (warmUp ∅ 0 7) "u"
                       typingOutlier 0)) <= 100.
Proof.
  assert (Hsample : moderateSample typingOutlier).
  { unfold moderateSample, typingOutlier.
    cbn [avgTypingInterval mouseMovementCount scrollEventCount].
    repeat split; apply moderate_small; unfold Rabs;
      destruct (Rcase_abs _); simpl; lra. }
  assert (Hstored : forall stored, warmUp ∅ 0 7 !! "u" = Some stored ->
                    moderateProfile stored).
  { intros stored Hlookup.
    destruct (warmUp_zeros ∅ 0 6) as (profile & Hprofile & Ht & Hm & Hs).
    rewrite Hprofile in Hlookup. injection Hlookup as <-.
    unfold moderateProfile. rewrite Ht, Hm, Hs.
    repeat split; apply zeros_are_moderate. }
  split; [exact Hsample |]. split; [exact Hstored |].
  exact (proj1 (proj2
    (score_in_range typingOutlier defaultProfile (warmUp ∅ 0 7) "u" 0))
    Hsample Hstored).
Defined.

End ScoreRangeWitness.

(** * Further properties of the scalar scorer *)

Section ScalarScorerMore.

Import BehaviorAnalysisService.

Ltac split_pushes :=
  repeat match goal with
         | |- context [if Rlt_dec 0 ?x then (_, _) else _] =>
             destruct (Rlt_dec 0 x)
         end.

Lemma scalar_confidence (m : BehaviorMetrics) (p : BehaviorProfile) :
  confidence (analyzeBehavior m p) =
    Rmax 0.5
      ((if Req_dec_T (avgTypingInterval m) 0 then 0.8 * 0.7 else 0.8)
       * (if Req_dec_T (mouseMovementCount m) 0 then 0.8 else 1)).
Proof.
  unfold analyzeBehavior. split_pushes; cbn [confidence];
    destruct (Req_dec_T (avgTypingInterval m) 0),
             (Req_dec_T (mouseMovementCount m) 0); f_equal; lra.
Qed.

(** X1. The confidence of the scalar scorer takes one of four values, decided by
    the sample alone: 0.8 with typing and pointer data, the product
    [0.8 * 0.7] without typing data, the product [0.8 * 0.8] without pointer
    data, and 0.5 without either, where the floor lifts the product of all
    three. *)
Theorem scalar_confidence_levels (m : BehaviorMetrics) (p : BehaviorProfile) :
  let c := confidence (analyzeBehavior m p) in
  (avgTypingInterval m <> 0 -> mouseMovementCount m <> 0 -> c = 0.8)
  /\ (avgTypingInterval m = 0 -> mouseMovementCount m <> 0 -> c = 0.8 * 0.7)
  /\ (avgTypingInterval m <> 0 -> mouseMovementCount m = 0 -> c = 0.8 * 0.8)
  /\ (avgTypingInterval m = 0 -> mouseMovementCount m = 0 -> c = 0.5)
  /\ 0.5 <= c <= 0.8.
Proof.
  cbv zeta. rewrite scalar_confidence.
  destruct (Req_dec_T (avgTypingInterval m) 0),
           (Req_dec_T (mouseMovementCount m) 0);
    repeat split; intros; try contradiction; runfold; rcases.
Qed.

Lemma deviation_of_itself (b : R) :
  analyzeTypingBehavior b b = 0
  /\ analyzeMouseBehavior b b = 0
  /\ analyzeScrollBehavior b b = 0.
Proof.
  unfold analyzeTypingBehavior, analyzeMouseBehavior, analyzeScrollBehavior.
  destruct (Req_dec_T b 0) as [| Hnz]; [repeat split; reflexivity |].
  replace (b - b) with 0 by lra. rewrite Rabs_R0.
  replace (0 / b * 100) with 0 by (unfold Rdiv; lra).
  unfold Rmin. repeat split; rcases.
Qed.

(** X2. A sample that sits on the baselines of the profile scores 0, lists no
    factor and passes, whatever the baselines are, once the session has
    lasted 5000 ms; in a shorter session it scores 3, lists the session
    factor alone, and passes as well. *)
Theorem on_baseline_sample_passes (p : BehaviorProfile) (duration : R) :
  let a := analyzeBehavior (onBaseline p duration) p in
  (5000 <= duration ->
     score a = 0 /\ factors a = [] /\ recommendation a = pass)
  /\ (duration < 5000 ->
        score a = 3
        /\ factors a = [Build_Factor "Session duration anomaly" 30]
        /\ recommendation a = pass).
Proof.
  cbv zeta.
  destruct (deviation_of_itself (baselineTypingInterval p)) as (Ht & _ & _).
  destruct (deviation_of_itself (baselineMouseActivity p)) as (_ & Hm & _).
  destruct (deviation_of_itself (baselineScrollPattern p)) as (_ & _ & Hs).
  assert (Hsum : weightedSum (onBaseline p duration) p
                 = contribution (analyzeSessionBehavior duration) 0.1).
  { unfold weightedSum.
    cbn [onBaseline avgTypingInterval mouseMovementCount scrollEventCount
         sessionDuration].
    rewrite Ht, Hm, Hs. unfold contribution. rcases. }
  assert (Hfactors : factors (analyzeBehavior (onBaseline p duration) p)
                     = entry "Session duration anomaly" 0
                         (analyzeSessionBehavior duration)).
  { rewrite scalar_factors.
    cbn [onBaseline avgTypingInterval mouseMovementCount scrollEventCount
         sessionDuration].
    rewrite Ht, Hm, Hs. unfold entry at 1 2 3.
    destruct (Rlt_dec 0 0); [lra | reflexivity]. }
  rewrite (scalar_recommendation (onBaseline p duration) p). cbv zeta.
  rewrite scalar_score, Hsum, Hfactors.
  unfold analyzeSessionBehavior, contribution, entry.
  split; intros Hd.
  - destruct (Rlt_dec duration 5000); [lra |].
    destruct (Rlt_dec 0 0); [lra |].
    runfold. repeat split; rcases; reflexivity.
  - destruct (Rlt_dec duration 5000); [| lra].
    destruct (Rlt_dec 0 30); [| lra].
    runfold. repeat split; rcases; reflexivity.
Qed.

Lemma on_baseline_sample_passes_witness :
  5000 <= 60000
  /\ score (analyzeBehavior (onBaseline defaultProfile 60000) defaultProfile) = 0.
Proof.
  split; [lra |].
  apply (proj1 (on_baseline_sample_passes defaultProfile 60000)). lra.
Defined.

(** X3. The scalar score never exceeds 93, so the clamp at 100 is never what
    bounds it, and [lock] is only reached when the typing interval and the
    pointer activity both deviate: no single signal, and no pair without
    one of these two, adds up to 70. *)
Theorem lock_needs_typing_and_pointer (m : BehaviorMetrics)
    (p : BehaviorProfile) :
  recommendation (analyzeBehavior m p) = lock ->
  0 < analyzeTypingBehavior (avgTypingInterval m) (baselineTypingInterval p)
  /\ 0 < analyzeMouseBehavior (mouseMovementCount m) (baselineMouseActivity p)
  /\ 70 <= score (analyzeBehavior m p) <= 93
  /\ score (analyzeBehavior m p) = weightedSum m p.
Proof.
  rewrite (scalar_recommendation m p). cbv zeta.
  rewrite scalar_score.
  pose proof (weightedSum_range m p) as Hrange.
  replace (Rmin 100 (Rmax 0 (weightedSum m p))) with (weightedSum m p)
    by (runfold; rcases).
  destruct (Rlt_dec (weightedSum m p) 30); [discriminate |].
  destruct (Rlt_dec (weightedSum m p) 70) as [| Hlock]; [discriminate |].
  intros _. unfold weightedSum in *.
  pose proof (typing_at_most_100 (avgTypingInterval m)
                (baselineTypingInterval p)).
  pose proof (mouse_at_most_100 (mouseMovementCount m)
                (baselineMouseActivity p)).
  pose proof (scroll_at_most_100 (scrollEventCount m)
                (baselineScrollPattern p)).
  pose proof (session_at_most_30 (sessionDuration m)).
  unfold contribution in *.
  repeat match goal with
         | H : context [Rlt_dec 0 ?x] |- _ => destruct (Rlt_dec 0 x)
         end; repeat split; lra.
Qed.

Lemma doubled_locks :
  recommendation (analyzeBehavior doubled defaultProfile) = lock.
Proof.
  rewrite (scalar_recommendation doubled defaultProfile). cbv zeta.
  unfold doubled. rewrite slow_and_busy_score by lra.
  rcases; reflexivity.
Qed.

Lemma lock_needs_typing_and_pointer_witness :
  recommendation (analyzeBehavior doubled defaultProfile) = lock
  /\ 0 < analyzeTypingBehavior (avgTypingInterval doubled)
           (baselineTypingInterval defaultProfile).
Proof.
  split; [exact doubled_locks |].
  exact (proj1 (lock_needs_typing_and_pointer doubled defaultProfile
                  doubled_locks)).
Defined.

End ScalarScorerMore.

Section ScalarSignals.

Import BehaviorAnalysisService.

(** The three per-signal scorers are one function. *)
Lemma signal_scorers_agree (c b : R) :
  analyzeMouseBehavior c b = analyzeTypingBehavior c b
  /\ analyzeScrollBehavior c b = analyzeTypingBehavior c b.
Proof. split; reflexivity. Qed.

Lemma typing_ratio (c b : R) :
  b <> 0 ->
  analyzeTypingBehavior c b = Rmin 100 (Rabs (c - b) / b * 100)
  /\ Rabs (c - b) / b * b = Rabs (c - b).
Proof.
  intros Hb. unfold analyzeTypingBehavior.
  destruct (Req_dec_T b 0); [contradiction |].
  split; [reflexivity | now field].
Qed.

(** X5. A negative baseline mutes its signal: the score is never positive, so
    the signal adds nothing to the weighted sum and is never listed,
    however far the sample is from the baseline. *)
Theorem negative_baseline_mutes_signal (m : BehaviorMetrics)
    (p : BehaviorProfile) :
  baselineTypingInterval p < 0 ->
  analyzeTypingBehavior (avgTypingInterval m) (baselineTypingInterval p) <= 0
  /\ ~ mentions "Typing speed deviation" (factors (analyzeBehavior m p))
  /\ score (analyzeBehavior m p) <= 53.
Proof.
  intros Hneg.
  assert (Hscore :
    analyzeTypingBehavior (avgTypingInterval m) (baselineTypingInterval p)
    <= 0).
  { destruct (typing_ratio (avgTypingInterval m) (baselineTypingInterval p)
                ltac:(lra)) as [-> Hratio].
    set (q := Rabs (avgTypingInterval m - baselineTypingInterval p)
              / baselineTypingInterval p) in *.
    pose proof (Rabs_pos (avgTypingInterval m - baselineTypingInterval p)).
    assert (q <= 0) by nra.
    unfold Rmin. rcases. }
  split; [exact Hscore |]. split.
  - rewrite (proj1 (scalar_mentions m p)). lra.
  - rewrite scalar_score. unfold weightedSum.
    pose proof (contribution_range _ 0.3 100 ltac:(lra)
      (mouse_at_most_100 (mouseMovementCount m) (baselineMouseActivity p))
      ltac:(lra)).
    pose proof (contribution_range _ 0.2 100 ltac:(lra)
      (scroll_at_most_100 (scrollEventCount m) (baselineScrollPattern p))
      ltac:(lra)).
    pose proof (contribution_range _ 0.1 30 ltac:(lra)
      (session_at_most_30 (sessionDuration m)) ltac:(lra)).
    unfold contribution at 1.
    destruct (Rlt_dec 0 (analyzeTypingBehavior _ _)); [lra |].
    runfold. rcases.
Qed.

Lemma negative_baseline_mutes_signal_witness :
  baselineTypingInterval negativeTyping < 0
  /\ ~ mentions "Typing speed deviation"
         (factors (analyzeBehavior typingOutlier negativeTyping)).
Proof.
  assert (Hneg : baselineTypingInterval negativeTyping < 0)
    by (cbn [negativeTyping baselineTypingInterval]; lra).
  split; [exact Hneg |].
  exact (proj1 (proj2
    (negative_baseline_mutes_signal typingOutlier negativeTyping Hneg))).
Defined.

Lemma orDefault_nonzero (value fallback : R) :
  fallback <> 0 -> orDefault value fallback <> 0.
Proof.
  intros Hf. unfold orDefault. now destruct (Req_dec_T value 0).
Qed.

(** X6. A profile created from a first sample has no zero baseline, so no
    deviation guard ever fires on it; when none of the three signals of the
    sample is 0, the sample scores at most 3 against the profile created
    from it and passes, while a signal that is 0 is measured against the
    fallback baseline and saturates. *)
Theorem created_profile_fits_its_sample (m : BehaviorMetrics) (now : Z) :
  let p := createBaselineProfile m now in
  baselineTypingInterval p <> 0
  /\ baselineMouseActivity p <> 0
  /\ baselineScrollPattern p <> 0
  /\ (avgTypingInterval m <> 0 -> mouseMovementCount m <> 0 ->
      scrollEventCount m <> 0 ->
      score (analyzeBehavior m p) <= 3
      /\ recommendation (analyzeBehavior m p) = pass)
  /\ (avgTypingInterval m = 0 ->
      analyzeTypingBehavior (avgTypingInterval m) (baselineTypingInterval p)
      = 100).
Proof.
  cbv zeta. unfold createBaselineProfile.
  cbn [baselineTypingInterval baselineMouseActivity baselineScrollPattern].
  split; [apply orDefault_nonzero; lra |].
  split; [apply orDefault_nonzero; lra |].
  split; [apply orDefault_nonzero; lra |].
  split.
  - intros Ht Hm Hs.
    match goal with
    | |- context [analyzeBehavior m ?q] => set (p := q)
    end.
    assert (Hsum : weightedSum m p
                   = contribution (analyzeSessionBehavior (sessionDuration m))
                       0.1).
    { unfold weightedSum, p, orDefault.
      cbn [baselineTypingInterval baselineMouseActivity baselineScrollPattern].
      destruct (Req_dec_T (avgTypingInterval m) 0); [contradiction |].
      destruct (Req_dec_T (mouseMovementCount m) 0); [contradiction |].
      destruct (Req_dec_T (scrollEventCount m) 0); [contradiction |].
      rewrite (proj1 (deviation_of_itself _)),
        (proj1 (proj2 (deviation_of_itself _))),
        (proj2 (proj2 (deviation_of_itself _))).
      unfold contribution. rcases. }
    rewrite (scalar_recommendation m p). cbv zeta.
    rewrite scalar_score, Hsum.
    unfold contribution, analyzeSessionBehavior.
    runfold. split; rcases; reflexivity.
  - intros ->. unfold orDefault, analyzeTypingBehavior.
    destruct (Req_dec_T 0 0); [| contradiction].
    runfold. rcases.
Qed.

End ScalarSignals.

(** * Further properties of the z-score service *)

Section HistoryMore.

Import MLService.

Lemma sliceLast_push (history : list R) (x : R) :
  length (sliceLast 100 (history ++ [x])) = Nat.min (S (length history)) 100
  /\ last (sliceLast 100 (history ++ [x])) = Some x
  /\ ((length history < 100)%nat ->
      sliceLast 100 (history ++ [x]) = history ++ [x])
  /\ ((100 <= length history)%nat ->
      sliceLast 100 (history ++ [x])
      = drop (length history - 99) history ++ [x]).
Proof.
  split; [apply sliceLast_push_length |].
  assert (Hfull : (100 <= length history)%nat ->
    sliceLast 100 (history ++ [x]) = drop (length history - 99) history ++ [x]).
  { intros Hlen. unfold sliceLast. rewrite length_app. simpl.
    replace (length history + 1 - 100)%nat with (length history - 99)%nat
      by lia.
    apply drop_app_le. lia. }
  assert (Hroom : (length history < 100)%nat ->
    sliceLast 100 (history ++ [x]) = history ++ [x]).
  { intros Hlen. unfold sliceLast. rewrite length_app. simpl.
    now replace (length history + 1 - 100)%nat with 0%nat by lia. }
  split; [| split; assumption].
  destruct (Nat.lt_ge_cases (length history) 100) as [Hlen | Hlen].
  - rewrite (Hroom Hlen). apply last_snoc.
  - rewrite (Hfull Hlen). apply last_snoc.
Qed.

(** X7. [updateProfile] keeps each of the three histories a queue of at most
    100 samples: the submitted value goes to the end, nothing is dropped
    while there is room, and a full history loses exactly its oldest
    sample. *)
Theorem history_is_a_bounded_queue (profile : MLUserProfile)
    (m : BehaviorMetrics) (now : Z) :
  let updated := updateProfile profile m now in
  queued (typingIntervals profile) (avgTypingInterval m)
         (typingIntervals updated)
  /\ queued (mouseMovements profile) (mouseMovementCount m)
            (mouseMovements updated)
  /\ queued (scrollEvents profile) (scrollEventCount m)
            (scrollEvents updated).
Proof.
  cbv zeta. unfold updateProfile.
  cbn [typingIntervals mouseMovements scrollEvents].
  assert (Hqueue : forall old x, queued old x (sliceLast 100 (old ++ [x]))).
  { intros old x.
    destruct (sliceLast_push old x) as (Hlen & Hlast & Hroom & Hfull).
    unfold queued.
    split; [rewrite Hlen; lia |].
    split; [exact Hlen |].
    split; [exact Hlast |].
    split; [exact Hroom |].
    split; [| exact Hfull].
    intros Hold. rewrite Hfull by lia. now rewrite Hold. }
  repeat split; apply Hqueue.
Qed.

Lemma updateProfile_paired (profile : MLUserProfile) m now :
  length (typingIntervals profile) = length (mouseMovements profile) ->
  length (mouseMovements profile) = length (scrollEvents profile) ->
  paired (updateProfile profile m now).
Proof.
  intros Htm Hms. unfold paired, updateProfile.
  cbn [typingIntervals mouseMovements scrollEvents].
  rewrite !sliceLast_push_length. lia.
Qed.

Lemma ml_state_other ps uid other m now :
  other <> uid ->
  snd (analyzeBehavior ps uid m now) !! other = ps !! other.
Proof.
  intros Hne. unfold analyzeBehavior, getOrCreateProfile.
  destruct (ps !! uid) as [profile |] eqn:Hlookup; cbn [snd].
  - now rewrite lookup_insert_ne.
  - now rewrite !lookup_insert_ne.
Qed.

(** X8. A call changes the profile of its own user only: every other entry of
    the map is what it was, and the caller's entry holds the stored profile
    (the neutral one for a new user) after [updateProfile]. *)
Theorem ml_call_touches_one_profile
    (ps : gmap string MLUserProfile) (uid other : string)
    (m : BehaviorMetrics) (now : Z) :
  let ps' := snd (analyzeBehavior ps uid m now) in
  (other <> uid -> ps' !! other = ps !! other)
  /\ (forall profile, ps !! uid = Some profile ->
        ps' !! uid = Some (updateProfile profile m now))
  /\ (ps !! uid = None ->
        exists fresh,
          ps' !! uid = Some fresh
          /\ userId fresh = uid
          /\ typingIntervals fresh = [avgTypingInterval m]
          /\ mouseMovements fresh = [mouseMovementCount m]
          /\ scrollEvents fresh = [scrollEventCount m]
          /\ baselineTypingInterval fresh
             = updateBaseline 250 (avgTypingInterval m) 0.1
          /\ baselineMouseActivity fresh
             = updateBaseline 50 (mouseMovementCount m) 0.1
          /\ baselineScrollPattern fresh
             = updateBaseline 10 (scrollEventCount m) 0.1).
Proof.
  cbv zeta. split; [apply ml_state_other |]. split.
  - intros profile Hlookup.
    now rewrite ml_state_lookup, (scoredProfile_lookup _ _ _ _ _ Hlookup).
  - intros Hlookup. eexists. split; [apply ml_state_lookup |].
    unfold scoredProfile, getOrCreateProfile. rewrite Hlookup.
    repeat split.
Qed.

(** X9. Histories that go in step and within capacity stay so: if every stored
    profile has three histories of one length, at most 100, then so has
    every profile stored after a call. *)
Theorem paired_histories_are_kept
    (ps : gmap string MLUserProfile) (uid : string)
    (m : BehaviorMetrics) (now : Z) :
  (forall u profile, ps !! u = Some profile -> paired profile) ->
  forall u profile,
    snd (analyzeBehavior ps uid m now) !! u = Some profile -> paired profile.
Proof.
  intros Hall u profile.
  destruct (decide (u = uid)) as [-> | Hne].
  - rewrite ml_state_lookup. intros [= <-].
    unfold scoredProfile, getOrCreateProfile.
    destruct (ps !! uid) as [stored |] eqn:Hlookup; cbn [fst].
    + destruct (Hall uid stored Hlookup) as (Htm & Hms & _).
      now apply updateProfile_paired.
    + now apply updateProfile_paired.
  - rewrite (ml_state_other _ _ _ _ _ Hne). apply Hall.
Qed.

Lemma paired_histories_are_kept_witness :
  (forall u profile, (∅ : gmap string MLUserProfile) !! u = Some profile ->
     paired profile)
  /\ (forall u profile,
        snd (analyzeBehavior (snd (analyzeBehavior ∅ "u" burst 0)) "u" idle 1)
          !! u = Some profile ->
        paired profile).
Proof.
  assert (Hempty : forall u profile,
            (∅ : gmap string MLUserProfile) !! u = Some profile ->
            paired profile).
  { intros u profile Hlookup. now rewrite lookup_empty in Hlookup. }
  split; [exact Hempty |].
  exact (paired_histories_are_kept _ "u" idle 1
           (paired_histories_are_kept ∅ "u" burst 0 Hempty)).
Defined.

Lemma anomaly_needs_five_samples (c : R) (profile : MLUserProfile) :
  ((length (typingIntervals profile) < 5)%nat ->
     calculateTypingAnomaly c profile = 0)
  /\ ((length (mouseMovements profile) < 5)%nat ->
        calculateMouseAnomaly c profile = 0)
  /\ ((length (scrollEvents profile) < 5)%nat ->
        calculateScrollAnomaly c profile = 0).
Proof.
  unfold calculateTypingAnomaly, calculateMouseAnomaly,
    calculateScrollAnomaly.
  repeat split; intros Hlen;
    apply Nat.ltb_lt in Hlen; now rewrite Hlen.
Qed.

Lemma ml_analysis_of_scores ps uid m now :
  let profile := scoredProfile ps uid m now in
  calculateTypingAnomaly (avgTypingInterval m) profile = 0 ->
  calculateMouseAnomaly (mouseMovementCount m) profile = 0 ->
  calculateScrollAnomaly (scrollEventCount m) profile = 0 ->
  fst (analyzeBehavior ps uid m now) =
    {| score := 0;
       confidence := calculateConfidence profile;
       factors := [];
       recommendation := pass |}.
Proof.
  cbv zeta. intros Ht Hm Hs.
  unfold analyzeBehavior, scoredProfile in *.
  destruct (getOrCreateProfile ps uid now) as [profile ps'].
  cbn [fst] in *. rewrite Ht, Hm, Hs.
  replace (0 * 0.4 + 0 * 0.3 + 0 * 0.3) with 0 by lra.
  destruct (Rlt_dec 0 30); [| lra].
  destruct (Rlt_dec 30 0); [lra |].
  f_equal. runfold. rcases.
Qed.

Lemma short_histories_score_cold ps uid m now :
  shorterThan 5 (scoredProfile ps uid m now) ->
  fst (analyzeBehavior ps uid m now) = coldAnalysis.
Proof.
  intros (Ht & Hm & Hs).
  rewrite ml_analysis_of_scores;
    try (now apply anomaly_needs_five_samples).
  unfold coldAnalysis. f_equal.
  rewrite calculateConfidence_tier. unfold confidenceTier.
  replace (_ <? 5)%nat with true; [reflexivity |].
  symmetry. apply Nat.ltb_lt. lia.
Qed.

(** X10. Cold start. While the stored histories of a user hold fewer than four
    samples each, and in particular for a user the service has no profile
    of, a call answers score 0, confidence 0.3, no factor and [pass],
    whatever the sample is. *)
Theorem ml_cold_start (ps : gmap string MLUserProfile) (uid : string)
    (m : BehaviorMetrics) (now : Z) :
  (forall profile, ps !! uid = Some profile -> shorterThan 4 profile) ->
  fst (analyzeBehavior ps uid m now) = coldAnalysis.
Proof.
  intros Hshort. apply short_histories_score_cold.
  unfold scoredProfile, getOrCreateProfile, shorterThan, updateProfile.
  destruct (ps !! uid) as [stored |] eqn:Hlookup;
    cbn [fst typingIntervals mouseMovements scrollEvents];
    rewrite !sliceLast_push_length.
  - destruct (Hshort stored eq_refl) as (Ht & Hm & Hs). lia.
  - simpl. lia.
Qed.

Lemma ml_cold_start_witness :
  (forall profile, (∅ : gmap string MLUserProfile) !! "u" = Some profile ->
     shorterThan 4 profile)
  /\ fst (analyzeBehavior ∅ "u" typingOutlier 0) = coldAnalysis.
Proof.
  assert (Hempty : forall profile,
            (∅ : gmap string MLUserProfile) !! "u" = Some profile ->
            shorterThan 4 profile).
  { intros profile Hlookup. now rewrite lookup_empty in Hlookup. }
  split; [exact Hempty |].
  exact (ml_cold_start ∅ "u" typingOutlier 0 Hempty).
Defined.

End HistoryMore.

Section SteadyUser.

Import MLService.

Lemma sum_of_constant (k : nat) (v acc : R) :
  fold_left (fun a b => a + b) (replicate k v) acc = acc + INR k * v.
Proof.
  revert acc. induction k as [| k IH]; intros acc.
  - simpl. lra.
  - change (replicate (S k) v) with (v :: replicate k v).
    cbn [fold_left]. rewrite IH, S_INR. lra.
Qed.

Lemma squares_of_constant (k : nat) (v mean acc : R) :
  fold_left (fun sum val => sum + (val - mean) ^ 2) (replicate k v) acc
  = acc + INR k * (v - mean) ^ 2.
Proof.
  revert acc. induction k as [| k IH]; intros acc.
  - simpl. lra.
  - change (replicate (S k) v) with (v :: replicate k v).
    cbn [fold_left]. rewrite IH, S_INR. lra.
Qed.

(** The guard on a zero standard deviation: a sample equal to every sample
    of the history scores 0. *)
Lemma constant_history_deviation (k : nat) (v : R) :
  (k <? 5)%nat = false ->
  sqrt (fold_left
          (fun sum val =>
             sum + (val - fold_left (fun a b => a + b) (replicate k v) 0
                          / INR (length (replicate k v))) ^ 2)
          (replicate k v) 0
        / INR (length (replicate k v))) = 0.
Proof.
  intros Hk. apply Nat.ltb_ge in Hk.
  rewrite length_replicate, sum_of_constant, squares_of_constant.
  assert (Hpos : 0 < INR k) by (apply lt_0_INR; lia).
  replace ((0 + INR k * v) / INR k) with v by (field; lra).
  replace ((0 + INR k * (v - v) ^ 2) / INR k) with 0 by (field; lra).
  apply sqrt_0.
Qed.

Lemma constant_history_after_push (history : list R) (v : R) :
  Forall (eq v) history ->
  exists k, sliceLast 100 (history ++ [v]) = replicate k v.
Proof.
  intros Hall. exists (length (sliceLast 100 (history ++ [v]))).
  symmetry. apply replicate_as_Forall. split; [reflexivity |].
  unfold sliceLast. apply Forall_drop, Forall_app. split; [exact Hall |].
  now constructor.
Qed.

(** X11. A user who has always sent one and the same sample of whole numbers
    (of magnitude at most 2^40, so that the sums of a history are exact in
    doubles as well) and sends it again is scored 0, with no factor and
    [pass]: each history is constant, its standard deviation is 0, and the
    guard answers 0 instead of dividing by it. *)
Theorem steady_user_scores_zero
    (ps : gmap string MLUserProfile) (uid : string)
    (m : BehaviorMetrics) (now : Z) (profile : MLUserProfile) :
  wholeNumber (avgTypingInterval m) ->
  wholeNumber (mouseMovementCount m) ->
  wholeNumber (scrollEventCount m) ->
  ps !! uid = Some profile ->
  Forall (eq (avgTypingInterval m)) (typingIntervals profile) ->
  Forall (eq (mouseMovementCount m)) (mouseMovements profile) ->
  Forall (eq (scrollEventCount m)) (scrollEvents profile) ->
  score (fst (analyzeBehavior ps uid m now)) = 0
  /\ factors (fst (analyzeBehavior ps uid m now)) = []
  /\ recommendation (fst (analyzeBehavior ps uid m now)) = pass.
Proof.
  intros _ _ _ Hlookup Ht Hm Hs.
  destruct (constant_history_after_push _ _ Ht) as [kt Hkt].
  destruct (constant_history_after_push _ _ Hm) as [km Hkm].
  destruct (constant_history_after_push _ _ Hs) as [ks Hks].
  rewrite ml_analysis_of_scores; [repeat split | | |];
    rewrite (scoredProfile_lookup _ _ _ _ _ Hlookup);
    unfold calculateTypingAnomaly, calculateMouseAnomaly,
      calculateScrollAnomaly, updateProfile;
    cbn [typingIntervals mouseMovements scrollEvents];
    rewrite ?Hkt, ?Hkm, ?Hks;
    match goal with
    | |- context [(length (replicate ?k ?v) <? 5)%nat] =>
        rewrite (length_replicate k v) at 1;
        destruct (k <? 5)%nat eqn:Hk; [reflexivity |];
        rewrite (constant_history_deviation k v Hk)
    end;
    now destruct (Req_dec_T 0 0).
Qed.

Lemma steady_user_scores_zero_witness :
  wholeNumber (avgTypingInterval typingOutlier)
  /\ wholeNumber (mouseMovementCount typingOutlier)
  /\ wholeNumber (scrollEventCount typingOutlier)
  /\ ({["u" := steady 7 typingOutlier]} : gmap string MLUserProfile) !! "u"
     = Some (steady 7 typingOutlier)
  /\ score (fst (analyzeBehavior {["u" := steady 7 typingOutlier]} "u"
                   typingOutlier 0)) = 0.
Proof.
  assert (Ht : wholeNumber (avgTypingInterval typingOutlier))
    by (exists 1000000%Z; split; [reflexivity | vm_compute; discriminate]).
  assert (Hm : wholeNumber (mouseMovementCount typingOutlier))
    by (exists 50%Z; split; [reflexivity | vm_compute; discriminate]).
  assert (Hs : wholeNumber (scrollEventCount typingOutlier))
    by (exists 10%Z; split; [reflexivity | vm_compute; discriminate]).
  repeat (split; [assumption |]).
  split; [apply lookup_singleton_eq |].
  apply (steady_user_scores_zero _ "u" typingOutlier 0
           (steady 7 typingOutlier) Ht Hm Hs);
    [apply lookup_singleton_eq | | |];
    cbn [steady typingIntervals mouseMovements scrollEvents];
    apply Forall_replicate; reflexivity.
Defined.

(** X12. [deleteProfile] tells whether there was a profile, leaves the other
    users alone, and makes the user a new one: the profile is gone, a second
    deletion answers [false], and the next call is a cold start. *)
Theorem deleted_profile_starts_over
    (ps : gmap string MLUserProfile) (uid other : string)
    (m : BehaviorMetrics) (now : Z) :
  let existed := fst (deleteProfile ps uid) in
  let ps' := snd (deleteProfile ps uid) in
  (existed = true <-> is_Some (ps !! uid))
  /\ getProfile ps' uid = None
  /\ (other <> uid -> getProfile ps' other = getProfile ps other)
  /\ fst (deleteProfile ps' uid) = false
  /\ fst (analyzeBehavior ps' uid m now) = coldAnalysis.
Proof.
  cbv zeta. unfold deleteProfile, getProfile. cbn [fst snd].
  split; [| split; [| split; [| split]]].
  - destruct (ps !! uid) as [profile |]; split; intros Hsome;
      [now exists profile | reflexivity | discriminate
      | now destruct Hsome].
  - apply lookup_delete_eq.
  - intros Hne. now apply lookup_delete_ne.
  - now rewrite lookup_delete_eq.
  - apply short_histories_score_cold.
    unfold scoredProfile, getOrCreateProfile, shorterThan, updateProfile.
    rewrite lookup_delete_eq.
    cbn [fst typingIntervals mouseMovements scrollEvents].
    rewrite !sliceLast_push_length. simpl. lia.
Qed.

End SteadyUser.

(** * Further properties of the user service *)

Section Users.

Import UserService.

Lemma find_username_in (uname : string) (us : list User) (user : User) :
  List.find (fun u => String.eqb (username u) uname) us = Some user ->
  username user = uname /\ In user us.
Proof.
  intros Hfind. apply find_some in Hfind as [Hin Heq].
  split; [now apply String.eqb_eq | exact Hin].
Qed.

Lemma find_username_none (uname : string) (us : list User) :
  List.find (fun u => String.eqb (username u) uname) us = None ->
  ~ In uname (map username us).
Proof.
  intros Hfind Hin. apply in_map_iff in Hin as (u & Heq & Hin).
  pose proof (find_none _ _ Hfind u Hin) as Hneq. cbv beta in Hneq.
  apply String.eqb_neq in Hneq. contradiction.
Qed.

Lemma setLastLogin_usernames uname now us :
  map username (setLastLogin uname now us) = map username us.
Proof.
  induction us as [| u rest IH]; [reflexivity |].
  cbn [setLastLogin]. destruct (String.eqb (username u) uname);
    cbn [map username]; [reflexivity | now rewrite IH].
Qed.

Lemma setLastLogin_find_same uname now us user :
  List.find (fun u => String.eqb (username u) uname) us = Some user ->
  List.find (fun u => String.eqb (username u) uname)
            (setLastLogin uname now us)
  = Some (withLastLogin now user).
Proof.
  induction us as [| u rest IH]; [discriminate |].
  cbn [find setLastLogin].
  destruct (String.eqb (username u) uname) eqn:Heq.
  - intros [= <-]. cbn [find username]. now rewrite Heq.
  - intros Hfind. cbn [find]. rewrite Heq. now apply IH.
Qed.

Lemma setLastLogin_find_other uname other now us :
  other <> uname ->
  List.find (fun u => String.eqb (username u) other)
            (setLastLogin uname now us)
  = List.find (fun u => String.eqb (username u) other) us.
Proof.
  intros Hne. induction us as [| u rest IH]; [reflexivity |].
  cbn [setLastLogin].
  destruct (String.eqb (username u) uname) eqn:Heq.
  - apply String.eqb_eq in Heq. cbn [find username].
    assert (Hno : String.eqb (username u) other = false)
      by (apply String.eqb_neq; congruence).
    now rewrite Hno.
  - cbn [find]. now rewrite IH.
Qed.

Lemma find_app_none {A} (f : A -> bool) (l : list A) (x : A) :
  List.find f l = None -> List.find f (l ++ [x]) = List.find f [x].
Proof.
  induction l as [| y rest IH]; [reflexivity |].
  cbn [find app]. destruct (f y); [discriminate | exact IH].
Qed.

Lemma find_app_some {A} (f : A -> bool) (l : list A) (x y : A) :
  List.find f l = Some y -> List.find f (l ++ [x]) = Some y.
Proof.
  induction l as [| z rest IH]; [discriminate |].
  cbn [find app]. destruct (f z); [trivial | exact IH].
Qed.

(** X13. Authentication never fails and never looks at the password: it answers
    with the user stored under the name, whom it stamps with the time of the
    call, or with a user it registers on the spot with the neutral profile;
    looking the name up afterwards gives the user that was answered, and no
    other name is affected. *)
Theorem authentication_always_succeeds
    (credentials : UserCredentials) (password other : string)
    (now : Z) (st : State) :
  let uname := credUsername credentials in
  let result := authenticateUser credentials now st in
  authenticateUser
    {| credUsername := uname; credPassword := password |} now st = result
  /\ (exists user,
        fst result = Some user
        /\ username user = uname
        /\ lastLogin user = now
        /\ getUserByUsername uname (snd result) = Some user)
  /\ (forall stored, getUserByUsername uname st = Some stored ->
        fst result = Some (withLastLogin now stored)
        /\ usernames (snd result) = usernames st)
  /\ (getUserByUsername uname st = None ->
        exists user,
          fst result = Some user
          /\ users (snd result) = users st ++ [user]
          /\ baselineTypingInterval (behaviorProfile user) = 250
          /\ baselineMouseActivity (behaviorProfile user) = 50
          /\ baselineScrollPattern (behaviorProfile user) = 10
          /\ anomalyThreshold (behaviorProfile user) = 30)
  /\ (other <> uname ->
        getUserByUsername other (snd result) = getUserByUsername other st)
  /\ sessions (snd result) = sessions st
  /\ flagLogs (snd result) = flagLogs st.
Proof.
  cbv zeta. unfold authenticateUser, getUserByUsername, usernames.
  cbn [credUsername].
  destruct (find _ (users st)) as [stored |] eqn:Hfind; cbn [fst snd users].
  - split; [reflexivity |].
    destruct (find_username_in _ _ _ Hfind) as [Hname _].
    split; [| split; [| split; [| split; [| split]]]]; try reflexivity.
    + eexists. split; [reflexivity |]. cbn [username lastLogin].
      repeat split; [exact Hname |].
      now rewrite (setLastLogin_find_same _ _ _ _ Hfind).
    + intros ? [= <-]. split; [reflexivity | apply setLastLogin_usernames].
    + discriminate.
    + intros Hne. now apply setLastLogin_find_other.
  - split; [reflexivity |].
    split; [| split; [| split; [| split; [| split]]]]; try reflexivity.
    + eexists. split; [reflexivity |]. cbn [username lastLogin].
      repeat split.
      rewrite (find_app_none _ _ _ Hfind). cbn [find username].
      now rewrite String.eqb_refl.
    + discriminate.
    + intros _. eexists. repeat split.
    + intros Hne.
      destruct (find (fun u => String.eqb (username u) other) (users st))
        as [found |] eqn:Hother.
      * now apply find_app_some.
      * rewrite (find_app_none _ _ _ Hother). cbn [find username].
        assert (Hno : String.eqb (credUsername credentials) other = false)
          by (apply String.eqb_neq; congruence).
        now rewrite Hno.
Qed.

Lemma setBehaviorProfile_usernames uid profile us :
  map username (setBehaviorProfile uid profile us) = map username us.
Proof.
  induction us as [| u rest IH]; [reflexivity |].
  cbn [setBehaviorProfile]. destruct (String.eqb (id u) uid);
    cbn [map username]; [reflexivity | now rewrite IH].
Qed.

Lemma setBehaviorProfile_ids uid profile us :
  map id (setBehaviorProfile uid profile us) = map id us.
Proof.
  induction us as [| u rest IH]; [reflexivity |].
  cbn [setBehaviorProfile]. destruct (String.eqb (id u) uid);
    cbn [map id]; [reflexivity | now rewrite IH].
Qed.

Lemma setBehaviorProfile_find_same uid profile us user :
  List.find (fun u => String.eqb (id u) uid) us = Some user ->
  List.find (fun u => String.eqb (id u) uid)
            (setBehaviorProfile uid profile us)
  = Some (withProfile profile user).
Proof.
  induction us as [| u rest IH]; [discriminate |].
  cbn [find setBehaviorProfile].
  destruct (String.eqb (id u) uid) eqn:Heq.
  - intros [= <-]. cbn [find id]. now rewrite Heq.
  - intros Hfind. cbn [find]. rewrite Heq. now apply IH.
Qed.

Lemma setBehaviorProfile_find_other uid other profile us :
  other <> uid ->
  List.find (fun u => String.eqb (id u) other)
            (setBehaviorProfile uid profile us)
  = List.find (fun u => String.eqb (id u) other) us.
Proof.
  intros Hne. induction us as [| u rest IH]; [reflexivity |].
  cbn [setBehaviorProfile].
  destruct (String.eqb (id u) uid) eqn:Heq.
  - apply String.eqb_eq in Heq. cbn [find id].
    assert (Hno : String.eqb (id u) other = false)
      by (apply String.eqb_neq; congruence).
    now rewrite Hno.
  - cbn [find]. now rewrite IH.
Qed.

Lemma setBehaviorProfile_absent uid profile us :
  List.find (fun u => String.eqb (id u) uid) us = None ->
  setBehaviorProfile uid profile us = us.
Proof.
  induction us as [| u rest IH]; [reflexivity |].
  cbn [find setBehaviorProfile].
  destruct (String.eqb (id u) uid); [discriminate |].
  intros Hfind. now rewrite IH.
Qed.

(** X14. [updateBehaviorProfile] answers [null] and changes nothing for an
    unknown id; for a known id it stores the profile it answers, on the
    first user with the id, keeps every user's id and name in place, and
    leaves the users with another id, the sessions and the flag log as they
    were. *)
Theorem adapted_profile_is_stored (uid other : string)
    (m : BehaviorMetrics) (rate : R) (now : Z) (st : State) :
  let result := updateBehaviorProfile uid m rate now st in
  (userById uid st = None -> result = (None, st))
  /\ (forall user, userById uid st = Some user ->
        let updated :=
          BehaviorAnalysisService.updateProfile
            (behaviorProfile user) m rate now in
        fst result = Some updated
        /\ userById uid (snd result) = Some (withProfile updated user))
  /\ map id (users (snd result)) = map id (users st)
  /\ usernames (snd result) = usernames st
  /\ (other <> uid -> userById other (snd result) = userById other st)
  /\ sessions (snd result) = sessions st
  /\ flagLogs (snd result) = flagLogs st.
Proof.
  cbv zeta. unfold updateBehaviorProfile, userById, usernames.
  destruct (find _ (users st)) as [user |] eqn:Hfind; cbn [fst snd users].
  - split; [discriminate |].
    split; [intros ? [= <-]; split; [reflexivity |];
            now apply setBehaviorProfile_find_same |].
    split; [apply setBehaviorProfile_ids |].
    split; [apply setBehaviorProfile_usernames |].
    split; [intros Hne; now apply setBehaviorProfile_find_other |].
    split; reflexivity.
  - split; [reflexivity |].
    split; [discriminate |].
    repeat split; reflexivity.
Qed.

Lemma filter_other_names (uname : string) (us : list User) :
  ~ In uname (map username
                (List.filter (fun u => negb (String.eqb (username u) uname))
                   us)).
Proof.
  intros Hin. apply in_map_iff in Hin as (u & Heq & Hin).
  apply filter_In in Hin as [_ Hkeep].
  apply negb_true_iff, String.eqb_neq in Hkeep. contradiction.
Qed.

Lemma find_filter_other_name (uname other : string) (us : list User) :
  other <> uname ->
  List.find (fun u => String.eqb (username u) other)
    (List.filter (fun u => negb (String.eqb (username u) uname)) us)
  = List.find (fun u => String.eqb (username u) other) us.
Proof.
  intros Hne. induction us as [| u rest IH]; [reflexivity |].
  cbn [List.filter find].
  destruct (String.eqb (username u) uname) eqn:Hu; cbn [negb].
  - apply String.eqb_eq in Hu.
    assert (Hno : String.eqb (username u) other = false)
      by (apply String.eqb_neq; congruence).
    now rewrite Hno.
  - cbn [find]. now rewrite IH.
Qed.

(** X15. [deleteUser] answers [false] and changes nothing for an unknown id;
    for a known id it removes the entry kept under the name of the first
    user with the id, so that the name is no longer found, keeps every
    other name, and touches neither the sessions nor the flags the user
    has left behind. *)
Theorem deleted_user_is_gone (uid other : string) (st : State) :
  let result := deleteUser uid st in
  (userById uid st = None -> result = (false, st))
  /\ (forall user, userById uid st = Some user ->
        fst result = true
        /\ getUserByUsername (username user) (snd result) = None
        /\ ~ In (username user) (usernames (snd result))
        /\ (other <> username user ->
            getUserByUsername other (snd result)
            = getUserByUsername other st))
  /\ sessions (snd result) = sessions st
  /\ flagLogs (snd result) = flagLogs st.
Proof.
  cbv zeta. unfold deleteUser, userById, getUserByUsername, usernames.
  destruct (find _ (users st)) as [user |] eqn:Hfind; cbn [fst snd users].
  - split; [discriminate |]. split; [| split; reflexivity].
    intros ? [= <-]. split; [reflexivity |].
    pose proof (filter_other_names (username user) (users st)) as Hgone.
    split; [| split; [exact Hgone |]].
    + destruct (find _ (List.filter _ (users st))) as [found |] eqn:Hfound;
        [| reflexivity].
      destruct (find_username_in _ _ _ Hfound) as [Hname Hin].
      exfalso. apply Hgone. apply in_map_iff. now exists found.
    + intros Hne. now apply find_filter_other_name.
  - split; [reflexivity |]. split; [discriminate |]. split; reflexivity.
Qed.

Lemma NoDup_filter_map {A B} (f : A -> B) (keep : A -> bool) (l : list A) :
  NoDup (map f l) -> NoDup (map f (List.filter keep l)).
Proof.
  induction l as [| x rest IH]; [trivial |].
  cbn [map List.filter]. intros Hnd.
  apply NoDup_cons in Hnd as [Hx Hrest].
  destruct (keep x); [| now apply IH].
  cbn [map]. apply NoDup_cons. split; [| now apply IH].
  intros Hin. apply Hx.
  apply list_elem_of_In in Hin. apply list_elem_of_In.
  apply in_map_iff in Hin as (y & Heq & Hin).
  apply in_map_iff. exists y. split; [exact Heq |].
  now apply filter_In in Hin as [Hin _].
Qed.

(** X16. The user names stay pairwise distinct, as the keys of a map must:
    authentication, profile adaptation and deletion all keep them so. *)
Theorem usernames_stay_distinct
    (credentials : UserCredentials) (uid : string)
    (m : BehaviorMetrics) (rate : R) (now : Z) (st : State) :
  NoDup (usernames st) ->
  NoDup (usernames (snd (authenticateUser credentials now st)))
  /\ NoDup (usernames (snd (updateBehaviorProfile uid m rate now st)))
  /\ NoDup (usernames (snd (deleteUser uid st))).
Proof.
  intros Hnd. unfold usernames in *. split; [| split].
  - unfold authenticateUser.
    destruct (find _ (users st)) as [stored |] eqn:Hfind; cbn [snd users].
    + now rewrite setLastLogin_usernames.
    + rewrite map_app. cbn [map username].
      apply NoDup_app. split; [exact Hnd |]. split; [| apply NoDup_singleton].
      intros x Hx Hin. apply list_elem_of_In in Hx.
      apply list_elem_of_singleton in Hin. subst x.
      now apply (find_username_none _ _ Hfind).
  - unfold updateBehaviorProfile.
    destruct (find _ (users st)) as [user |]; cbn [snd users]; [| exact Hnd].
    now rewrite setBehaviorProfile_usernames.
  - unfold deleteUser.
    destruct (find _ (users st)) as [user |]; cbn [snd users]; [| exact Hnd].
    now apply NoDup_filter_map.
Qed.

Lemma usernames_stay_distinct_witness :
  NoDup (usernames oneUser)
  /\ NoDup (usernames (snd (authenticateUser alice 5 oneUser))).
Proof.
  assert (Hnd : NoDup (usernames oneUser)).
  { unfold usernames, oneUser. cbn [users map john username].
    apply NoDup_singleton. }
  split; [exact Hnd |].
  exact (proj1 (usernames_stay_distinct alice "1" idle 0.1 5 oneUser Hnd)).
Defined.

End Users.

(** * Further properties of the session ledger and the flag log *)

Section Sessions.

Import UserService.

Lemma dateNowString_inj (a b : Z) :
  dateNowString a = dateNowString b -> a = b.
Proof.
  unfold dateNowString. intros Heq.
  assert (Hnil : forall z, Z.to_int z <> Decimal.Pos Decimal.Nil
                           /\ Z.to_int z <> Decimal.Neg Decimal.Nil).
  { intros [| p | p]; split; cbn; try discriminate;
      intros [= Hp]; now apply (DecimalPos.Unsigned.to_uint_nonnil p). }
  apply (f_equal NilZero.int_of_string) in Heq.
  rewrite !NilZero.isi in Heq by apply Hnil.
  injection Heq as Heq.
  rewrite <- (DecimalZ.of_to a), <- (DecimalZ.of_to b). now rewrite Heq.
Qed.

Lemma session_id_inj (a b : Z) :
  "session-" +:+ dateNowString a = "session-" +:+ dateNowString b -> a = b.
Proof.
  cbn [String.append]. intros [= Heq]. now apply dateNowString_inj.
Qed.

(** X17. A session that has just been opened is found under its id, active, with
    score 0 and the time of the call as its start and last activity. The id
    is made of the clock reading alone: a session opened at the same reading
    takes the place of the one opened before it, which is then lost. *)
Theorem opened_session_is_found (uid uid' : string) (now : Z) (st : State) :
  let opened := fst (createSession uid now st) in
  let st' := snd (createSession uid now st) in
  getSession (sessId opened) st' = Some opened
  /\ sessUserId opened = uid
  /\ isActive opened = true
  /\ anomalyScore opened = 0
  /\ startTime opened = now
  /\ lastActivity opened = now
  /\ users st' = users st
  /\ flagLogs st' = flagLogs st
  /\ sessId (fst (createSession uid' now st')) = sessId opened
  /\ getSession (sessId opened) (snd (createSession uid' now st'))
     = Some (fst (createSession uid' now st'))
  /\ sessions (snd (createSession uid' now st'))
     = sessions (snd (createSession uid' now st)).
Proof.
  cbv zeta. unfold createSession, getSession.
  cbn [fst snd sessions sessId sessUserId isActive anomalyScore startTime
       lastActivity users flagLogs].
  repeat split; try apply lookup_insert_eq.
  apply insert_insert_eq.
Qed.

(** X18. Sessions opened at different clock readings have different ids, and
    opening the second leaves the first as it was. *)
Theorem sessions_of_different_instants (uid uid' : string) (now now' : Z)
    (st : State) :
  now <> now' ->
  let first := fst (createSession uid now st) in
  let st1 := snd (createSession uid now st) in
  let second := fst (createSession uid' now' st1) in
  let st2 := snd (createSession uid' now' st1) in
  sessId first <> sessId second
  /\ getSession (sessId first) st2 = Some first
  /\ getSession (sessId second) st2 = Some second.
Proof.
  intros Hne. cbv zeta. unfold createSession, getSession.
  cbn [fst snd sessions sessId].
  assert (Hids : "session-" +:+ dateNowString now
                 <> "session-" +:+ dateNowString now').
  { intros Heq. now apply Hne, session_id_inj. }
  split; [exact Hids |]. split.
  - rewrite lookup_insert_ne by congruence. apply lookup_insert_eq.
  - apply lookup_insert_eq.
Qed.

Lemma sessions_of_different_instants_witness :
  1000%Z <> 2000%Z
  /\ sessId (fst (createSession "1" 1000 oneUser))
     <> sessId (fst (createSession "2" 2000
                       (snd (createSession "1" 1000 oneUser)))).
Proof.
  assert (Hne : 1000%Z <> 2000%Z) by discriminate.
  split; [exact Hne |].
  exact (proj1 (sessions_of_different_instants "1" "2" 1000 2000 oneUser Hne)).
Defined.

Lemma active_sessions_members (st : State) (s : Session) :
  In s (getActiveSessions st)
  <-> (exists sid, sessions st !! sid = Some s) /\ isActive s = true.
Proof.
  unfold getActiveSessions. rewrite filter_In, <- list_elem_of_In.
  rewrite list_elem_of_fmap. split.
  - intros [((sid & s') & -> & Hin) Hactive].
    apply elem_of_map_to_list in Hin. split; [now exists sid | exact Hactive].
  - intros [(sid & Hlookup) Hactive]. split; [| exact Hactive].
    exists (sid, s). split; [reflexivity |].
    now apply elem_of_map_to_list.
Qed.

End Sessions.

Section Flags.

Import UserService.

Lemma resolveFirst_events (fid : string) (logs : list FlagLog) :
  Forall2 sameOrResolved logs (resolveFirst fid logs).
Proof.
  assert (Hrefl : forall f, sameOrResolved f f)
    by (intros f; repeat split; trivial).
  induction logs as [| log rest IH]; [constructor |].
  cbn [resolveFirst]. destruct (String.eqb (flagId log) fid).
  - constructor; [repeat split | now apply Forall_Forall2_diag, Forall_forall].
  - now constructor.
Qed.

Lemma resolveFirst_find (fid : string) (logs : list FlagLog) (f : FlagLog) :
  List.find (fun log => String.eqb (flagId log) fid) logs = Some f ->
  exists g,
    List.find (fun log => String.eqb (flagId log) fid) (resolveFirst fid logs)
    = Some g
    /\ sameEvent f g /\ resolved g = true.
Proof.
  induction logs as [| log rest IH]; [discriminate |].
  cbn [find resolveFirst].
  destruct (String.eqb (flagId log) fid) eqn:Heq.
  - intros [= <-]. eexists. cbn [find flagId]. rewrite Heq.
    split; [reflexivity |]. repeat split.
  - intros Hfind. cbn [find]. rewrite Heq. now apply IH.
Qed.

Lemma resolveFirst_idempotent (fid : string) (logs : list FlagLog) :
  resolveFirst fid (resolveFirst fid logs) = resolveFirst fid logs.
Proof.
  induction logs as [| log rest IH]; [reflexivity |].
  cbn [resolveFirst].
  destruct (String.eqb (flagId log) fid) eqn:Heq; cbn [resolveFirst flagId];
    rewrite Heq; [reflexivity | now rewrite IH].
Qed.

Lemma resolveFirst_absent (fid : string) (logs : list FlagLog) :
  List.find (fun log => String.eqb (flagId log) fid) logs = None ->
  resolveFirst fid logs = logs.
Proof.
  induction logs as [| log rest IH]; [reflexivity |].
  cbn [find resolveFirst].
  destruct (String.eqb (flagId log) fid); [discriminate |].
  intros Hfind. now rewrite IH.
Qed.

Lemma resolveFirst_stops (fid : string) (before after : list FlagLog) :
  (exists g, In g before /\ flagId g = fid) ->
  resolveFirst fid (before ++ after) = resolveFirst fid before ++ after.
Proof.
  intros (g & Hin & Hid).
  induction before as [| log rest IH]; [contradiction |].
  cbn [app resolveFirst].
  destruct (String.eqb (flagId log) fid) eqn:Heq; [reflexivity |].
  destruct Hin as [-> | Hin].
  - apply String.eqb_neq in Heq. contradiction.
  - now rewrite IH.
Qed.

Lemma resolveFirst_split (fid : string) (logs : list FlagLog) (f : FlagLog) :
  List.find (fun log => String.eqb (flagId log) fid) logs = Some f ->
  exists before after,
    logs = before ++ f :: after
    /\ Forall (fun g => flagId g <> fid) before
    /\ flagId f = fid
    /\ resolveFirst fid logs = before ++ markedResolved f :: after.
Proof.
  induction logs as [| log rest IH]; [discriminate |].
  cbn [find resolveFirst].
  destruct (String.eqb (flagId log) fid) eqn:Heq.
  - intros [= <-]. exists [], rest.
    repeat split; [constructor | now apply String.eqb_eq].
  - intros Hfind.
    destruct (IH Hfind) as (before & after & -> & Hbefore & Hid & ->).
    exists (log :: before), after.
    repeat split; [| exact Hid].
    constructor; [now apply String.eqb_neq | exact Hbefore].
Qed.

(** X19. [resolveFlagLog] answers [true] exactly when the log holds an entry with
    the id; the log is then the old one with the first such entry marked
    resolved and every other entry, before and after it, as it was, and on
    [false] nothing changes. It never drops, reorders or rewrites an event
    and never takes a resolved mark back, and resolving again answers the
    same and changes nothing more. *)
Theorem resolving_marks_the_first_match (fid : string) (st : State) :
  let answer := fst (resolveFlagLog fid st) in
  let st' := snd (resolveFlagLog fid st) in
  (answer = true <-> exists f, In f (flagLogs st) /\ flagId f = fid)
  /\ (answer = false -> st' = st)
  /\ (answer = true ->
      exists g,
        List.find (fun log => String.eqb (flagId log) fid) (flagLogs st')
        = Some g
        /\ resolved g = true)
  /\ (answer = true ->
      exists before f after,
        flagLogs st = before ++ f :: after
        /\ Forall (fun g => flagId g <> fid) before
        /\ flagId f = fid
        /\ flagLogs st' = before ++ markedResolved f :: after)
  /\ Forall2 sameOrResolved (flagLogs st) (flagLogs st')
  /\ resolveFlagLog fid st' = (answer, st')
  /\ users st' = users st
  /\ sessions st' = sessions st.
Proof.
  cbv zeta. unfold resolveFlagLog.
  destruct (find _ (flagLogs st)) as [f |] eqn:Hfind; cbn [fst snd flagLogs].
  - destruct (resolveFirst_find _ _ _ Hfind) as (g & Hg & _ & Hres).
    split; [| split; [| split; [| split; [| split; [| split; [| split]]]]]];
      try reflexivity.
    + split; [intros _ | reflexivity].
      apply find_some in Hfind as [Hin Heq].
      exists f. split; [exact Hin | now apply String.eqb_eq].
    + discriminate.
    + intros _. now exists g.
    + intros _.
      destruct (resolveFirst_split _ _ _ Hfind)
        as (before & after & Hlogs & Hbefore & Hid & Hresolved).
      now exists before, f, after.
    + apply resolveFirst_events.
    + rewrite Hg. now rewrite resolveFirst_idempotent.
  - split; [| split; [| split; [| split; [| split; [| split; [| split]]]]]];
      try reflexivity.
    + split; [discriminate |]. intros (f & Hin & Heq).
      pose proof (find_none _ _ Hfind f Hin) as Hno. cbv beta in Hno.
      apply String.eqb_neq in Hno. contradiction.
    + discriminate.
    + discriminate.
    + apply Forall_Forall2_diag, Forall_forall. intros f _.
      repeat split; trivial.
    + now rewrite Hfind.
Qed.

(** X20. Flags raised within one clock reading share their id, and only the first
    of them can ever be resolved: resolving the id, once or twice, leaves
    the flag that was raised second exactly as it was added. *)
Theorem second_flag_of_an_instant_stays_open
    (first second : FlagLogFields) (now : Z) (st : State) :
  let st1 := snd (addFlagLog first now st) in
  let added := fst (addFlagLog second now st1) in
  let st2 := snd (addFlagLog second now st1) in
  let once := snd (resolveFlagLog (flagId added) st2) in
  let twice := snd (resolveFlagLog (flagId added) once) in
  flagId (fst (addFlagLog first now st)) = flagId added
  /\ fst (resolveFlagLog (flagId added) st2) = true
  /\ last (flagLogs once) = Some added
  /\ last (flagLogs twice) = Some added
  /\ resolved added = newResolved second.
Proof.
  cbv zeta. unfold addFlagLog. cbn [fst snd flagLogs flagId resolved].
  set (fid := dateNowString now).
  match goal with
  | |- context [flagLogs st ++ [?a] ++ [?b]] => set (f1 := a); set (f2 := b)
  | |- context [(flagLogs st ++ [?a]) ++ [?b]] => set (f1 := a); set (f2 := b)
  end.
  assert (Hstop : resolveFirst fid ((flagLogs st ++ [f1]) ++ [f2])
                  = resolveFirst fid (flagLogs st ++ [f1]) ++ [f2]).
  { apply resolveFirst_stops. exists f1. split; [| reflexivity].
    apply in_or_app. right. now left. }
  assert (Hfound : exists f,
    List.find (fun log => String.eqb (flagId log) fid)
      ((flagLogs st ++ [f1]) ++ [f2]) = Some f).
  { destruct (find _ ((flagLogs st ++ [f1]) ++ [f2])) as [f |] eqn:Hfind;
      [now exists f |].
    exfalso.
    assert (Hin : In f1 ((flagLogs st ++ [f1]) ++ [f2])).
    { apply in_or_app. left. apply in_or_app. right. now left. }
    pose proof (find_none _ _ Hfind f1 Hin) as Hno. cbv beta in Hno.
    unfold f1 in Hno. cbn [flagId] in Hno. now rewrite String.eqb_refl in Hno. }
  destruct Hfound as [f Hfind].
  unfold resolveFlagLog. cbn [flagLogs]. rewrite Hfind. cbn [fst snd flagLogs].
  rewrite Hstop.
  split; [reflexivity |]. split; [reflexivity |].
  split; [apply last_snoc |]. split; [| reflexivity].
  destruct (find _ (resolveFirst fid (flagLogs st ++ [f1]) ++ [f2]));
    cbn [snd flagLogs].
  - rewrite <- Hstop, resolveFirst_idempotent, Hstop. apply last_snoc.
  - apply last_snoc.
Qed.

Lemma filter_app_single {A} (keep : A -> bool) (l : list A) (x : A) :
  List.filter keep (l ++ [x])
  = List.filter keep l ++ (if keep x then [x] else []).
Proof.
  rewrite List.filter_app. cbn [List.filter]. now destruct (keep x).
Qed.

(** X21. The flags of a session are the entries of the log that carry its id, in
    the order of the log: a flag that is added shows up last under its own
    session id and under no other, and an absent or empty session id asks
    for the whole log. *)
Theorem flags_are_listed_by_session (sid : string) (fields : FlagLogFields)
    (now : Z) (st : State) :
  sid <> "" ->
  let added := fst (addFlagLog fields now st) in
  let st' := snd (addFlagLog fields now st) in
  Forall (fun f => flagSessionId f = sid) (getFlagLogs (Some sid) st)
  /\ (newSessionId fields = sid ->
      getFlagLogs (Some sid) st' = getFlagLogs (Some sid) st ++ [added])
  /\ (newSessionId fields <> sid ->
      getFlagLogs (Some sid) st' = getFlagLogs (Some sid) st)
  /\ getFlagLogs None st' = flagLogs st ++ [added]
  /\ getFlagLogs (Some "") st' = flagLogs st ++ [added].
Proof.
  intros Hsid. cbv zeta.
  destruct sid as [| c sid]; [contradiction |].
  unfold getFlagLogs, addFlagLog. cbn [fst snd flagLogs].
  split; [| split; [| split; [| split]]]; try reflexivity.
  - apply Forall_forall. intros f Hin. apply list_elem_of_In in Hin.
    apply filter_In in Hin as [_ Heq]. now apply String.eqb_eq.
  - intros Heq. rewrite filter_app_single. cbn [flagSessionId].
    rewrite Heq, String.eqb_refl. reflexivity.
  - intros Hne. rewrite filter_app_single. cbn [flagSessionId].
    apply String.eqb_neq in Hne. rewrite Hne. apply app_nil_r.
Qed.

Lemma flags_are_listed_by_session_witness :
  "session-1" <> ""
  /\ getFlagLogs (Some "session-1")
       (snd (addFlagLog (lowFlag "session-1") 7 oneUser))
     = [fst (addFlagLog (lowFlag "session-1") 7 oneUser)].
Proof.
  assert (Hsid : "session-1" <> "") by discriminate.
  split; [exact Hsid |].
  exact (proj1 (proj2
    (flags_are_listed_by_session "session-1" (lowFlag "session-1") 7 oneUser
       Hsid)) eq_refl).
Defined.

End Flags.

(** * Further properties of the routes *)

Section AnalyzeRoute.

Import BehaviorAnalysisService UserService BehaviorRoutes.

Lemma afterFlagging_sessions body now st a :
  sessions (afterFlagging body now st a) =
    sessions match truthy (bodySessionId body) with
             | Some sessionId => updateSessionActivity sessionId (score a) now st
             | None => st
             end.
Proof.
  unfold afterFlagging.
  destruct (truthy (bodySessionId body)), (Rlt_dec 30 (score a));
    reflexivity.
Qed.

Lemma afterFlagging_flagLogs body now st a :
  flagLogs (afterFlagging body now st a) = flagLogs st
  \/ exists f,
       flagLogs (afterFlagging body now st a) = flagLogs st ++ [f]
       /\ flagSessionId f = filedUnder body
       /\ 30 < score a.
Proof.
  unfold afterFlagging, filedUnder.
  destruct (Rlt_dec 30 (score a)) as [Habove |].
  - right. destruct (truthy (bodySessionId body)); eexists;
      cbn [snd addFlagLog flagLogs];
      (split; [try rewrite (proj2 (updateSessionActivity_frame _ _ _ _));
               reflexivity
              | split; [reflexivity | exact Habove]]).
  - left. destruct (truthy (bodySessionId body)); [| reflexivity].
    apply updateSessionActivity_frame.
Qed.

(** X22. A request that is answered with an error leaves the service as it was:
    a body without user id or metrics and an unknown user for POST /analyze,
    an unknown user for PUT /profile, an unknown flag for the resolve
    route. *)
Theorem refused_requests_change_nothing
    (body : AnalyzeBody) (put : ProfileBody) (uid fid : string)
    (now : Z) (st : State) :
  (fst (postAnalyze body now st) = BadRequest
   <-> truthy (bodyUserId body) = None \/ bodyBehaviorMetrics body = None)
  /\ (forall requested,
        truthy (bodyUserId body) = Some requested ->
        bodyBehaviorMetrics body <> None ->
        (fst (postAnalyze body now st) = NotFound
         <-> userById requested st = None))
  /\ (analysisOf (fst (postAnalyze body now st)) = None ->
      snd (postAnalyze body now st) = st)
  /\ (fst (putProfile uid put now st) = ProfileNotFound
      <-> userById uid st = None)
  /\ (fst (putProfile uid put now st) = ProfileNotFound ->
      snd (putProfile uid put now st) = st)
  /\ (fst (postResolveFlag fid st) = FlagNotFound
      <-> ~ exists f, In f (flagLogs st) /\ flagId f = fid)
  /\ (fst (postResolveFlag fid st) = FlagNotFound ->
      snd (postResolveFlag fid st) = st).
Proof.
  split; [| split; [| split; [| split; [| split; [| split]]]]].
  - unfold postAnalyze.
    destruct (truthy (bodyUserId body)) as [requested |];
      [| split; [now left | reflexivity]].
    destruct (bodyBehaviorMetrics body) as [m |];
      [| split; [now right | reflexivity]].
    destruct (find _ (getAllUsers st)); [| split; [discriminate | ]].
    + destruct (updateBehaviorProfile _ _ _ _ _).
      split; [discriminate | intros [? | ?]; discriminate].
    + intros [? | ?]; discriminate.
  - intros requested Huid Hm. unfold postAnalyze, userById, getAllUsers.
    rewrite Huid. destruct (bodyBehaviorMetrics body) as [m |]; [| congruence].
    destruct (find _ (users st)); [| split; reflexivity].
    destruct (updateBehaviorProfile _ _ _ _ _). split; discriminate.
  - unfold postAnalyze.
    destruct (truthy (bodyUserId body)) as [requested |]; [| reflexivity].
    destruct (bodyBehaviorMetrics body) as [m |]; [| reflexivity].
    destruct (find _ (getAllUsers st)); [| reflexivity].
    destruct (updateBehaviorProfile _ _ _ _ _). discriminate.
  - unfold putProfile, userById, getAllUsers.
    destruct (find _ (users st)); cbn [fst]; split; intros Heq;
      discriminate || reflexivity.
  - unfold putProfile, getAllUsers.
    destruct (find _ (users st)); [discriminate | reflexivity].
  - unfold postResolveFlag, resolveFlagLog.
    destruct (find _ (flagLogs st)) as [f |] eqn:Hfind; cbn [fst].
    + split; [discriminate |]. intros Hnone. exfalso. apply Hnone.
      apply find_some in Hfind as [Hin Heq].
      exists f. split; [exact Hin | now apply String.eqb_eq].
    + split; [intros _ | reflexivity]. intros (f & Hin & Heq).
      pose proof (find_none _ _ Hfind f Hin) as Hno. cbv beta in Hno.
      apply String.eqb_neq in Hno. contradiction.
  - unfold postResolveFlag, resolveFlagLog.
    destruct (find _ (flagLogs st)); [discriminate | reflexivity].
Qed.

(** X23. A successful POST /analyze answers with the profile it has stored: the
    first user with the id holds the adapted profile afterwards, every
    user keeps id and name, and the users with another id are as they
    were. *)
Theorem analyze_stores_what_it_answers
    (body : AnalyzeBody) (now : Z) (st : State)
    (uid other : string) (m : BehaviorMetrics) (user : User) :
  truthy (bodyUserId body) = Some uid ->
  bodyBehaviorMetrics body = Some m ->
  userById uid st = Some user ->
  let updated := updateProfile (behaviorProfile user) m 0.1 now in
  let st' := snd (postAnalyze body now st) in
  fst (postAnalyze body now st)
  = Success (analyzeBehavior m (behaviorProfile user)) updated
  /\ userById uid st' = Some (withProfile updated user)
  /\ (other <> uid -> userById other st' = userById other st)
  /\ usernames st' = usernames st
  /\ map id (users st') = map id (users st).
Proof.
  intros Huid Hm Hfind. cbv zeta. unfold userById in *.
  rewrite (postAnalyze_scores_then_updates _ _ _ _ _ _ Huid Hm Hfind).
  cbv zeta. cbn [fst snd users]. unfold usernames. cbn [users].
  split; [reflexivity |].
  split; [now apply setBehaviorProfile_find_same |].
  split; [intros Hne; now apply setBehaviorProfile_find_other |].
  split; [apply setBehaviorProfile_usernames | apply setBehaviorProfile_ids].
Qed.

Lemma analyze_stores_what_it_answers_witness :
  truthy (bodyUserId outlierBody) = Some "1"
  /\ bodyBehaviorMetrics outlierBody = Some typingOutlier
  /\ userById "1" oneUser = Some john
  /\ userById "1" (snd (postAnalyze outlierBody 0 oneUser))
     = Some (withProfile (updateProfile defaultProfile typingOutlier 0.1 0)
               john).
Proof.
  repeat split.
  exact (proj1 (proj2
    (analyze_stores_what_it_answers outlierBody 0 oneUser "1" "" typingOutlier
       john eq_refl eq_refl eq_refl))).
Defined.

(** X24. A successful POST /analyze records the score on the session it is given,
    active or ended, and touches no session when the id is absent, empty
    or unknown; the flag log only ever grows, by at most one entry, which is
    filed under the session id of the request, known or not, and under
    "unknown" when there is none. *)
Theorem analyze_records_on_the_session
    (body : AnalyzeBody) (now : Z) (st : State)
    (uid : string) (m : BehaviorMetrics) (user : User) :
  truthy (bodyUserId body) = Some uid ->
  bodyBehaviorMetrics body = Some m ->
  userById uid st = Some user ->
  let a := analyzeBehavior m (behaviorProfile user) in
  let st' := snd (postAnalyze body now st) in
  (forall sid x,
     truthy (bodySessionId body) = Some sid ->
     sessions st !! sid = Some x ->
     sessions st' !! sid = Some (touched now (score a) x)
     /\ forall other, other <> sid ->
          sessions st' !! other = sessions st !! other)
  /\ (forall sid,
        truthy (bodySessionId body) = Some sid ->
        sessions st !! sid = None ->
        sessions st' = sessions st)
  /\ (truthy (bodySessionId body) = None -> sessions st' = sessions st)
  /\ (flagLogs st' = flagLogs st
      \/ exists f,
           flagLogs st' = flagLogs st ++ [f]
           /\ flagSessionId f = filedUnder body
           /\ 30 < score a).
Proof.
  intros Huid Hm Hfind. cbv zeta. unfold userById in *.
  rewrite (postAnalyze_scores_then_updates _ _ _ _ _ _ Huid Hm Hfind).
  cbv zeta. cbn [snd sessions flagLogs].
  rewrite afterFlagging_sessions.
  split; [| split; [| split]].
  - intros sid x Hsid Hx. rewrite Hsid.
    rewrite (updateSessionActivity_known _ _ _ _ _ Hx). cbn [sessions].
    split; [apply lookup_insert_eq |].
    intros other Hne. now apply lookup_insert_ne.
  - intros sid Hsid Hx. rewrite Hsid.
    unfold updateSessionActivity. now rewrite Hx.
  - intros Hsid. now rewrite Hsid.
  - apply afterFlagging_flagLogs.
Qed.

Lemma analyze_records_on_the_session_witness :
  truthy (bodyUserId outlierBody) = Some "1"
  /\ bodyBehaviorMetrics outlierBody = Some typingOutlier
  /\ userById "1" oneUser = Some john
  /\ sessions (snd (postAnalyze outlierBody 0 oneUser)) = sessions oneUser.
Proof.
  repeat split.
  exact (proj1 (proj2 (proj2
    (analyze_records_on_the_session outlierBody 0 oneUser "1" typingOutlier
       john eq_refl eq_refl eq_refl))) eq_refl).
Defined.

End AnalyzeRoute.

Section ProfileRoute.

Import BehaviorAnalysisService UserService BehaviorRoutes.

(** X25. PUT /profile overwrites the fields the body holds and keeps the others,
    stamps the profile with the time of the call, and stores what it
    answers on the first user with the id. *)
Theorem manual_override_writes_given_fields
    (uid : string) (put : ProfileBody) (now : Z) (st : State) (user : User) :
  userById uid st = Some user ->
  exists profile,
    fst (putProfile uid put now st) = ProfileUpdated profile
    /\ userById uid (snd (putProfile uid put now st))
       = Some (withProfile profile user)
    /\ baselineTypingInterval profile
       = default (baselineTypingInterval (behaviorProfile user))
           (putTypingInterval put)
    /\ baselineMouseActivity profile
       = default (baselineMouseActivity (behaviorProfile user))
           (putMouseActivity put)
    /\ baselineScrollPattern profile
       = default (baselineScrollPattern (behaviorProfile user))
           (putScrollPattern put)
    /\ anomalyThreshold profile
       = default (anomalyThreshold (behaviorProfile user))
           (putAnomalyThreshold put)
    /\ userId profile = userId (behaviorProfile user)
    /\ lastUpdated profile = now
    /\ sessions (snd (putProfile uid put now st)) = sessions st
    /\ flagLogs (snd (putProfile uid put now st)) = flagLogs st.
Proof.
  intros Hfind. unfold userById, putProfile, getAllUsers in *.
  rewrite Hfind. eexists. cbn [fst snd users sessions flagLogs].
  split; [reflexivity |].
  split; [now apply setBehaviorProfile_find_same |].
  cbn [baselineTypingInterval baselineMouseActivity baselineScrollPattern
       anomalyThreshold userId lastUpdated].
  destruct (putTypingInterval put), (putMouseActivity put),
    (putScrollPattern put), (putAnomalyThreshold put); repeat split.
Qed.

Lemma manual_override_writes_given_fields_witness :
  userById "1" oneUser = Some john
  /\ exists profile,
       fst (putProfile "1" (thresholdOnly 20) 9 oneUser)
       = ProfileUpdated profile
       /\ anomalyThreshold profile = 20
       /\ baselineTypingInterval profile = 250.
Proof.
  split; [reflexivity |].
  destruct (manual_override_writes_given_fields "1" (thresholdOnly 20) 9
              oneUser john eq_refl)
    as (profile & Hanswer & _ & Htyping & _ & _ & Hthreshold & _).
  exists profile. split; [exact Hanswer |].
  split; [exact Hthreshold | exact Htyping].
Defined.

(** X26. The anomaly threshold of a profile is never read: overriding it changes
    neither the analysis of the next sample nor the flags that are raised,
    which are decided by the fixed bar of 30; the override itself survives
    the adaptation that follows the analysis. *)
Theorem threshold_override_changes_no_decision
    (body : AnalyzeBody) (uid : string) (m : BehaviorMetrics) (user : User)
    (t : R) (now now' : Z) (st : State) :
  truthy (bodyUserId body) = Some uid ->
  bodyBehaviorMetrics body = Some m ->
  userById uid st = Some user ->
  let overridden := snd (putProfile uid (thresholdOnly t) now st) in
  analysisOf (fst (postAnalyze body now' overridden))
  = analysisOf (fst (postAnalyze body now' st))
  /\ flagLogs (snd (postAnalyze body now' overridden))
     = flagLogs (snd (postAnalyze body now' st))
  /\ sessions (snd (postAnalyze body now' overridden))
     = sessions (snd (postAnalyze body now' st))
  /\ exists stored,
       userById uid (snd (postAnalyze body now' overridden)) = Some stored
       /\ anomalyThreshold (behaviorProfile stored) = t.
Proof.
  intros Huid Hm Hfind. cbv zeta. unfold userById in *.
  assert (Hfind' :
    find (fun u => String.eqb (id u) uid)
      (users (snd (putProfile uid (thresholdOnly t) now st)))
    = Some (withProfile
              {| userId := userId (behaviorProfile user);
                 baselineTypingInterval :=
                   baselineTypingInterval (behaviorProfile user);
                 baselineMouseActivity :=
                   baselineMouseActivity (behaviorProfile user);
                 baselineScrollPattern :=
                   baselineScrollPattern (behaviorProfile user);
                 anomalyThreshold := t;
                 lastUpdated := now |} user)).
  { unfold putProfile, getAllUsers. rewrite Hfind. cbn [snd users].
    now apply setBehaviorProfile_find_same. }
  rewrite (postAnalyze_scores_then_updates _ _ _ _ _ _ Huid Hm Hfind').
  rewrite (postAnalyze_scores_then_updates _ _ _ _ _ _ Huid Hm Hfind).
  cbv zeta. cbn [fst snd analysisOf flagLogs sessions users withProfile
                 behaviorProfile].
  assert (Hsame :
    analyzeBehavior m
      {| userId := userId (behaviorProfile user);
         baselineTypingInterval := baselineTypingInterval (behaviorProfile user);
         baselineMouseActivity := baselineMouseActivity (behaviorProfile user);
         baselineScrollPattern := baselineScrollPattern (behaviorProfile user);
         anomalyThreshold := t;
         lastUpdated := now |}
    = analyzeBehavior m (behaviorProfile user)) by reflexivity.
  rewrite Hsame.
  assert (Hstate : forall a,
    sessions (afterFlagging body now'
                (snd (putProfile uid (thresholdOnly t) now st)) a)
    = sessions (afterFlagging body now' st a)
    /\ flagLogs (afterFlagging body now'
                   (snd (putProfile uid (thresholdOnly t) now st)) a)
       = flagLogs (afterFlagging body now' st a)).
  { intros a. unfold afterFlagging, putProfile, getAllUsers,
      updateSessionActivity.
    rewrite Hfind. cbn [snd sessions flagLogs].
    destruct (truthy (bodySessionId body)) as [sid |];
      [destruct (sessions st !! sid) |];
      destruct (Rlt_dec 30 (score a)); split; reflexivity. }
  destruct (Hstate (analyzeBehavior m (behaviorProfile user))) as [-> ->].
  split; [reflexivity |]. split; [reflexivity |]. split; [reflexivity |].
  eexists. split.
  - apply setBehaviorProfile_find_same.
    unfold putProfile, getAllUsers. rewrite Hfind. cbn [snd users].
    apply setBehaviorProfile_find_same. exact Hfind.
  - reflexivity.
Qed.

Lemma threshold_override_changes_no_decision_witness :
  truthy (bodyUserId outlierBody) = Some "1"
  /\ bodyBehaviorMetrics outlierBody = Some typingOutlier
  /\ userById "1" oneUser = Some john
  /\ flagLogs (snd (postAnalyze outlierBody 1
                      (snd (putProfile "1" (thresholdOnly 90) 0 oneUser))))
     = flagLogs (snd (postAnalyze outlierBody 1 oneUser)).
Proof.
  repeat split.
  exact (proj1 (proj2
    (threshold_override_changes_no_decision outlierBody "1" typingOutlier
       john 90 0 1 oneUser eq_refl eq_refl eq_refl))).
Defined.

Lemma nonempty_has_member {A} (l : list A) :
  (0 < length l)%nat <-> exists x, In x l.
Proof.
  destruct l as [| x rest]; cbn [length].
  - split; [lia | intros [x []]].
  - split; [intros _; exists x; now left | lia].
Qed.

Lemma keyed_filter_count {A B} (f g : B -> bool) (l : list (A * B)) :
  NoDup (map fst l) ->
  exists keys,
    NoDup keys
    /\ length keys = length (List.filter g (List.filter f (map snd l)))
    /\ forall k, In k keys
                 <-> exists v, In (k, v) l /\ f v = true /\ g v = true.
Proof.
  induction l as [| [k v] rest IH]; cbn [map fst snd List.filter].
  - intros _. exists []. repeat split; [constructor | intros [] |].
    intros (v & [] & _).
  - intros Hnodup. apply NoDup_cons in Hnodup as [Hfresh Hnodup].
    destruct (IH Hnodup) as (keys & Hkeys & Hlen & Hmem).
    assert (Hrest : forall k', In k' keys -> k' <> k).
    { intros k' Hin ->. apply Hmem in Hin as (v' & Hin & _).
      apply Hfresh. apply list_elem_of_In, in_map_iff. now exists (k, v'). }
    destruct (f v) eqn:Hf; cbn [List.filter];
      [destruct (g v) eqn:Hg |].
    + exists (k :: keys). split; [| split].
      * apply NoDup_cons. split; [| exact Hkeys].
        intros Hin. apply list_elem_of_In in Hin.
        now apply (Hrest k Hin).
      * cbn [length]. now rewrite Hlen.
      * intros k'. cbn [In]. rewrite Hmem. split.
        -- intros [<- | (v' & Hin & Hv)];
             [exists v; now split; [left |] | exists v'; now split; [right |]].
        -- intros (v' & [[= <- <-] | Hin] & Hv);
             [now left | right; now exists v'].
    + exists keys. split; [exact Hkeys | split; [exact Hlen |]].
      intros k'. rewrite Hmem. split.
      * intros (v' & Hin & Hv). exists v'. now split; [right |].
      * intros (v' & [[= <- <-] | Hin] & Hfv & Hgv);
          [congruence | now exists v'].
    + exists keys. split; [exact Hkeys | split; [exact Hlen |]].
      intros k'. rewrite Hmem. split.
      * intros (v' & Hin & Hv). exists v'. now split; [right |].
      * intros (v' & [[= <- <-] | Hin] & Hfv & Hgv);
          [congruence | now exists v'].
Qed.

Lemma filter_partitions {A} (f : A -> bool) (l : list A) :
  exists kept others,
    Permutation l (kept ++ others)
    /\ kept = List.filter f l
    /\ Forall (fun x => f x = true) kept
    /\ Forall (fun x => f x = false) others.
Proof.
  induction l as [| x rest (kept & others & Hperm & -> & Hkept & Hothers)].
  - exists [], []. repeat split; constructor.
  - cbn [List.filter]. destruct (f x) eqn:Hf.
    + exists (x :: List.filter f rest), others.
      repeat split; [| now constructor | exact Hothers].
      cbn [app]. now constructor.
    + exists (List.filter f rest), (x :: others).
      repeat split; [| exact Hkept | now constructor].
      now apply Permutation_cons_app.
Qed.

(** X27. The statistics of a user count active sessions only. The number
    reported as total is the number of keys of the session ledger that hold
    an active session of the user, and the number reported as active always
    equals it. The flag log splits into the flags filed under the id of such
    a session, which are the ones counted, and the others; resolved flags are
    never more than the flags counted. A user all of whose sessions are ended
    is reported with no session, no flag and an average score of 0, whatever
    the flag log holds. *)
Theorem stats_count_active_sessions_only (uid : string) (st : State)
    (stats : Stats) :
  getStats uid st = Some stats ->
  activeSessions stats = totalSessions stats
  /\ (resolvedFlags stats <= totalFlags stats)%nat
  /\ (exists sids,
        NoDup sids
        /\ length sids = totalSessions stats
        /\ forall sid, In sid sids
                       <-> exists s, sessions st !! sid = Some s
                                     /\ activeFor uid s)
  /\ (exists counted others,
        Permutation (flagLogs st) (counted ++ others)
        /\ length counted = totalFlags stats
        /\ Forall (countsFor uid st) counted
        /\ Forall (fun f => ~ countsFor uid st f) others)
  /\ ((0 < totalSessions stats)%nat <->
      exists sid s, sessions st !! sid = Some s /\ activeFor uid s)
  /\ ((0 < totalFlags stats)%nat <->
      exists f, In f (flagLogs st) /\ countsFor uid st f)
  /\ ((forall sid s, sessions st !! sid = Some s -> ~ activeFor uid s) ->
      totalSessions stats = 0%nat
      /\ totalFlags stats = 0%nat
      /\ averageAnomalyScore stats = 0)
  /\ exists user,
       userById uid st = Some user
       /\ statsProfile stats = behaviorProfile user.
Proof.
  unfold getStats, userById, getAllUsers.
  destruct (find _ (users st)) as [user |]; [| discriminate].
  intros [= <-].
  cbn [activeSessions totalSessions resolvedFlags totalFlags
       averageAnomalyScore statsProfile].
  set (userSessions :=
         List.filter (fun s => String.eqb (sessUserId s) uid)
           (getActiveSessions st)).
  assert (Hmember : forall s,
    In s userSessions
    <-> exists sid, sessions st !! sid = Some s /\ activeFor uid s).
  { intros s. unfold userSessions, activeFor.
    rewrite filter_In, active_sessions_members, String.eqb_eq.
    split.
    - intros [[[sid Hsid] Hactive] Howner]. now exists sid.
    - intros (sid & Hsid & Howner & Hactive).
      split; [split; [now exists sid | exact Hactive] | exact Howner]. }
  assert (Hsessions : (0 < length userSessions)%nat <->
    exists sid s, sessions st !! sid = Some s /\ activeFor uid s).
  { rewrite nonempty_has_member. split.
    - intros [s Hin]. apply Hmember in Hin as [sid Hs]. now exists sid, s.
    - intros (sid & s & Hs). exists s. apply Hmember. now exists sid. }
  assert (Hcounts : forall f,
    existsb (fun s => String.eqb (sessId s) (flagSessionId f)) userSessions
    = true <-> countsFor uid st f).
  { intros f. rewrite existsb_exists. unfold countsFor. split.
    - intros (s & Hs & Heq). apply String.eqb_eq in Heq.
      apply Hmember in Hs as (sid & Hsid & Hfor). now exists sid, s.
    - intros (sid & s & Hsid & Hfor & Heq). exists s.
      split; [apply Hmember; now exists sid | now apply String.eqb_eq]. }
  assert (Hflags :
    (0 < length (List.filter
                   (fun log =>
                      existsb
                        (fun s => String.eqb (sessId s) (flagSessionId log))
                        userSessions)
                   (getFlagLogs None st)))%nat <->
    exists f, In f (flagLogs st) /\ countsFor uid st f).
  { rewrite nonempty_has_member. unfold getFlagLogs. split.
    - intros [f Hin]. apply filter_In in Hin as [Hin Hsome].
      exists f. split; [exact Hin | now apply Hcounts].
    - intros (f & Hin & Hfor).
      exists f. apply filter_In. split; [exact Hin | now apply Hcounts]. }
  split; [| split; [| split; [| split; [| split; [exact Hsessions |
                              split; [exact Hflags | split]]]]]].
  - f_equal. apply forallb_filter_id. apply forallb_forall.
    intros s Hin. apply Hmember in Hin as (sid & _ & _ & Hactive).
    exact Hactive.
  - apply List.filter_length_le.
  - destruct (keyed_filter_count (fun s => isActive s)
                (fun s => String.eqb (sessUserId s) uid)
                (map_to_list (sessions st))
                (NoDup_fst_map_to_list (sessions st)))
      as (sids & Hnodup & Hlen & Hsids).
    exists sids. split; [exact Hnodup | split; [exact Hlen |]].
    intros sid. rewrite Hsids. unfold activeFor. split.
    + intros (s & Hin & Hactive & Howner). exists s.
      apply list_elem_of_In, elem_of_map_to_list in Hin.
      now apply String.eqb_eq in Howner.
    + intros (s & Hsid & Howner & Hactive). exists s.
      split; [now apply list_elem_of_In, elem_of_map_to_list |].
      split; [exact Hactive | now apply String.eqb_eq].
  - destruct (filter_partitions
                (fun log =>
                   existsb
                     (fun s => String.eqb (sessId s) (flagSessionId log))
                     userSessions)
                (flagLogs st))
      as (counted & others & Hperm & -> & Hkept & Hothers).
    exists (List.filter
              (fun log =>
                 existsb
                   (fun s => String.eqb (sessId s) (flagSessionId log))
                   userSessions)
              (flagLogs st)), others.
    split; [exact Hperm | split; [reflexivity | split]].
    + eapply Forall_impl; [exact Hkept |].
      intros f Hf. now apply Hcounts.
    + eapply Forall_impl; [exact Hothers |].
      intros f Hf Hfor. apply Hcounts in Hfor. cbv beta in Hf. congruence.
  - intros Hnone.
    assert (Hno : length userSessions = 0%nat).
    { destruct (Nat.eq_0_gt_0_cases (length userSessions)) as [| Hpos];
        [assumption |].
      apply Hsessions in Hpos as (sid & s & Hsid & Hfor).
      now destruct (Hnone sid s Hsid). }
    split; [exact Hno |]. split.
    + destruct (Nat.eq_0_gt_0_cases
        (length (List.filter
                   (fun log =>
                      existsb
                        (fun s => String.eqb (sessId s) (flagSessionId log))
                        userSessions)
                   (getFlagLogs None st)))) as [| Hpos]; [assumption |].
      apply Hflags in Hpos as (f & _ & sid & s & Hsid & Hfor & _).
      now destruct (Hnone sid s Hsid).
    + now rewrite Hno.
  - now exists user.
Qed.

Lemma stats_count_active_sessions_only_witness :
  exists stats,
    getStats "1" flaggedLedger = Some stats
    /\ activeSessions stats = totalSessions stats
    /\ (0 < totalSessions stats)%nat
    /\ (0 < totalFlags stats)%nat.
Proof.
  eexists. split; [reflexivity |].
  match goal with
  | |- activeSessions ?stats = _ /\ _ =>
      destruct (stats_count_active_sessions_only "1" flaggedLedger stats
                  eq_refl)
        as (Hequal & _ & _ & _ & Hsessions & Hflags & _)
  end.
  split; [exact Hequal |]. split.
  - apply Hsessions.
    exists "session-1000", (fst (createSession "1" 1000 oneUser)).
    repeat split.
  - apply Hflags.
    exists (fst (addFlagLog (lowFlag "session-1000") 7
                   (snd (createSession "1" 1000 oneUser)))).
    split; [apply in_or_app; right; now left |].
    exists "session-1000", (fst (createSession "1" 1000 oneUser)).
    repeat split.
Defined.

End ProfileRoute.

Section LoginRoute.

Import BehaviorAnalysisService UserService AuthRoutes.

Lemma authenticateUser_some credentials now st :
  exists user, fst (authenticateUser credentials now st) = Some user.
Proof.
  unfold authenticateUser. destruct (find _ (users st)); eexists; reflexivity.
Qed.

Lemma authenticateUser_registers credentials now st :
  is_Some (getUserByUsername (credUsername credentials)
             (snd (authenticateUser credentials now st)))
  /\ sessions (snd (authenticateUser credentials now st)) = sessions st
  /\ flagLogs (snd (authenticateUser credentials now st)) = flagLogs st.
Proof.
  unfold authenticateUser, getUserByUsername.
  destruct (find _ (users st)) as [stored |] eqn:Hfind;
    cbn [snd users sessions flagLogs].
  - rewrite (setLastLogin_find_same _ _ _ _ Hfind). now split; [eexists |].
  - rewrite (find_app_none _ _ _ Hfind). cbn [find username].
    rewrite String.eqb_refl. now split; [eexists |].
Qed.

Lemma wellFormedLogin_cases (body : LoginBody) :
  wellFormedLogin body
  \/ (~ wellFormedLogin body
      /\ forall now st, postLogin body now st = (LoginBadRequest, st)).
Proof.
  unfold wellFormedLogin, postLogin.
  destruct (bodyCredentials body) as [credentials |].
  - destruct (credUsername credentials) as [| c1 s1] eqn:Hu.
    + right. split; [| reflexivity].
      intros (c & [= <-] & Hname & _). congruence.
    + destruct (credPassword credentials) as [| c2 s2] eqn:Hp.
      * right. split; [| reflexivity].
        intros (c & [= <-] & _ & Hpass). congruence.
      * left. exists credentials. rewrite Hu, Hp. now repeat split.
  - right. split; [| reflexivity]. intros (c & Hc & _). discriminate.
Qed.

Lemma postLogin_wellFormed (body : LoginBody) credentials now st :
  bodyCredentials body = Some credentials ->
  credUsername credentials <> "" ->
  credPassword credentials <> "" ->
  exists user,
    fst (authenticateUser credentials now st) = Some user
    /\ (bodyLoginMetrics body = None ->
        postLogin body now st
        = (LoginServerError, snd (authenticateUser credentials now st)))
    /\ (forall m, bodyLoginMetrics body = Some m ->
        let a := analyzeBehavior m (behaviorProfile user) in
        exists profile st',
          postLogin body now st
          = (LoginSuccess user
               {| viewId := "session-" +:+ dateNowString now;
                  viewStartTime := now;
                  viewAnomalyScore := score a |}
               profile a,
             st')
          /\ sessions st'
             = <["session-" +:+ dateNowString now := loginSession user now a]>
                 (sessions st)).
Proof.
  intros Hc Hname Hpass.
  destruct (authenticateUser_some credentials now st) as [user Huser].
  destruct (authenticateUser_registers credentials now st) as (_ & Hsess & _).
  exists user. split; [exact Huser |].
  unfold postLogin. rewrite Hc.
  destruct (credUsername credentials) as [| c1 s1]; [contradiction |].
  destruct (credPassword credentials) as [| c2 s2]; [contradiction |].
  destruct (authenticateUser credentials now st) as [answer st1].
  cbn [fst snd] in *. subst answer.
  split.
  - intros Hm. now rewrite Hm.
  - intros m Hm. cbv zeta. rewrite Hm.
    unfold createSession. cbn [sessId startTime].
    set (a := analyzeBehavior m (behaviorProfile user)).
    set (sid := "session-" +:+ dateNowString now).
    match goal with
    | |- context [updateSessionActivity sid (score a) now ?s] =>
        set (opened := s)
    end.
    assert (Hscored :
      sessions (updateSessionActivity sid (score a) now opened)
      = <[sid := loginSession user now a]> (sessions st)).
    { unfold updateSessionActivity, opened. cbn [sessions].
      rewrite lookup_insert_eq. cbn [sessions].
      rewrite insert_insert_eq, Hsess. reflexivity. }
    do 2 eexists. split; [reflexivity |].
    rewrite (proj1 (updateBehaviorProfile_frame _ _ _ _ _)).
    destruct (Rlt_dec 30 (score a)); exact Hscored.
Qed.

(** X28. POST /login never turns credentials down: it answers 400 exactly when
    the credentials are missing or have an empty name or password, and then
    changes nothing; it answers 500 exactly when the credentials are fine
    and the metrics are missing, and by then it has registered or stamped
    the user, without opening a session or raising a flag; it never answers
    401. *)
Theorem login_never_rejects_credentials (body : LoginBody) (now : Z)
    (st : State) :
  let answer := fst (postLogin body now st) in
  let st' := snd (postLogin body now st) in
  answer <> LoginUnauthorized
  /\ (answer = LoginBadRequest <-> ~ wellFormedLogin body)
  /\ (answer = LoginBadRequest -> st' = st)
  /\ (answer = LoginServerError
      <-> wellFormedLogin body /\ bodyLoginMetrics body = None)
  /\ (answer = LoginServerError ->
      forall credentials, bodyCredentials body = Some credentials ->
        is_Some (getUserByUsername (credUsername credentials) st')
        /\ sessions st' = sessions st
        /\ flagLogs st' = flagLogs st).
Proof.
  cbv zeta.
  destruct (wellFormedLogin_cases body) as [Hwf | [Hnot Hbad]].
  - destruct Hwf as (credentials & Hc & Hname & Hpass).
    assert (Hwf : wellFormedLogin body) by now exists credentials.
    destruct (postLogin_wellFormed body credentials now st Hc Hname Hpass)
      as (user & Huser & Hnone & Hsome).
    destruct (bodyLoginMetrics body) as [m |] eqn:Hm.
    + destruct (Hsome m eq_refl) as (profile & st' & -> & _). cbn [fst snd].
      split; [discriminate |].
      split; [split; [discriminate | contradiction] |].
      split; [discriminate |].
      split; [split; [discriminate | intros [_ ?]; discriminate] |].
      discriminate.
    + rewrite (Hnone eq_refl). cbn [fst snd].
      split; [discriminate |].
      split; [split; [discriminate | contradiction] |].
      split; [discriminate |].
      split; [split; [now split | reflexivity] |].
      intros _ c Hc'. rewrite Hc in Hc'. injection Hc' as <-.
      apply authenticateUser_registers.
  - rewrite Hbad. cbn [fst snd].
    split; [discriminate |].
    split; [split; [now intros _ | reflexivity] |].
    split; [reflexivity |].
    split; [split; [discriminate | intros [? _]; contradiction] |].
    discriminate.
Qed.

(** X29. A login with credentials and metrics succeeds for any password: the
    sample is scored against the profile of the authenticated user, and the
    ledger then holds, under the id that is answered, an active session of
    that user carrying the score; the other sessions are as they were. *)
Theorem login_opens_a_scored_session (body : LoginBody)
    (credentials : UserCredentials) (m : BehaviorMetrics) (other : string)
    (now : Z) (st : State) :
  bodyCredentials body = Some credentials ->
  credUsername credentials <> "" ->
  credPassword credentials <> "" ->
  bodyLoginMetrics body = Some m ->
  exists user view profile,
    let a := analyzeBehavior m (behaviorProfile user) in
    fst (postLogin body now st) = LoginSuccess user view profile a
    /\ fst (authenticateUser credentials now st) = Some user
    /\ viewAnomalyScore view = score a
    /\ viewStartTime view = now
    /\ getSession (viewId view) (snd (postLogin body now st))
       = Some (loginSession user now a)
    /\ (other <> viewId view ->
        getSession other (snd (postLogin body now st)) = getSession other st).
Proof.
  intros Hc Hname Hpass Hm.
  destruct (postLogin_wellFormed body credentials now st Hc Hname Hpass)
    as (user & Huser & _ & Hsome).
  destruct (Hsome m Hm) as (profile & st' & Hrun & Hsessions).
  exists user. eexists. exists profile. cbv zeta.
  rewrite Hrun. cbn [fst snd viewAnomalyScore viewStartTime viewId].
  unfold getSession. rewrite Hsessions.
  split; [reflexivity |]. split; [exact Huser |].
  split; [reflexivity |]. split; [reflexivity |].
  split; [apply lookup_insert_eq |].
  intros Hne. now apply lookup_insert_ne.
Qed.

Lemma login_opens_a_scored_session_witness :
  bodyCredentials (aliceLogin (Some typingOutlier)) = Some alice
  /\ credUsername alice <> ""
  /\ credPassword alice <> ""
  /\ bodyLoginMetrics (aliceLogin (Some typingOutlier)) = Some typingOutlier
  /\ exists user view profile,
       fst (postLogin (aliceLogin (Some typingOutlier)) 1000 oneUser)
       = LoginSuccess user view profile
           (analyzeBehavior typingOutlier (behaviorProfile user)).
Proof.
  assert (Hname : credUsername alice <> "") by discriminate.
  assert (Hpass : credPassword alice <> "") by discriminate.
  repeat split; try assumption.
  destruct (login_opens_a_scored_session (aliceLogin (Some typingOutlier))
              alice typingOutlier "" 1000 oneUser eq_refl Hname Hpass eq_refl)
    as (user & view & profile & Hrun & _).
  now exists user, view, profile.
Defined.

(** X30. Logging out with the session id a login has answered leaves the session
    in the ledger, ended, with the score of the login on it; a logout
    without session id, or with an empty one, changes nothing, and a second
    logout changes nothing more. *)
Theorem logout_ends_the_login_session (body : LoginBody)
    (credentials : UserCredentials) (m : BehaviorMetrics)
    (now : Z) (st : State) :
  bodyCredentials body = Some credentials ->
  credUsername credentials <> "" ->
  credPassword credentials <> "" ->
  bodyLoginMetrics body = Some m ->
  exists user,
    let a := analyzeBehavior m (behaviorProfile user) in
    let sid := "session-" +:+ dateNowString now in
    let loggedIn := snd (postLogin body now st) in
    let loggedOut := postLogout (Some sid) loggedIn in
    getSession sid loggedOut = Some (deactivated (loginSession user now a))
    /\ isActive (deactivated (loginSession user now a)) = false
    /\ anomalyScore (deactivated (loginSession user now a)) = score a
    /\ postLogout (Some sid) loggedOut = loggedOut
    /\ postLogout None loggedIn = loggedIn
    /\ postLogout (Some "") loggedIn = loggedIn
    /\ users loggedOut = users loggedIn
    /\ flagLogs loggedOut = flagLogs loggedIn.
Proof.
  intros Hc Hname Hpass Hm.
  destruct (postLogin_wellFormed body credentials now st Hc Hname Hpass)
    as (user & Huser & _ & Hsome).
  destruct (Hsome m Hm) as (profile & st' & Hrun & Hsessions).
  exists user. cbv zeta. rewrite Hrun. cbn [snd].
  assert (Hstored : sessions st' !! ("session-" +:+ dateNowString now)
                    = Some (loginSession user now
                              (analyzeBehavior m (behaviorProfile user))))
    by (rewrite Hsessions; apply lookup_insert_eq).
  change (postLogout (Some ("session-" +:+ dateNowString now)))
    with (endSession ("session-" +:+ dateNowString now)).
  split; [| split; [| split; [| split; [| split; [| split; [| split]]]]]];
    try reflexivity.
  - unfold getSession. rewrite (endSession_known _ _ _ Hstored).
    cbn [sessions]. apply lookup_insert_eq.
  - apply endSession_idempotent.
  - now rewrite (endSession_known _ _ _ Hstored).
  - now rewrite (endSession_known _ _ _ Hstored).
Qed.

Lemma logout_ends_the_login_session_witness :
  bodyCredentials (aliceLogin (Some typingOutlier)) = Some alice
  /\ credUsername alice <> ""
  /\ credPassword alice <> ""
  /\ bodyLoginMetrics (aliceLogin (Some typingOutlier)) = Some typingOutlier
  /\ exists user,
       getSession "session-1000"
         (postLogout (Some "session-1000")
            (snd (postLogin (aliceLogin (Some typingOutlier)) 1000 oneUser)))
       = Some (deactivated
                 (loginSession user 1000
                    (analyzeBehavior typingOutlier (behaviorProfile user)))).
Proof.
  assert (Hname : credUsername alice <> "") by discriminate.
  assert (Hpass : credPassword alice <> "") by discriminate.
  repeat split; try assumption.
  destruct (logout_ends_the_login_session (aliceLogin (Some typingOutlier))
              alice typingOutlier 1000 oneUser eq_refl Hname Hpass eq_refl)
    as (user & Hsession & _).
  now exists user.
Defined.

End LoginRoute.
